(** * Clock and timer core of nautilus_trader: test timers and the test clock

    A shallow embedding of [nautilus_trader/common/clock.pyx]
    ([Timer], [TestTimer], [Clock], [TestClock]) and the properties of
    its event generation, registry bookkeeping and failure behaviour.

    Conventions of the embedding.
    - A [datetime] is the integer number of microseconds since the Unix
      epoch and a [timedelta] an integer number of microseconds (the
      resolution of the Python types).  Python's datetimes run from
      [datetime.min] (year 1) to [datetime.max] (year 9999): adding a
      [timedelta] to a [datetime] raises [OverflowError] when the sum
      leaves that range ([datetime_add]).  An integer outside the range
      stands for no [datetime].
    - A Python [dict] is an insertion-ordered association list ([PyDict]).
    - The [while] loop of [TestTimer.advance] is run with fuel: [None]
      (and [Timeout] at the clock level) stands for a loop that has not
      finished within the fuel; a loop that finishes for no fuel never
      returns.
    - Clock methods live in a state and exception monad whose [Raise]
      carries the state reached when the exception left the method.
    - The logger ([_log], [is_logger_registered]) only prints and is left
      out.  [LiveTimer] and [LiveClock] (operating system threads) are
      not modelled. *)

From Stdlib Require Import ZArith List String Bool Lia Sorted.
Import ListNotations.
Open Scope Z_scope.

(** ** Values *)

Definition datetime := Z.
Definition timedelta := Z.

(** [datetime.min] is 0001-01-01 00:00:00 and [datetime.max] is
    9999-12-31 23:59:59.999999, in microseconds from the epoch. *)
Definition datetime_min : datetime := -62135596800000000.
Definition datetime_max : datetime := 253402300799999999.

Definition in_range (d : Z) : bool :=
  (datetime_min <=? d) && (d <=? datetime_max).

(** [d + i] for a [datetime] [d] and a [timedelta] [i]; [None] is
    Python's [OverflowError] (date value out of range). *)
Definition datetime_add (d : datetime) (i : timedelta) : option datetime :=
  if in_range (d + i) then Some (d + i) else None.

(** Modelled from the spec: [Label] (nautilus_trader.model.identifiers) is
    not among the sources; the spec gives it as an opaque value with a
    string [.value], hashable, with equality by string. *)
Definition Label := string.

(** Modelled from the spec: [GUID] (nautilus_trader.core.types) wraps the
    value of [uuid.uuid4()]; here the natural number naming the draw. *)
Definition GUID := nat.

(** A callable handler, by identity. *)
Definition Handler := nat.

(** A Python object passed where a handler is expected. *)
Inductive pyobj :=
| PyNone
| PyCallable (h : Handler)
| PyOther.

(** ** Python dictionaries *)

Module PyDict.
Section Dict.
Context {K V : Type} (keq : K -> K -> bool).

Definition keys (d : list (K * V)) : list K := map fst d.
Definition values (d : list (K * V)) : list V := map snd d.

(** [d.get(k)] *)
Fixpoint get (k : K) (d : list (K * V)) : option V :=
  match d with
  | [] => None
  | (k', v) :: d' => if keq k k' then Some v else get k d'
  end.

(** [k in d] *)
Definition contains (k : K) (d : list (K * V)) : bool :=
  match get k d with Some _ => true | None => false end.

(** [d[k] = v]: an existing key keeps its place (and its key object),
    a new key goes to the end. *)
Fixpoint set (k : K) (v : V) (d : list (K * V)) : list (K * V) :=
  match d with
  | [] => [(k, v)]
  | (k', v') :: d' =>
      if keq k k' then (k', v) :: d' else (k', v') :: set k v d'
  end.

(** [d.pop(k, None)], the dictionary that is left. *)
Fixpoint pop (k : K) (d : list (K * V)) : list (K * V) :=
  match d with
  | [] => []
  | (k', v') :: d' => if keq k k' then d' else (k', v') :: pop k d'
  end.

(** The object stored under [k] was mutated in place and now reads [v];
    nothing happens when [k] is no longer a key. *)
Fixpoint mutate (k : K) (v : V) (d : list (K * V)) : list (K * V) :=
  match d with
  | [] => []
  | (k', v') :: d' =>
      if keq k k' then (k', v) :: d' else (k', v') :: mutate k v d'
  end.
End Dict.
End PyDict.

(** ** [sorted] *)

(** Python's [sorted] is stable and compares with [<] only; an insertion
    sort that places an element behind everything it is not smaller than
    computes the same list. *)
Fixpoint insert_sorted {A : Type} (lt : A -> A -> bool) (x : A) (l : list A)
  : list A :=
  match l with
  | [] => [x]
  | y :: l' => if lt x y then x :: y :: l' else y :: insert_sorted lt x l'
  end.

Definition sorted {A : Type} (lt : A -> A -> bool) (l : list A) : list A :=
  fold_left (fun acc x => insert_sorted lt x acc) l [].

(** ** TimeEvent *)

Module TimeEvent.
Record t := mk { label : Label; id : GUID; timestamp : datetime }.

(** Modelled from the spec: the class [TimeEvent]
    (nautilus_trader.model.events) is not among the sources.  The spec:
    equality and hash are by [id]; two events are ordered by
    [timestamp], then by [label]. *)
Definition eqb (a b : t) : bool := Nat.eqb (id a) (id b).

Definition ltb (a b : t) : bool :=
  (timestamp a <? timestamp b)
  || ((timestamp a =? timestamp b) && String.ltb (label a) (label b)).
End TimeEvent.

(** ** Timer and TestTimer *)

Module TestTimer.
Record t := mk {
  label : Label;
  interval : timedelta;
  start_time : datetime;
  next_time : datetime;
  stop_time : option datetime;
  expired : bool
}.

(** [Timer.__init__] followed by [self.expired = False]; [None] when
    [start_time + interval] raises [OverflowError]. *)
Definition new (label : Label) (interval : timedelta)
    (start_time : datetime) (stop_time : option datetime) : option t :=
  match datetime_add start_time interval with
  | Some next => Some (mk label interval start_time next stop_time false)
  | None => None
  end.

(** [self.next_time += self.interval].  The method is [cpdef void]
    without an [except] clause: an [OverflowError] of the addition cannot
    leave it, it is reported and dropped, and the method returns with
    [next_time] as it was. *)
Definition iterate_next (tm : t) : t :=
  match datetime_add (next_time tm) (interval tm) with
  | Some next =>
      mk (label tm) (interval tm) (start_time tm) next (stop_time tm)
         (expired tm)
  | None => tm
  end.

Definition set_expired (tm : t) (b : bool) : t :=
  mk (label tm) (interval tm) (start_time tm) (next_time tm)
     (stop_time tm) b.

(** [if self.stop_time and self.next_time > self.stop_time:
       self.expired = True]
    (a [datetime] is always truthy, so the first conjunct tests for
    [None]). *)
Definition check_stop (tm : t) : t :=
  match stop_time tm with
  | Some s => if next_time tm >? s then set_expired tm true else tm
  | None => tm
  end.

(** The loop of [advance].  [uuid4 n] is the value of the [n]-th
    [uuid.uuid4()] drawn from here on; [time_events] is the list built
    so far.  One unit of fuel pays for one test of the loop condition. *)
Fixpoint advance_loop (fuel : nat) (tm : t) (to_time : datetime)
    (uuid4 : nat -> GUID) (time_events : list TimeEvent.t)
  : option (list TimeEvent.t * t) :=
  match fuel with
  | O => None
  | S fuel' =>
      if negb (expired tm) && (to_time >=? next_time tm) then
        let time_events' :=
          time_events
            ++ [TimeEvent.mk (label tm) (uuid4 O) (next_time tm)] in
        advance_loop fuel' (check_stop (iterate_next tm)) to_time
          (fun n => uuid4 (S n)) time_events'
      else Some (time_events, tm)
  end.

Definition advance (fuel : nat) (tm : t) (to_time : datetime)
    (uuid4 : nat -> GUID) : option (list TimeEvent.t * t) :=
  advance_loop fuel tm to_time uuid4 [].

(** [TestTimer.cancel] *)
Definition cancel (tm : t) : t := set_expired tm true.
End TestTimer.

(** ** The state and exception monad of the clock methods *)

Inductive exn :=
| ConditionFailed | KeyError | TypeError | IndexError | OverflowError.

Inductive result (S A : Type) :=
| Ok (a : A) (s : S)
| Raise (e : exn) (s : S)
| Timeout.
Arguments Ok {S A} a s.
Arguments Raise {S A} e s.
Arguments Timeout {S A}.

Definition M (S A : Type) := S -> result S A.

Definition ret {S A : Type} (a : A) : M S A := fun s => Ok a s.

Definition bind {S A B : Type} (m : M S A) (k : A -> M S B) : M S B :=
  fun s =>
    match m s with
    | Ok a s' => k a s'
    | Raise e s' => Raise e s'
    | Timeout => Timeout
    end.

Definition raise {S A : Type} (e : exn) : M S A := fun s => Raise e s.

(** The value of a [datetime] computation, or its [OverflowError]. *)
Definition checked {S A : Type} (o : option A) : M S A :=
  match o with
  | Some a => ret a
  | None => raise OverflowError
  end.
Definition get_state {S : Type} : M S S := fun s => Ok s s.
Definition modify {S : Type} (f : S -> S) : M S unit := fun s => Ok tt (f s).

Declare Scope monad_scope.
Delimit Scope monad_scope with monad.
Notation "x <- m ;; k" := (bind m (fun x => k))
  (at level 61, m at next level, right associativity) : monad_scope.
Notation "m ;;; k" := (bind m (fun _ => k))
  (at level 61, right associativity) : monad_scope.
Open Scope monad_scope.

(** [for x in xs: body x] *)
Fixpoint for_each {S A : Type} (xs : list A) (body : A -> M S unit)
  : M S unit :=
  match xs with
  | [] => ret tt
  | x :: xs' => body x ;;; for_each xs' body
  end.

(** Modelled from the spec: the class [Condition]
    (nautilus_trader.core.correctness) is not among the sources.  Each
    check raises [ConditionFailed] when its condition does not hold (the
    docstrings of the setters) and does nothing else. *)
Module Condition.
Definition true {S : Type} (b : bool) : M S unit :=
  if b then ret tt else raise ConditionFailed.

Definition not_in {S V : Type} (k : Label) (d : list (Label * V))
  : M S unit :=
  if PyDict.contains String.eqb k d then raise ConditionFailed else ret tt.

(** [Condition.type(handler, Callable, 'handler')]; the value returned
    is the callable itself. *)
Definition callable {S : Type} (o : pyobj) : M S Handler :=
  match o with
  | PyCallable h => ret h
  | _ => raise ConditionFailed
  end.
End Condition.

(** ** Clock and TestClock *)

Module TestClock.
Record t := mk {
  _timers : list (Label * TestTimer.t);
  _handlers : list (Label * Handler);
  _default_handler : option Handler;
  next_event_time : option datetime;
  has_timers : bool;
  is_default_handler_registered : bool;
  _time : datetime
}.

(** [Clock.__init__] and [TestClock.__init__] *)
Definition init (initial_time : datetime) : t :=
  mk [] [] None None false false initial_time.

Definition with_timers (c : t) (d : list (Label * TestTimer.t)) : t :=
  mk d (_handlers c) (_default_handler c) (next_event_time c)
     (has_timers c) (is_default_handler_registered c) (_time c).

Definition with_handlers (c : t) (d : list (Label * Handler)) : t :=
  mk (_timers c) d (_default_handler c) (next_event_time c)
     (has_timers c) (is_default_handler_registered c) (_time c).

Definition with_timing (c : t) (b : bool) (n : option datetime) : t :=
  mk (_timers c) (_handlers c) (_default_handler c) n b
     (is_default_handler_registered c) (_time c).

Definition with_default_handler (c : t) (h : Handler) : t :=
  mk (_timers c) (_handlers c) (Some h) (next_event_time c)
     (has_timers c) true (_time c).

Definition with_time (c : t) (to_time : datetime) : t :=
  mk (_timers c) (_handlers c) (_default_handler c) (next_event_time c)
     (has_timers c) (is_default_handler_registered c) to_time.

Definition time_now (c : t) : datetime := _time c.

Definition get_delta (c : t) (time : datetime) : timedelta :=
  time_now c - time.

Definition get_timer_labels (c : t) : list Label :=
  PyDict.keys (_timers c).

Definition register_default_handler (handler : pyobj) : M t unit :=
  h <- Condition.callable handler ;;
  modify (fun c => with_default_handler c h).

Definition set_time (to_time : datetime) : M t unit :=
  modify (fun c => with_time c to_time).

(** [sorted(timer.next_time for timer in self._timers.values())[0]] *)
Definition first_next_time (c : t) : M t datetime :=
  match sorted Z.ltb
          (map TestTimer.next_time (PyDict.values (_timers c))) with
  | x :: _ => ret x
  | [] => raise IndexError
  end.

Definition _update_timing : M t unit :=
  c <- get_state ;;
  if (List.length (_timers c) =? 0)%nat then
    modify (fun c => with_timing c false None)
  else
    x <- first_next_time c ;;
    modify (fun c => with_timing c true (Some x)).

Definition _add_timer (timer : TestTimer.t) (handler : Handler)
  : M t unit :=
  modify (fun c =>
    with_timers c
      (PyDict.set String.eqb (TestTimer.label timer) timer (_timers c))) ;;;
  modify (fun c =>
    with_handlers c
      (PyDict.set String.eqb (TestTimer.label timer) handler
         (_handlers c))) ;;;
  _update_timing.

Definition _remove_timer (timer : TestTimer.t) : M t unit :=
  modify (fun c =>
    with_timers c
      (PyDict.pop String.eqb (TestTimer.label timer) (_timers c))) ;;;
  modify (fun c =>
    with_handlers c
      (PyDict.pop String.eqb (TestTimer.label timer) (_handlers c))) ;;;
  _update_timing.

(** [TestClock._get_timer] *)
Definition _get_timer (label : Label) (event_time : datetime)
  : M t TestTimer.t :=
  c <- get_state ;;
  checked (TestTimer.new label (event_time - time_now c) (time_now c)
             (Some event_time)).

(** [TestClock._get_timer_repeating] *)
Definition _get_timer_repeating (label : Label) (interval : timedelta)
    (start_time : datetime) (stop_time : option datetime)
  : M t TestTimer.t :=
  checked (TestTimer.new label interval start_time stop_time).

(** [handler = self._default_handler] when [handler is None] *)
Definition or_default (c : t) (handler : pyobj) : pyobj :=
  match handler with
  | PyNone =>
      match _default_handler c with
      | Some h => PyCallable h
      | None => PyNone
      end
  | _ => handler
  end.

Definition set_time_alert (label : Label) (alert_time : datetime)
    (handler : pyobj) : M t unit :=
  c <- get_state ;;
  let handler := or_default c handler in
  Condition.not_in label (_timers c) ;;;
  Condition.not_in label (_handlers c) ;;;
  h <- Condition.callable handler ;;
  Condition.true (alert_time >=? time_now c) ;;;
  timer <- _get_timer label alert_time ;;
  _add_timer timer h.

Definition set_timer (label : Label) (interval : timedelta)
    (start_time : option datetime) (stop_time : option datetime)
    (handler : pyobj) : M t unit :=
  c <- get_state ;;
  let handler := or_default c handler in
  Condition.not_in label (_timers c) ;;;
  Condition.not_in label (_handlers c) ;;;
  Condition.true (interval >? 0) ;;;
  h <- Condition.callable handler ;;
  start <- match start_time with
           | None =>
               let start := time_now c in
               event_time <- checked (datetime_add start interval) ;;
               Condition.true (event_time >=? time_now c) ;;;
               ret start
           | Some start => ret start
           end ;;
  match stop_time with
  | Some stop =>
      Condition.true (start <? stop) ;;;
      event_time <- checked (datetime_add start interval) ;;
      Condition.true (event_time <=? stop)
  | None => ret tt
  end ;;;
  timer <- _get_timer_repeating label interval start stop_time ;;
  _add_timer timer h.

(** [timer = self._timers.pop(label, None)]: a missing label only logs a
    warning; a timer found is cancelled, which marks an object that the
    registry no longer holds. *)
Definition cancel_timer (label : Label) : M t unit :=
  c <- get_state ;;
  let timer := PyDict.get String.eqb label (_timers c) in
  modify (fun c =>
    with_timers c (PyDict.pop String.eqb label (_timers c))) ;;;
  match timer with
  | None => ret tt
  | Some timer => let cancelled := TestTimer.cancel timer in ret tt
  end ;;;
  modify (fun c =>
    with_handlers c (PyDict.pop String.eqb label (_handlers c))) ;;;
  _update_timing.

Definition cancel_all_timers : M t unit :=
  c <- get_state ;;
  for_each (get_timer_labels c) cancel_timer.

(** [self._handlers[label]] *)
Definition handler_of (label : Label) : M t Handler :=
  c <- get_state ;;
  match PyDict.get String.eqb label (_handlers c) with
  | Some h => ret h
  | None => raise KeyError
  end.

(** [for event in time_events:
       events[event] = self._handlers[timer.label]] *)
Fixpoint collect (label : Label) (time_events : list TimeEvent.t)
    (events : list (TimeEvent.t * Handler))
  : M t (list (TimeEvent.t * Handler)) :=
  match time_events with
  | [] => ret events
  | event :: rest =>
      h <- handler_of label ;;
      collect label rest (PyDict.set TimeEvent.eqb event h events)
  end.

(** The loop over the snapshot [self._timers.copy()].  The snapshot
    holds the same timer objects as the registry: what [advance] does
    to a timer is seen in the registry entry [key] that holds it
    ([PyDict.mutate]).  Every object is visited once, so the snapshot's
    value is its state when its turn comes.  The timers draw their
    [uuid4] values one after the other from the same source. *)
Fixpoint iterate_timers (fuel : nat) (to_time : datetime)
    (uuid4 : nat -> GUID) (snapshot : list (Label * TestTimer.t))
    (events : list (TimeEvent.t * Handler))
  : M t (list (TimeEvent.t * Handler)) :=
  match snapshot with
  | [] => ret events
  | (key, timer) :: snapshot' =>
      match TestTimer.advance fuel timer to_time uuid4 with
      | None => fun _ => Timeout
      | Some (time_events, timer') =>
          modify (fun c =>
            with_timers c
              (PyDict.mutate String.eqb key timer' (_timers c))) ;;;
          events' <- collect (TestTimer.label timer') time_events events ;;
          (if TestTimer.expired timer'
           then _remove_timer timer' else ret tt) ;;;
          iterate_timers fuel to_time
            (fun n => uuid4 (List.length time_events + n)%nat)
            snapshot' events'
      end
  end.

(** [to_time < self.next_event_time]; comparing with [None] is a
    [TypeError]. *)
Definition before_next_event (c : t) (to_time : datetime) : M t bool :=
  match next_event_time c with
  | Some n => ret (to_time <? n)
  | None => raise TypeError
  end.

(** [sorted(events.items())]: the items are pairs, and pairs of
    different events compare as the events do. *)
Definition sort_events (events : list (TimeEvent.t * Handler))
  : list (TimeEvent.t * Handler) :=
  sorted (fun a b => TimeEvent.ltb (fst a) (fst b)) events.

Definition advance_time (fuel : nat) (to_time : datetime)
    (uuid4 : nat -> GUID) : M t (list (TimeEvent.t * Handler)) :=
  c <- get_state ;;
  let events := [] in
  idle <- (if negb (has_timers c) then ret true
           else before_next_event c to_time) ;;
  if idle : bool then ret events
  else
    events <- iterate_timers fuel to_time uuid4 (_timers c) events ;;
    _update_timing ;;;
    modify (fun c => with_time c to_time) ;;;
    ret (sort_events events).
End TestClock.

(** ** Sequences of calls *)

(** The public operations of a test clock.  [AdvanceTime] carries the
    values that [uuid.uuid4()] returns during that call. *)
Inductive op :=
| SetTimeAlert (label : Label) (alert_time : datetime) (handler : pyobj)
| SetTimer (label : Label) (interval : timedelta)
    (start_time stop_time : option datetime) (handler : pyobj)
| CancelTimer (label : Label)
| CancelAllTimers
| AdvanceTime (to_time : datetime) (uuid4 : nat -> GUID)
| SetTime (to_time : datetime)
| RegisterDefaultHandler (handler : pyobj).

Definition exec (fuel : nat) (o : op)
  : M TestClock.t (list (TimeEvent.t * Handler)) :=
  match o with
  | SetTimeAlert l a h => TestClock.set_time_alert l a h ;;; ret []
  | SetTimer l i st sp h => TestClock.set_timer l i st sp h ;;; ret []
  | CancelTimer l => TestClock.cancel_timer l ;;; ret []
  | CancelAllTimers => TestClock.cancel_all_timers ;;; ret []
  | AdvanceTime to_time uuid4 => TestClock.advance_time fuel to_time uuid4
  | SetTime to_time => TestClock.set_time to_time ;;; ret []
  | RegisterDefaultHandler h =>
      TestClock.register_default_handler h ;;; ret []
  end.

(** The calls of [ops] made one after the other on the clock [c]: for
    each call that came back, what it returned and the clock it left.  A
    caller that catches an exception goes on with the clock as the
    exception left it; nothing follows a call that does not come back. *)
Fixpoint run (fuel : nat) (ops : list op) (c : TestClock.t)
  : list (list (TimeEvent.t * Handler) * TestClock.t) :=
  match ops with
  | [] => []
  | o :: ops' =>
      match exec fuel o c with
      | Ok events c' => (events, c') :: run fuel ops' c'
      | Raise _ c' => ([], c') :: run fuel ops' c'
      | Timeout => []
      end
  end.

(** [o] registers a timer under the label [L]. *)
Definition registers (L : Label) (o : op) : bool :=
  match o with
  | SetTimeAlert l _ _ => String.eqb l L
  | SetTimer l _ _ _ _ => String.eqb l L
  | _ => false
  end.

(** ** Notions used in the statements *)

(** The timer that [TestTimer(label, interval, start_time, stop_time)]
    builds when [start_time + interval] is a [datetime]. *)
Definition timer_of (label : Label) (interval : timedelta)
    (start_time : datetime) (stop_time : option datetime) : TestTimer.t :=
  TestTimer.mk label interval start_time (start_time + interval) stop_time
    false.

(** The timer of an alert set on the clock [c] for [event_time]. *)
Definition alert_timer (c : TestClock.t) (label : Label)
    (event_time : datetime) : TestTimer.t :=
  timer_of label (event_time - TestClock.time_now c) (TestClock.time_now c)
    (Some event_time).

(** Advancing the timer to [to_time] stays within the datetimes: after
    each moment at which the live timer fires (its [next_time] when that
    is not after [to_time], and every later moment
    [next_time + j * interval] that is after neither [to_time] nor
    [stop_time]), the following moment is still a [datetime]. *)
Definition within_range (tm : TestTimer.t) (to_time : datetime) : Prop :=
  forall j : nat,
    TestTimer.next_time tm + Z.of_nat j * TestTimer.interval tm <= to_time ->
    (forall s, TestTimer.stop_time tm = Some s -> (0 < j)%nat ->
       TestTimer.next_time tm + Z.of_nat j * TestTimer.interval tm <= s) ->
    in_range (TestTimer.next_time tm + Z.of_nat j * TestTimer.interval tm
              + TestTimer.interval tm) = true.

Definition all_within_range (c : TestClock.t) (to_time : datetime) : Prop :=
  Forall (fun tm => within_range tm to_time)
    (PyDict.values (TestClock._timers c)).

(** The instants [start], [start + step], ... ([k] of them). *)
Fixpoint ticks (start step : Z) (k : nat) : list Z :=
  match k with
  | O => []
  | S k' => start :: ticks (start + step) step k'
  end.

Definition next_times (c : TestClock.t) : list datetime :=
  map TestTimer.next_time (PyDict.values (TestClock._timers c)).

Definition keys_agree (c : TestClock.t) : Prop :=
  PyDict.keys (TestClock._timers c) = PyDict.keys (TestClock._handlers c).

(** Every timer is filed under its own label. *)
Definition labelled (c : TestClock.t) : Prop :=
  Forall (fun kv => TestTimer.label (snd kv) = fst kv) (TestClock._timers c).

(** [has_timers] and [next_event_time] say what [_timers] holds. *)
Definition timing_ok (c : TestClock.t) : Prop :=
  match TestClock._timers c with
  | [] =>
      TestClock.has_timers c = false /\ TestClock.next_event_time c = None
  | _ :: _ =>
      TestClock.has_timers c = true /\
      exists m, TestClock.next_event_time c = Some m /\
                In m (next_times c) /\
                Forall (fun x => m <= x) (next_times c)
  end.

Record wf (c : TestClock.t) : Prop := {
  wf_nodup : NoDup (PyDict.keys (TestClock._timers c));
  wf_keys : keys_agree c;
  wf_labelled : labelled c;
  wf_timing : timing_ok c
}.

(** Every registered timer has a strictly positive interval. *)
Definition positive (c : TestClock.t) : Prop :=
  Forall (fun tm => 0 < TestTimer.interval tm)
    (PyDict.values (TestClock._timers c)).

Definition is_callable (o : pyobj) : bool :=
  match o with PyCallable _ => true | _ => false end.

(** The preconditions of [set_time_alert], as its docstring lists them. *)
Definition alert_accepted (c : TestClock.t) (label : Label)
    (alert_time : datetime) (handler : pyobj) : bool :=
  negb (PyDict.contains String.eqb label (TestClock._timers c))
  && negb (PyDict.contains String.eqb label (TestClock._handlers c))
  && is_callable (TestClock.or_default c handler)
  && (TestClock.time_now c <=? alert_time).

(** The preconditions of [set_timer] that the code checks. *)
Definition timer_accepted (c : TestClock.t) (label : Label)
    (interval : timedelta) (start_time stop_time : option datetime)
    (handler : pyobj) : bool :=
  negb (PyDict.contains String.eqb label (TestClock._timers c))
  && negb (PyDict.contains String.eqb label (TestClock._handlers c))
  && (0 <? interval)
  && is_callable (TestClock.or_default c handler)
  && match stop_time with
     | Some stop =>
         let start := match start_time with
                      | Some s => s
                      | None => TestClock.time_now c
                      end in
         (start <? stop) && (start + interval <=? stop)
     | None => true
     end.

(** Fuel that is enough for a timer with a positive interval. *)
Definition enough_fuel (tm : TestTimer.t) (to_time : datetime) : nat :=
  S (Z.to_nat (to_time - TestTimer.next_time tm + 1)).

(** The clock after [_add_timer], before [_update_timing]. *)
Definition registered (c : TestClock.t) (timer : TestTimer.t)
    (handler : Handler) : TestClock.t :=
  TestClock.with_handlers
    (TestClock.with_timers c
       (PyDict.set String.eqb (TestTimer.label timer) timer
          (TestClock._timers c)))
    (PyDict.set String.eqb (TestTimer.label timer) handler
       (TestClock._handlers c)).

(** The clock after the two [pop]s of [cancel_timer] and [_remove_timer],
    before [_update_timing]. *)
Definition unregistered (c : TestClock.t) (label : Label) : TestClock.t :=
  TestClock.with_handlers
    (TestClock.with_timers c
       (PyDict.pop String.eqb label (TestClock._timers c)))
    (PyDict.pop String.eqb label (TestClock._handlers c)).

(** A timer that [advance(to_time)] has nothing more to do with. *)
Definition settled (to_time : datetime) (tm : TestTimer.t) : Prop :=
  TestTimer.expired tm = false /\ to_time < TestTimer.next_time tm.

(** The event [e] can come from advancing the timer [tm] to [to_time]. *)
Definition fired (to_time : datetime) (tm : TestTimer.t) (e : TimeEvent.t)
  : Prop :=
  TimeEvent.label e = TestTimer.label tm /\
  TestTimer.next_time tm <= TimeEvent.timestamp e <= to_time.

(** Fuel that is enough for every timer of a clock whose intervals are
    positive. *)
Definition clock_fuel (c : TestClock.t) (to_time : datetime) : nat :=
  fold_right Nat.max O
    (map (fun tm => enough_fuel tm to_time)
       (PyDict.values (TestClock._timers c))).

(** The guard of [advance_time]: nothing is due at [to_time]. *)
Definition idle (c : TestClock.t) (to_time : datetime) : Prop :=
  TestClock.has_timers c = false \/
  exists n, TestClock.next_event_time c = Some n /\ to_time < n.

(** The number of events that [advance(to_time)] owes for a live timer:
    one for each of [next_time], [next_time + interval], ... up to
    [to_time] and, when there is one, [stop_time]. *)
Definition due_count (tm : TestTimer.t) (to_time : datetime) : nat :=
  let last := match TestTimer.stop_time tm with
              | Some s => Z.min to_time s
              | None => to_time
              end in
  if to_time <? TestTimer.next_time tm then O
  else Z.to_nat ((last - TestTimer.next_time tm) / TestTimer.interval tm + 1).

(** The values of [uuid.uuid4()] are pairwise distinct. *)
Definition distinct_draws (uuid4 : nat -> GUID) : Prop :=
  forall a b, uuid4 a = uuid4 b -> a = b.

(** The loop of [advance_time] under way: the registry holds the timers
    already visited and kept, then the timers still to visit. *)
Definition registry_split (kept rest : list (Label * TestTimer.t))
    (c : TestClock.t) : Prop :=
  TestClock._timers c = kept ++ rest /\
  NoDup (PyDict.keys (kept ++ rest)) /\
  keys_agree c /\
  Forall (fun kv => TestTimer.label (snd kv) = fst kv) (kept ++ rest).

(** What becomes of a registered timer [kv] in a call of [advance_time]
    that takes the clock from [c] to [c']: it is advanced once, it stays
    in the registry as advanced unless it has expired, and then it is
    gone. *)
Definition advanced_once (fuel : nat) (to_time : datetime)
    (c' : TestClock.t) (kv : Label * TestTimer.t)
    (evs : list TimeEvent.t) (tm' : TestTimer.t) : Prop :=
  (exists uuid4,
     TestTimer.advance fuel (snd kv) to_time uuid4 = Some (evs, tm')) /\
  if TestTimer.expired tm'
  then ~ In (fst kv) (PyDict.keys (TestClock._timers c'))
  else In (fst kv, tm') (TestClock._timers c').

(** The events that the timer [kv] adds to the mapping that
    [advance_time] returns. *)
Definition served (fuel : nat) (to_time : datetime) (c c' : TestClock.t)
    (kv : Label * TestTimer.t) (contrib : list (TimeEvent.t * Handler))
  : Prop :=
  exists evs tm' h,
    advanced_once fuel to_time c' kv evs tm' /\
    PyDict.get String.eqb (fst kv) (TestClock._handlers c) = Some h /\
    contrib = map (fun e => (e, h)) evs.

(** The events of a returned mapping that bear the label [k]. *)
Definition events_of (k : Label) (events : list (TimeEvent.t * Handler))
  : list (TimeEvent.t * Handler) :=
  filter (fun p => String.eqb (TimeEvent.label (fst p)) k) events.

(** Every registered timer is live and its [next_time] is not past its
    [stop_time]. *)
Definition live_within_stop (c : TestClock.t) : Prop :=
  Forall (fun tm => TestTimer.expired tm = false /\
                    forall s, TestTimer.stop_time tm = Some s ->
                              TestTimer.next_time tm <= s)
    (PyDict.values (TestClock._timers c)).

(** The registry that the loop of [advance_time] leaves of the timers
    [d]: every timer advanced to [to_time], the expired ones dropped
    (which [uuid4] values are drawn makes no difference to the timers). *)
Definition survivors (fuel : nat) (to_time : datetime)
    (d : list (Label * TestTimer.t)) : list (Label * TestTimer.t) :=
  flat_map
    (fun kv =>
       match TestTimer.advance fuel (snd kv) to_time (fun _ => O) with
       | Some (_, tm') =>
           if TestTimer.expired tm' then [] else [(fst kv, tm')]
       | None => []
       end) d.

(** Unfolding of the monad's operations. *)
Ltac mred :=
  unfold bind, modify, ret, raise, get_state; simpl.

(** ** Dictionaries and sorting *)

Section SortFacts.
Context {A : Type} (lt : A -> A -> bool).

Lemma insert_sorted_In (x y : A) (l : list A) :
  In y (insert_sorted lt x l) <-> y = x \/ In y l.
Proof.
  induction l as [|z l IH]; simpl.
  - intuition.
  - destruct (lt x z); simpl; rewrite ?IH; intuition.
Qed.

Lemma fold_insert_In (y : A) (l acc : list A) :
  In y (fold_left (fun acc x => insert_sorted lt x acc) l acc)
  <-> In y l \/ In y acc.
Proof.
  revert acc; induction l as [|x l IH]; intros acc; simpl.
  - intuition.
  - rewrite IH, insert_sorted_In. intuition.
Qed.

Lemma sorted_In (y : A) (l : list A) : In y (sorted lt l) <-> In y l.
Proof. unfold sorted. rewrite fold_insert_In. simpl. intuition. Qed.

Lemma insert_sorted_length (x : A) (l : list A) :
  List.length (insert_sorted lt x l) = S (List.length l).
Proof.
  induction l as [|z l IH]; simpl; [reflexivity|].
  destruct (lt x z); simpl; [reflexivity | now rewrite IH].
Qed.

Lemma fold_insert_length (l acc : list A) :
  List.length (fold_left (fun acc x => insert_sorted lt x acc) l acc)
  = (List.length l + List.length acc)%nat.
Proof.
  revert acc; induction l as [|x l IH]; intros acc; simpl; [reflexivity|].
  rewrite IH, insert_sorted_length. lia.
Qed.

Lemma sorted_length (l : list A) :
  List.length (sorted lt l) = List.length l.
Proof. unfold sorted. rewrite fold_insert_length. simpl. lia. Qed.

(** An order that [lt] decides well enough for sorting. *)
Variable le : A -> A -> Prop.
Hypothesis le_trans : forall a b c, le a b -> le b c -> le a c.
Hypothesis lt_le : forall a b, lt a b = true -> le a b.
Hypothesis nlt_le : forall a b, lt a b = false -> le b a.

Lemma insert_sorted_sorted (x : A) (l : list A) :
  StronglySorted le l -> StronglySorted le (insert_sorted lt x l).
Proof.
  induction 1 as [|z l Hs IH Hz]; simpl.
  - constructor; constructor.
  - destruct (lt x z) eqn:E.
    + constructor; [now constructor|].
      constructor; [now apply lt_le|].
      eapply Forall_impl; [|exact Hz].
      intros a Ha. eapply le_trans; [apply lt_le; exact E | exact Ha].
    + constructor; [exact IH|].
      apply Forall_forall. intros a Ha.
      apply insert_sorted_In in Ha. destruct Ha as [->|Ha].
      * now apply nlt_le.
      * rewrite Forall_forall in Hz. now apply Hz.
Qed.

Lemma fold_insert_sorted (l acc : list A) :
  StronglySorted le acc ->
  StronglySorted le (fold_left (fun acc x => insert_sorted lt x acc) l acc).
Proof.
  revert acc; induction l as [|x l IH]; intros acc Hacc; simpl.
  - exact Hacc.
  - apply IH. now apply insert_sorted_sorted.
Qed.

Lemma sorted_sorted (l : list A) : StronglySorted le (sorted lt l).
Proof. apply fold_insert_sorted. constructor. Qed.
End SortFacts.

(** The first element of a sorted list of instants is their minimum. *)
Lemma sorted_first_min (l : list Z) :
  l <> [] ->
  exists m rest, sorted Z.ltb l = m :: rest /\ In m l /\ Forall (Z.le m) l.
Proof.
  intros Hne.
  destruct (sorted Z.ltb l) as [|m rest] eqn:E.
  - apply (f_equal (@List.length Z)) in E.
    rewrite sorted_length in E. destruct l; [congruence | discriminate].
  - exists m, rest. split; [reflexivity|].
    assert (Hin : In m l) by (apply (sorted_In Z.ltb); rewrite E; now left).
    split; [exact Hin|].
    assert (Hs : StronglySorted Z.le (sorted Z.ltb l)).
    { apply sorted_sorted; intros; lia. }
    rewrite E in Hs. apply StronglySorted_inv in Hs. destruct Hs as [_ Hall].
    apply Forall_forall. intros x Hx.
    apply (sorted_In Z.ltb) in Hx. rewrite E in Hx. destruct Hx as [->|Hx].
    + lia.
    + rewrite Forall_forall in Hall. now apply Hall.
Qed.

Section DictFacts.
Context {K : Type} (keq : K -> K -> bool).
Hypothesis keq_eq : forall a b, keq a b = true <-> a = b.

Lemma keq_refl (a : K) : keq a a = true.
Proof. now apply keq_eq. Qed.

Lemma get_None {V} (k : K) (d : list (K * V)) :
  PyDict.get keq k d = None <-> ~ In k (PyDict.keys d).
Proof.
  induction d as [|[k' v] d IH]; simpl.
  - intuition.
  - destruct (keq k k') eqn:E.
    + apply keq_eq in E. subst. split; [discriminate | intuition].
    + rewrite IH. split.
      * intros H [H1|H1]; [|now apply H].
        subst. rewrite keq_refl in E. discriminate.
      * intuition.
Qed.

Lemma contains_In {V} (k : K) (d : list (K * V)) :
  PyDict.contains keq k d = true <-> In k (PyDict.keys d).
Proof.
  unfold PyDict.contains.
  destruct (PyDict.get keq k d) eqn:E.
  - split; [intros _ | reflexivity].
    destruct (get_None k d) as [_ H].
    induction d as [|[k' v'] d IH]; simpl in *; [discriminate|].
    destruct (keq k k') eqn:E'.
    + left. symmetry. now apply keq_eq.
    + right. apply IH; [exact E|]. intros Hn. apply get_None. exact Hn.
  - split; [discriminate|]. intros Hin. apply get_None in E. contradiction.
Qed.

Lemma contains_false {V} (k : K) (d : list (K * V)) :
  PyDict.contains keq k d = false <-> ~ In k (PyDict.keys d).
Proof.
  rewrite <- contains_In.
  destruct (PyDict.contains keq k d); split; congruence.
Qed.

(** What [set] and [pop] do to the keys depends on the keys alone. *)
Lemma keys_set {V W} (k : K) (v : V) (w : W) (d : list (K * V))
    (e : list (K * W)) :
  PyDict.keys d = PyDict.keys e ->
  PyDict.keys (PyDict.set keq k v d) = PyDict.keys (PyDict.set keq k w e).
Proof.
  revert e; induction d as [|[k1 v1] d IH]; intros [|[k2 w2] e] H;
    simpl in *; try discriminate; [reflexivity|].
  injection H as -> H.
  destruct (keq k k2); simpl; [now rewrite H | now rewrite (IH e H)].
Qed.

Lemma keys_pop {V W} (k : K) (d : list (K * V)) (e : list (K * W)) :
  PyDict.keys d = PyDict.keys e ->
  PyDict.keys (PyDict.pop keq k d) = PyDict.keys (PyDict.pop keq k e).
Proof.
  revert e; induction d as [|[k1 v1] d IH]; intros [|[k2 w2] e] H;
    simpl in *; try discriminate; [reflexivity|].
  injection H as -> H.
  destruct (keq k k2); simpl; [exact H | now rewrite (IH e H)].
Qed.

Lemma In_pop {V} (k : K) (kv : K * V) (d : list (K * V)) :
  In kv (PyDict.pop keq k d) -> In kv d.
Proof.
  induction d as [|[k1 v1] d IH]; simpl; [tauto|].
  destruct (keq k k1); simpl; intuition.
Qed.

Lemma In_keys_pop {V} (k k' : K) (d : list (K * V)) :
  In k' (PyDict.keys (PyDict.pop keq k d)) -> In k' (PyDict.keys d).
Proof.
  unfold PyDict.keys. rewrite !in_map_iff.
  intros [kv [H1 H2]]. exists kv. split; [exact H1|].
  eapply In_pop; exact H2.
Qed.

Lemma NoDup_pop {V} (k : K) (d : list (K * V)) :
  NoDup (PyDict.keys d) -> NoDup (PyDict.keys (PyDict.pop keq k d)).
Proof.
  induction d as [|[k1 v1] d IH]; simpl; intros H; [exact H|].
  inversion H as [|? ? Hn Hd]; subst.
  destruct (keq k k1); simpl; [exact Hd|].
  constructor; [|now apply IH].
  intros Hin. apply Hn. eapply In_keys_pop; exact Hin.
Qed.

Lemma keys_set_fresh {V} (k : K) (v : V) (d : list (K * V)) :
  ~ In k (PyDict.keys d) ->
  PyDict.set keq k v d = d ++ [(k, v)].
Proof.
  induction d as [|[k1 v1] d IH]; simpl; intros H; [reflexivity|].
  destruct (keq k k1) eqn:E.
  - apply keq_eq in E. subst. tauto.
  - rewrite IH; [reflexivity | tauto].
Qed.

Lemma pop_not_In {V} (k : K) (d : list (K * V)) :
  NoDup (PyDict.keys d) -> ~ In k (PyDict.keys (PyDict.pop keq k d)).
Proof.
  induction d as [|[k1 v1] d IH]; simpl; intros H; [tauto|].
  inversion H as [|? ? Hn Hd]; subst.
  destruct (keq k k1) eqn:E; simpl.
  - apply keq_eq in E. now subst.
  - intros [H1|H1]; [|now apply IH].
    subst. rewrite keq_refl in E. discriminate.
Qed.

(** The entry in the middle of a dictionary without repeated keys. *)
Lemma mutate_middle {V} (k : K) (v v' : V) (d1 d2 : list (K * V)) :
  ~ In k (PyDict.keys d1) ->
  PyDict.mutate keq k v' (d1 ++ (k, v) :: d2) = d1 ++ (k, v') :: d2.
Proof.
  induction d1 as [|[k1 v1] d1 IH]; simpl; intros H.
  - now rewrite keq_refl.
  - destruct (keq k k1) eqn:E.
    + apply keq_eq in E. subst. tauto.
    + rewrite IH; [reflexivity | tauto].
Qed.

Lemma pop_middle {V} (k : K) (v : V) (d1 d2 : list (K * V)) :
  ~ In k (PyDict.keys d1) ->
  PyDict.pop keq k (d1 ++ (k, v) :: d2) = d1 ++ d2.
Proof.
  induction d1 as [|[k1 v1] d1 IH]; simpl; intros H.
  - now rewrite keq_refl.
  - destruct (keq k k1) eqn:E.
    + apply keq_eq in E. subst. tauto.
    + rewrite IH; [reflexivity | tauto].
Qed.
End DictFacts.

(** Whatever the equality of the keys, the keys of [d[k] = v] are those
    of [d] and [k]. *)
Lemma In_keys_set_any {K V} (keq : K -> K -> bool) (k k' : K) (v : V)
    (d : list (K * V)) :
  In k' (PyDict.keys (PyDict.set keq k v d)) ->
  k' = k \/ In k' (PyDict.keys d).
Proof.
  induction d as [|[k1 v1] d IH]; simpl.
  - intuition.
  - destruct (keq k k1); simpl; intuition.
Qed.

Lemma label_eqb_eq (a b : Label) : String.eqb a b = true <-> a = b.
Proof. apply String.eqb_eq. Qed.

(** ** The loop of [TestTimer.advance] *)

Module Import TimerFacts.
Import TestTimer.

(** The events already collected stay in front. *)
Lemma advance_loop_acc (fuel : nat) : forall tm to_time uuid4 acc,
  advance_loop fuel tm to_time uuid4 acc =
  match advance_loop fuel tm to_time uuid4 [] with
  | Some (evs, tm') => Some (acc ++ evs, tm')
  | None => None
  end.
Proof.
  induction fuel as [|fuel IH]; intros tm to_time uuid4 acc; simpl.
  - reflexivity.
  - destruct (negb (expired tm) && (to_time >=? next_time tm)).
    + rewrite IH. rewrite (IH _ _ _ [_]).
      destruct (advance_loop fuel _ to_time _ []) as [[evs tm']|];
        [|reflexivity].
      now rewrite <- app_assoc.
    + now rewrite app_nil_r.
Qed.

(** One turn of the loop. *)
Lemma advance_S (fuel : nat) (tm : t) (to_time : datetime)
    (uuid4 : nat -> GUID) :
  advance (S fuel) tm to_time uuid4 =
  if negb (expired tm) && (to_time >=? next_time tm) then
    match advance fuel (check_stop (iterate_next tm)) to_time
            (fun n => uuid4 (S n)) with
    | Some (evs, tm') =>
        Some (TimeEvent.mk (label tm) (uuid4 O) (next_time tm) :: evs, tm')
    | None => None
    end
  else Some ([], tm).
Proof.
  unfold advance. simpl.
  destruct (negb (expired tm) && (to_time >=? next_time tm)); [|reflexivity].
  now rewrite advance_loop_acc.
Qed.

(** The loop is entered exactly when the timer is live and due. *)
Lemma due_true (tm : t) (to_time : datetime) :
  negb (expired tm) && (to_time >=? next_time tm) = true <->
  expired tm = false /\ next_time tm <= to_time.
Proof.
  rewrite andb_true_iff, negb_true_iff, Z.geb_le. tauto.
Qed.

Lemma due_false (tm : t) (to_time : datetime) :
  negb (expired tm) && (to_time >=? next_time tm) = false <->
  expired tm = true \/ to_time < next_time tm.
Proof.
  rewrite andb_false_iff, negb_false_iff.
  destruct (Z.geb_spec to_time (next_time tm)) as [Hge|Hlt].
  - split; intros [Hx|Hx]; try tauto; try discriminate; lia.
  - tauto.
Qed.

Lemma datetime_add_spec (d : datetime) (i : timedelta) :
  datetime_add d i = if in_range (d + i) then Some (d + i) else None.
Proof. reflexivity. Qed.

Lemma iterate_next_fields (tm : t) :
  label (iterate_next tm) = label tm /\
  interval (iterate_next tm) = interval tm /\
  start_time (iterate_next tm) = start_time tm /\
  stop_time (iterate_next tm) = stop_time tm /\
  expired (iterate_next tm) = expired tm /\
  next_time (iterate_next tm)
  = if in_range (next_time tm + interval tm)
    then next_time tm + interval tm else next_time tm.
Proof.
  unfold iterate_next. rewrite datetime_add_spec.
  destruct (in_range (next_time tm + interval tm)); simpl; tauto.
Qed.

Lemma check_stop_fields (tm : t) :
  label (check_stop tm) = label tm /\
  interval (check_stop tm) = interval tm /\
  start_time (check_stop tm) = start_time tm /\
  stop_time (check_stop tm) = stop_time tm /\
  next_time (check_stop tm) = next_time tm.
Proof.
  unfold check_stop. destruct (stop_time tm) as [s|] eqn:Es; [|tauto].
  destruct (_ >? s); simpl; tauto.
Qed.

(** What one turn does to the timer. *)
Lemma turn_fields (tm : t) :
  let tm1 := check_stop (iterate_next tm) in
  label tm1 = label tm /\ interval tm1 = interval tm /\
  start_time tm1 = start_time tm /\ stop_time tm1 = stop_time tm /\
  next_time tm1 = if in_range (next_time tm + interval tm)
                  then next_time tm + interval tm else next_time tm.
Proof.
  destruct (iterate_next_fields tm) as (Hl & Hi & Hs & Hp & _ & Hn).
  destruct (check_stop_fields (iterate_next tm))
    as (Cl & Ci & Cs & Cp & Cn).
  simpl. rewrite Cl, Ci, Cs, Cp, Cn. tauto.
Qed.

Lemma turn_expired (tm : t) :
  expired tm = false ->
  (expired (check_stop (iterate_next tm)) = true <->
   exists s, stop_time tm = Some s /\
             next_time (check_stop (iterate_next tm)) > s).
Proof.
  intros He.
  destruct (iterate_next_fields tm) as (_ & _ & _ & Hp & Hx & _).
  unfold check_stop. rewrite Hp.
  destruct (stop_time tm) as [s|].
  - destruct (Z.gtb_spec (next_time (iterate_next tm)) s) as [Hgt|Hle]; simpl.
    + split; [intros _; exists s; split; [reflexivity | lia] | reflexivity].
    + rewrite Hx, He. split; [discriminate|].
      intros [s' [E Hs']]. injection E as <-. lia.
  - rewrite Hx, He. split; [discriminate | intros [s [E _]]; discriminate].
Qed.

(** More fuel does not change a result. *)
Lemma advance_more_fuel (fuel : nat) : forall tm to_time uuid4 r,
  advance fuel tm to_time uuid4 = Some r ->
  forall fuel', (fuel <= fuel')%nat ->
  advance fuel' tm to_time uuid4 = Some r.
Proof.
  induction fuel as [|fuel IH]; intros tm to_time uuid4 r H fuel' Hle.
  - discriminate.
  - destruct fuel' as [|fuel']; [lia|].
    rewrite advance_S in *.
    destruct (negb (expired tm) && (to_time >=? next_time tm));
      [|exact H].
    destruct (advance fuel _ to_time _) as [[evs tm']|] eqn:E;
      [|discriminate].
    rewrite (IH _ _ _ _ E fuel'); [exact H | lia].
Qed.

(** A timer that is expired or not yet due is left alone. *)
Lemma advance_settled (fuel : nat) (tm : t) (to_time : datetime)
    (uuid4 : nat -> GUID) :
  expired tm = true \/ to_time < next_time tm ->
  advance (S fuel) tm to_time uuid4 = Some ([], tm).
Proof.
  intros H. rewrite advance_S.
  apply due_false in H. now rewrite H.
Qed.

(** Without progress the loop never ends: a live timer that is due and
    not past its [stop_time], whose interval is not positive or whose
    next moment is no [datetime] (so that [iterate_next] leaves
    [next_time] as it is), stays live and due. *)
Lemma advance_stuck (fuel : nat) : forall tm to_time uuid4,
  interval tm <= 0 \/ in_range (next_time tm + interval tm) = false ->
  expired tm = false ->
  next_time tm <= to_time ->
  (forall s, stop_time tm = Some s -> next_time tm <= s) ->
  advance fuel tm to_time uuid4 = None.
Proof.
  induction fuel as [|fuel IH]; intros tm to_time uuid4 Hi He Hn Hs.
  - reflexivity.
  - rewrite advance_S.
    assert (Hd : negb (expired tm) && (to_time >=? next_time tm) = true)
      by (apply due_true; tauto).
    rewrite Hd.
    destruct (turn_fields tm) as (Fl & Fi & Fs & Fp & Fn).
    assert (Hback : next_time (check_stop (iterate_next tm)) <= next_time tm).
    { rewrite Fn. destruct (in_range (next_time tm + interval tm));
        [destruct Hi as [Hi|Hi]; [lia | discriminate] | lia]. }
    rewrite IH; [reflexivity | | | |].
    + rewrite Fi, Fn.
      destruct (in_range (next_time tm + interval tm)) eqn:Er;
        [left; destruct Hi as [Hi|Hi]; [exact Hi | discriminate]|].
      right. exact Er.
    + destruct (expired (check_stop (iterate_next tm))) eqn:Ex;
        [|reflexivity].
      apply (turn_expired tm He) in Ex. destruct Ex as [s [E1 E2]].
      specialize (Hs s E1). lia.
    + lia.
    + intros s Es. rewrite Fp in Es. specialize (Hs s Es). lia.
Qed.

(** The same when it is the first emission that does not latch. *)
Lemma advance_no_return (fuel : nat) (tm : t) (to_time : datetime)
    (uuid4 : nat -> GUID) :
  interval tm <= 0 \/ in_range (next_time tm + interval tm) = false ->
  expired tm = false ->
  next_time tm <= to_time ->
  expired (check_stop (iterate_next tm)) = false ->
  advance fuel tm to_time uuid4 = None.
Proof.
  intros Hi He Hn Hx. destruct fuel as [|fuel]; [reflexivity|].
  rewrite advance_S.
  assert (Hd : negb (expired tm) && (to_time >=? next_time tm) = true)
    by (apply due_true; tauto).
  rewrite Hd.
  destruct (turn_fields tm) as (Fl & Fi & Fs & Fp & Fn).
  assert (Hback : next_time (check_stop (iterate_next tm)) <= next_time tm).
  { rewrite Fn. destruct (in_range (next_time tm + interval tm));
      [destruct Hi as [Hi|Hi]; [lia | discriminate] | lia]. }
  rewrite advance_stuck; [reflexivity | | exact Hx | lia |].
  - rewrite Fi, Fn.
    destruct (in_range (next_time tm + interval tm)) eqn:Er;
      [left; destruct Hi as [Hi|Hi]; [exact Hi | discriminate]|].
    right. exact Er.
  - intros s Es. rewrite Fp in Es.
    destruct (Z_le_gt_dec (next_time (check_stop (iterate_next tm))) s)
      as [Hle|Hgt]; [exact Hle|].
    assert (Hy : expired (check_stop (iterate_next tm)) = true)
      by (apply (turn_expired tm He); exists s; split; [exact Es | lia]).
    congruence.
Qed.

(** A turn after which the loop goes on and ends has moved [next_time]
    on by the interval. *)
Lemma turn_in_range (fuel : nat) (tm : t) (to_time : datetime)
    (uuid4 : nat -> GUID) (r : list TimeEvent.t * t) :
  expired tm = false ->
  next_time tm <= to_time ->
  expired (check_stop (iterate_next tm)) = false ->
  advance fuel (check_stop (iterate_next tm)) to_time uuid4 = Some r ->
  in_range (next_time tm + interval tm) = true /\
  next_time (check_stop (iterate_next tm)) = next_time tm + interval tm.
Proof.
  intros He Hn Hx E.
  destruct (turn_fields tm) as (_ & _ & _ & _ & Fn).
  destruct (in_range (next_time tm + interval tm)) eqn:Er; [tauto|].
  exfalso.
  assert (Hnone : advance (S fuel) tm to_time (fun n => uuid4 (pred n))
                  = None)
    by (apply advance_no_return; [now right | exact He | exact Hn | exact Hx]).
  rewrite advance_S in Hnone.
  assert (Hd : negb (expired tm) && (to_time >=? next_time tm) = true)
    by (apply due_true; tauto).
  rewrite Hd in Hnone. simpl in Hnone.
  change (fun n : nat => uuid4 n) with uuid4 in Hnone.
  rewrite E in Hnone. destruct r. discriminate.
Qed.

(** The result of a finished loop: the timer's constant fields, the
    instants of the events, and the timer it leaves.  [next_time] has
    moved on by one interval for each event, unless the one emission of a
    timer already past its [stop_time] had no next moment to move to. *)
Lemma advance_result (fuel : nat) : forall tm to_time uuid4 evs tm',
  advance fuel tm to_time uuid4 = Some (evs, tm') ->
  (label tm' = label tm /\ interval tm' = interval tm /\
   start_time tm' = start_time tm /\ stop_time tm' = stop_time tm) /\
  map TimeEvent.timestamp evs
    = ticks (next_time tm) (interval tm) (List.length evs) /\
  Forall (fun e => TimeEvent.label e = label tm) evs /\
  Forall (fun e => TimeEvent.timestamp e <= to_time) evs /\
  (next_time tm' = next_time tm + Z.of_nat (List.length evs) * interval tm \/
   (List.length evs = 1%nat /\ next_time tm' = next_time tm /\
    in_range (next_time tm + interval tm) = false /\
    exists s, stop_time tm = Some s /\ s < next_time tm)) /\
  (expired tm' = true \/ to_time < next_time tm').
Proof.
  induction fuel as [|fuel IH]; intros tm to_time uuid4 evs tm' H.
  - discriminate.
  - rewrite advance_S in H.
    destruct (negb (expired tm) && (to_time >=? next_time tm)) eqn:Hd.
    + destruct (advance fuel _ to_time _) as [[evs1 tm1]|] eqn:E;
        [|discriminate].
      injection H as <- <-.
      destruct (turn_fields tm) as (Hl & Hi & Hs & Hp & Hn).
      apply due_true in Hd. destruct Hd as [He Hdue].
      destruct (expired (check_stop (iterate_next tm))) eqn:Ex.
      * (* latched by this emission *)
        destruct fuel as [|fuel]; [discriminate|].
        rewrite advance_settled in E by (now left).
        injection E as <- <-.
        split; [tauto|]. split; [reflexivity|].
        split; [repeat constructor|].
        split; [repeat constructor; exact Hdue|].
        split; [|now left].
        simpl List.length. rewrite Hn.
        destruct (in_range (next_time tm + interval tm)) eqn:Er;
          [left; lia | right].
        split; [reflexivity|]. split; [reflexivity|].
        split; [reflexivity|].
        apply (turn_expired tm He) in Ex. destruct Ex as (s & Es & Hgt).
        exists s. split; [exact Es|]. rewrite Hn in Hgt. lia.
      * destruct (turn_in_range _ _ _ _ _ He Hdue Ex E) as [Er Hn1].
        apply IH in E.
        destruct E as ((El & Ei & Es & Ep) & Et & Ela & Eto & En & Exit).
        split; [repeat split; congruence|].
        split; [simpl; f_equal; rewrite Et; congruence|].
        split.
        { constructor; [reflexivity|].
          eapply Forall_impl; [|exact Ela]. simpl. congruence. }
        split; [constructor; [exact Hdue | exact Eto]|].
        split; [|exact Exit].
        left. destruct En as [En|(_ & _ & _ & s & Es1 & Hlt)].
        -- rewrite En, Hn1, Hi. simpl List.length. lia.
        -- exfalso. rewrite Hp in Es1.
           assert (Hy : expired (check_stop (iterate_next tm)) = true)
             by (apply (turn_expired tm He); exists s;
                 split; [exact Es1 | lia]).
           congruence.
    + injection H as <- <-. apply due_false in Hd.
      split; [tauto|]. split; [reflexivity|].
      split; [constructor|]. split; [constructor|].
      split; [left; simpl; lia | exact Hd].
Qed.
End TimerFacts.

Module Import TimerLoop.
Import TestTimer.

(** The latch is set exactly by an emission that leaves [next_time] past
    [stop_time], and by none before the last. *)
Lemma advance_latch (fuel : nat) : forall tm to_time uuid4 evs tm',
  expired tm = false ->
  advance fuel tm to_time uuid4 = Some (evs, tm') ->
  (expired tm' = true <->
   (0 < List.length evs)%nat /\
   exists s, stop_time tm = Some s /\ next_time tm' > s) /\
  (forall j s, (0 < j < List.length evs)%nat -> stop_time tm = Some s ->
     next_time tm + Z.of_nat j * interval tm <= s).
Proof.
  induction fuel as [|fuel IH]; intros tm to_time uuid4 evs tm' He H.
  - discriminate.
  - rewrite advance_S in H.
    destruct (negb (expired tm) && (to_time >=? next_time tm)) eqn:Hd.
    + destruct (advance fuel _ to_time _) as [[evs1 tm1]|] eqn:E;
        [|discriminate].
      injection H as <- <-.
      destruct (turn_fields tm) as (Hl & Hi & Hs & Hp & Hn).
      pose proof (turn_expired tm He) as Hx.
      apply due_true in Hd. destruct Hd as [_ Hdue].
      destruct (expired (check_stop (iterate_next tm))) eqn:Ex.
      * (* latched by this emission *)
        destruct fuel as [|fuel]; [discriminate|].
        rewrite advance_settled in E by (now left).
        injection E as <- <-. simpl List.length.
        split; [|intros j s Hj; lia].
        rewrite Ex. split; [intros _|reflexivity].
        split; [lia|]. now apply Hx.
      * destruct (turn_in_range _ _ _ _ _ He Hdue Ex E) as [Er Hn1].
        destruct (IH _ _ _ _ _ Ex E) as [IH1 IH2].
        simpl List.length. split.
        -- rewrite IH1, Hp. split.
           ++ intros [_ Hs']. split; [lia | exact Hs'].
           ++ intros [_ [s [E1 E2]]]. split; [|exists s; tauto].
              destruct evs1 as [|e evs1]; [|simpl; lia].
              exfalso.
              apply advance_result in E.
              destruct E as (_ & _ & _ & _ & En & _).
              destruct En as [En|(Ek & _)]; [|discriminate].
              simpl in En.
              assert (Hy : false = true)
                by (apply Hx; exists s; split; [exact E1 | lia]).
              discriminate.
        -- intros j s Hj Es.
           destruct j as [|[|j]]; [lia| |].
           ++ destruct (Z.gtb_spec (next_time tm + interval tm) s)
                as [Hgt|Hle]; [|lia].
              assert (Hy : false = true)
                by (apply Hx; exists s; split; [exact Es | lia]).
              discriminate.
           ++ specialize (IH2 (S j) s). rewrite Hp, Hn1, Hi in IH2.
              specialize (IH2 ltac:(lia) Es). lia.
    + injection H as <- <-. simpl. rewrite He. split.
      * split; [discriminate | lia].
      * intros; lia.
Qed.

(** So a loop without progress that ends has emitted at most once. *)
Lemma advance_no_progress (fuel : nat) (tm : t) (to_time : datetime)
    (uuid4 : nat -> GUID) (evs : list TimeEvent.t) (tm' : t) :
  interval tm <= 0 ->
  advance fuel tm to_time uuid4 = Some (evs, tm') ->
  (List.length evs <= 1)%nat.
Proof.
  intros Hi H. destruct fuel as [|fuel]; [discriminate|].
  pose proof H as H0.
  rewrite advance_S in H.
  destruct (negb (expired tm) && (to_time >=? next_time tm)) eqn:Hd.
  - destruct (advance fuel _ to_time _) as [[evs1 tm1]|] eqn:E;
      [|discriminate].
    injection H as <- <-.
    apply due_true in Hd. destruct Hd as [He Hn].
    destruct (expired (check_stop (iterate_next tm))) eqn:Ex.
    + destruct fuel as [|fuel]; [discriminate|].
      rewrite advance_settled in E by (now left).
      injection E as <- <-. simpl. lia.
    + rewrite advance_no_return in H0;
        [discriminate | now left | exact He | exact Hn | exact Ex].
  - injection H as <- <-. simpl. lia.
Qed.

(** With progress, and as long as the moments stay datetimes, the loop
    ends: [next_time] passes [to_time] after at most
    [to_time - next_time + 1] emissions. *)
Lemma advance_ends (n : nat) : forall tm to_time uuid4,
  0 < interval tm ->
  within_range tm to_time ->
  to_time - next_time tm < Z.of_nat n ->
  exists evs tm', advance (S n) tm to_time uuid4 = Some (evs, tm').
Proof.
  induction n as [|n IH]; intros tm to_time uuid4 Hi Hr Hn.
  - rewrite advance_S.
    assert (Hd : negb (expired tm) && (to_time >=? next_time tm) = false)
      by (apply due_false; right; lia).
    rewrite Hd. eauto.
  - rewrite advance_S.
    destruct (negb (expired tm) && (to_time >=? next_time tm)) eqn:Hd;
      [|eauto].
    apply due_true in Hd. destruct Hd as [He Hdue].
    destruct (turn_fields tm) as (Fl & Fi & Fs & Fp & Fn).
    destruct (expired (check_stop (iterate_next tm))) eqn:Ex.
    { rewrite advance_settled by (now left). eauto. }
    assert (Hs : forall s, stop_time tm = Some s ->
                 next_time (check_stop (iterate_next tm)) <= s).
    { intros s Es.
      destruct (Z_le_gt_dec (next_time (check_stop (iterate_next tm))) s)
        as [Hle|Hgt]; [exact Hle|].
      assert (Hy : expired (check_stop (iterate_next tm)) = true)
        by (apply (turn_expired tm He); exists s; split; [exact Es | lia]).
      congruence. }
    assert (Er : in_range (next_time tm + interval tm) = true).
    { specialize (Hr O). simpl in Hr. rewrite Z.add_0_r in Hr.
      apply Hr; [exact Hdue | intros s _ Hj; lia]. }
    rewrite Er in Fn.
    destruct (IH (check_stop (iterate_next tm)) to_time
                (fun k => uuid4 (S k))) as [evs [tm' E]].
    + now rewrite Fi.
    + intros j Hj Hjs. rewrite Fn, Fi in *.
      replace (next_time tm + interval tm + Z.of_nat j * interval tm)
        with (next_time tm + Z.of_nat (S j) * interval tm) in * by lia.
      apply Hr; [exact Hj|].
      intros s Es _. destruct j as [|j].
      * specialize (Hs s Es). lia.
      * apply Hjs; [now rewrite Fp | lia].
    + rewrite Fn. lia.
    + rewrite E. eauto.
Qed.
End TimerLoop.

Lemma advance_total (tm : TestTimer.t) (to_time : datetime)
    (uuid4 : nat -> GUID) (fuel : nat) :
  0 < TestTimer.interval tm ->
  within_range tm to_time ->
  (enough_fuel tm to_time <= fuel)%nat ->
  exists evs tm', TestTimer.advance fuel tm to_time uuid4 = Some (evs, tm').
Proof.
  intros Hi Hr Hf.
  destruct (advance_ends (Z.to_nat (to_time - TestTimer.next_time tm + 1))
              tm to_time uuid4 Hi Hr) as [evs [tm' E]]; [lia|].
  exists evs, tm'. eapply advance_more_fuel; [exact E | exact Hf].
Qed.

(** Moments that stay clear of [datetime.max] are within range. *)
Lemma within_range_below (tm : TestTimer.t) (to_time : datetime) :
  0 <= TestTimer.interval tm ->
  datetime_min <= TestTimer.next_time tm ->
  to_time + TestTimer.interval tm <= datetime_max ->
  within_range tm to_time.
Proof.
  intros Hi Hlo Hhi j Hj _. unfold in_range.
  apply andb_true_iff. rewrite !Z.leb_le. nia.
Qed.

(** Where the moments stay datetimes, [next_time] has moved on by one
    interval for each event. *)
Lemma advance_next_time (fuel : nat) (tm : TestTimer.t)
    (to_time : datetime) (uuid4 : nat -> GUID) (evs : list TimeEvent.t)
    (tm' : TestTimer.t) :
  within_range tm to_time ->
  TestTimer.advance fuel tm to_time uuid4 = Some (evs, tm') ->
  TestTimer.next_time tm'
  = TestTimer.next_time tm
    + Z.of_nat (List.length evs) * TestTimer.interval tm.
Proof.
  intros Hr H.
  pose proof (advance_result _ _ _ _ _ _ H)
    as (_ & _ & _ & Hto & [Hn|(Hk & _ & Er & _)] & _); [exact Hn|].
  exfalso. destruct evs as [|e [|e' evs]]; try discriminate.
  pose proof (advance_result _ _ _ _ _ _ H) as (_ & Ht & _).
  simpl in Ht. injection Ht as Ht.
  apply Forall_inv in Hto. rewrite Ht in Hto.
  specialize (Hr O). simpl in Hr. rewrite Z.add_0_r in Hr.
  rewrite Hr in Er; [discriminate | exact Hto | intros s _ Hj; lia].
Qed.

Lemma ticks_lower (d : Z) (k : nat) : forall a,
  0 <= d -> Forall (fun x => a <= x) (ticks a d k).
Proof.
  induction k as [|k IH]; intros a Hd; simpl; constructor; [lia|].
  eapply Forall_impl; [|apply (IH (a + d) Hd)]. simpl. intros; lia.
Qed.

Lemma ticks_increasing (d : Z) (k : nat) : forall a,
  0 < d -> StronglySorted Z.lt (ticks a d k).
Proof.
  induction k as [|k IH]; intros a Hd; simpl; constructor.
  - now apply IH.
  - eapply Forall_impl; [|apply (ticks_lower d k (a + d)); lia].
    simpl. intros; lia.
Qed.

(** ** The registry of the clock *)

Lemma update_timing_ok (c : TestClock.t) :
  exists b n,
    TestClock._update_timing c = Ok tt (TestClock.with_timing c b n) /\
    timing_ok (TestClock.with_timing c b n).
Proof.
  unfold TestClock._update_timing. mred.
  destruct (TestClock._timers c) as [|kv d] eqn:E; simpl.
  - exists false, None. split; [reflexivity|].
    unfold timing_ok; simpl. rewrite E. tauto.
  - unfold TestClock.first_next_time. rewrite E.
    destruct (sorted_first_min
                (map TestTimer.next_time (PyDict.values (kv :: d))))
      as (m & rest & Es & Hin & Hall); [discriminate|].
    rewrite Es. mred. exists true, (Some m). split; [reflexivity|].
    unfold timing_ok, next_times; simpl. rewrite E.
    split; [reflexivity|]. exists m. tauto.
Qed.

Lemma add_timer_ok (timer : TestTimer.t) (h : Handler) (c : TestClock.t) :
  exists b n,
    TestClock._add_timer timer h c
      = Ok tt (TestClock.with_timing (registered c timer h) b n) /\
    timing_ok (TestClock.with_timing (registered c timer h) b n).
Proof.
  unfold TestClock._add_timer. mred.
  destruct (update_timing_ok (registered c timer h)) as (b & n & E & Ht).
  unfold registered in *. simpl in *. rewrite E. eauto.
Qed.

Lemma cancel_timer_ok (label : Label) (c : TestClock.t) :
  exists b n,
    TestClock.cancel_timer label c
      = Ok tt (TestClock.with_timing (unregistered c label) b n) /\
    timing_ok (TestClock.with_timing (unregistered c label) b n).
Proof.
  unfold TestClock.cancel_timer. mred.
  destruct (update_timing_ok (unregistered c label)) as (b & n & E & Ht).
  unfold unregistered in *. simpl in *.
  destruct (PyDict.get String.eqb label (TestClock._timers c));
    simpl; rewrite E; eauto.
Qed.

Lemma remove_timer_ok (timer : TestTimer.t) (c : TestClock.t) :
  exists b n,
    TestClock._remove_timer timer c
      = Ok tt (TestClock.with_timing
                 (unregistered c (TestTimer.label timer)) b n) /\
    timing_ok (TestClock.with_timing
                 (unregistered c (TestTimer.label timer)) b n).
Proof.
  unfold TestClock._remove_timer. mred.
  destruct (update_timing_ok (unregistered c (TestTimer.label timer)))
    as (b & n & E & Ht).
  unfold unregistered in *. simpl in *. rewrite E. eauto.
Qed.

(** The setters check everything before they touch the registry. *)
Lemma get_timer_spec (c : TestClock.t) (label : Label)
    (event_time : datetime) :
  TestClock._get_timer label event_time c
  = if in_range event_time then Ok (alert_timer c label event_time) c
    else Raise OverflowError c.
Proof.
  unfold TestClock._get_timer, TestTimer.new, datetime_add, checked,
    alert_timer, timer_of.
  mred.
  replace (TestClock.time_now c + (event_time - TestClock.time_now c))
    with event_time by lia.
  destruct (in_range event_time); reflexivity.
Qed.

Lemma get_timer_repeating_spec (c : TestClock.t) (label : Label)
    (interval : timedelta) (start_time : datetime)
    (stop_time : option datetime) :
  TestClock._get_timer_repeating label interval start_time stop_time c
  = if in_range (start_time + interval)
    then Ok (timer_of label interval start_time stop_time) c
    else Raise OverflowError c.
Proof.
  unfold TestClock._get_timer_repeating, TestTimer.new, datetime_add,
    checked, timer_of.
  destruct (in_range (start_time + interval)); reflexivity.
Qed.

Lemma set_time_alert_cases (label : Label) (alert_time : datetime)
    (handler : pyobj) (c : TestClock.t) :
  if alert_accepted c label alert_time handler then
    exists h, TestClock.or_default c handler = PyCallable h /\
      TestClock.set_time_alert label alert_time handler c
      = if in_range alert_time
        then TestClock._add_timer (alert_timer c label alert_time) h c
        else Raise OverflowError c
  else
    TestClock.set_time_alert label alert_time handler c
    = Raise ConditionFailed c.
Proof.
  unfold alert_accepted, TestClock.set_time_alert, Condition.not_in,
    Condition.callable, Condition.true.
  mred.
  destruct (PyDict.contains String.eqb label (TestClock._timers c));
    simpl; [reflexivity|].
  destruct (PyDict.contains String.eqb label (TestClock._handlers c));
    simpl; [reflexivity|].
  destruct (TestClock.or_default c handler) as [|h|]; simpl;
    try reflexivity.
  unfold TestClock.time_now.
  rewrite Z.geb_leb.
  destruct (TestClock._time c <=? alert_time); simpl; [|reflexivity].
  rewrite get_timer_spec.
  exists h. split; [reflexivity|].
  destruct (in_range alert_time); reflexivity.
Qed.

Lemma set_timer_cases (label : Label) (interval : timedelta)
    (start_time stop_time : option datetime) (handler : pyobj)
    (c : TestClock.t) :
  let start := match start_time with
               | Some s => s
               | None => TestClock.time_now c
               end in
  if timer_accepted c label interval start_time stop_time handler then
    0 < interval /\
    exists h, TestClock.or_default c handler = PyCallable h /\
      TestClock.set_timer label interval start_time stop_time handler c
      = if in_range (start + interval)
        then TestClock._add_timer
               (timer_of label interval start stop_time) h c
        else Raise OverflowError c
  else
    TestClock.set_timer label interval start_time stop_time handler c
    = Raise ConditionFailed c \/
    (in_range (start + interval) = false /\
     TestClock.set_timer label interval start_time stop_time handler c
     = Raise OverflowError c).
Proof.
  unfold timer_accepted, TestClock.set_timer, Condition.not_in,
    Condition.callable, Condition.true, checked, datetime_add.
  mred.
  destruct (PyDict.contains String.eqb label (TestClock._timers c));
    simpl; [now left|].
  destruct (PyDict.contains String.eqb label (TestClock._handlers c));
    simpl; [now left|].
  rewrite Z.gtb_ltb.
  destruct (Z.ltb_spec 0 interval) as [Hi|Hi]; simpl; [|now left].
  destruct (TestClock.or_default c handler) as [|h|]; simpl;
    try (now left).
  unfold TestClock.time_now.
  destruct start_time as [start|]; simpl.
  - destruct stop_time as [stop|]; simpl.
    + destruct (start <? stop); simpl; [|now left].
      destruct (in_range (start + interval)) eqn:Er; simpl.
      * destruct (start + interval <=? stop); simpl; [|now left].
        rewrite get_timer_repeating_spec, Er.
        split; [exact Hi|]. exists h. split; reflexivity.
      * destruct (start + interval <=? stop); simpl.
        -- split; [exact Hi|]. exists h. split; reflexivity.
        -- right. split; reflexivity.
    + rewrite get_timer_repeating_spec.
      split; [exact Hi|]. exists h. split; [reflexivity|].
      destruct (in_range (start + interval)); reflexivity.
  - destruct (in_range (TestClock._time c + interval)) eqn:Er; simpl.
    + assert (Hge : (TestClock._time c + interval >=? TestClock._time c)
                    = true)
        by (apply Z.geb_le; lia).
      rewrite Hge. simpl.
      destruct stop_time as [stop|]; simpl.
      * destruct (TestClock._time c <? stop); simpl; [|now left].
        rewrite Er. simpl.
        destruct (TestClock._time c + interval <=? stop); simpl;
          [|now left].
        rewrite get_timer_repeating_spec, Er.
        split; [exact Hi|]. exists h. split; reflexivity.
      * rewrite get_timer_repeating_spec, Er.
        split; [exact Hi|]. exists h. split; reflexivity.
    + destruct stop_time as [stop|]; simpl.
      * destruct ((TestClock._time c <? stop)
                  && (TestClock._time c + interval <=? stop)).
        -- split; [exact Hi|]. exists h. split; reflexivity.
        -- right. split; reflexivity.
      * split; [exact Hi|]. exists h. split; reflexivity.
Qed.

(** The checks that come before any [datetime] is computed. *)
Lemma set_timer_rejected_early (c : TestClock.t) (label : Label)
    (interval : timedelta) (start_time stop_time : option datetime)
    (handler : pyobj) :
  PyDict.contains String.eqb label (TestClock._timers c) = true \/
  PyDict.contains String.eqb label (TestClock._handlers c) = true \/
  is_callable (TestClock.or_default c handler) = false ->
  TestClock.set_timer label interval start_time stop_time handler c
  = Raise ConditionFailed c.
Proof.
  unfold TestClock.set_timer, Condition.not_in, Condition.callable,
    Condition.true.
  mred. intros H.
  destruct (PyDict.contains String.eqb label (TestClock._timers c));
    simpl; [reflexivity|].
  destruct (PyDict.contains String.eqb label (TestClock._handlers c));
    simpl; [reflexivity|].
  destruct (interval >? 0); simpl; [|reflexivity].
  destruct (TestClock.or_default c handler) as [|h|]; simpl;
    try reflexivity.
  destruct H as [H|[H|H]]; discriminate.
Qed.

Lemma accepted_label_fresh_alert (c : TestClock.t) l a h :
  alert_accepted c l a h = true ->
  ~ In l (PyDict.keys (TestClock._timers c)).
Proof.
  unfold alert_accepted. rewrite !andb_true_iff, !negb_true_iff.
  intros (((H & _) & _) & _).
  now apply (contains_false String.eqb label_eqb_eq).
Qed.

Lemma accepted_label_fresh_timer (c : TestClock.t) l i st sp h :
  timer_accepted c l i st sp h = true ->
  ~ In l (PyDict.keys (TestClock._timers c)).
Proof.
  unfold timer_accepted. rewrite !andb_true_iff, !negb_true_iff.
  intros ((((H & _) & _) & _) & _).
  now apply (contains_false String.eqb label_eqb_eq).
Qed.

(** What a successful setter call comes to. *)
Lemma set_time_alert_Ok (c c1 : TestClock.t) l a h :
  TestClock.set_time_alert l a h c = Ok tt c1 ->
  ~ In l (PyDict.keys (TestClock._timers c)) /\
  TestClock.time_now c <= a /\
  exists h', TestClock.or_default c h = PyCallable h' /\
    TestClock._add_timer (alert_timer c l a) h' c = Ok tt c1.
Proof.
  intros H. pose proof (set_time_alert_cases l a h c) as Hc.
  destruct (alert_accepted c l a h) eqn:Ea; [|congruence].
  split; [eapply accepted_label_fresh_alert; exact Ea|].
  split.
  { unfold alert_accepted in Ea. rewrite !andb_true_iff in Ea.
    apply Z.leb_le. tauto. }
  destruct Hc as (h' & Ho & E). exists h'. split; [exact Ho|].
  rewrite E in H. destruct (in_range a); [exact H | discriminate].
Qed.

Lemma set_timer_Ok (c c1 : TestClock.t) l i st sp h :
  TestClock.set_timer l i st sp h c = Ok tt c1 ->
  ~ In l (PyDict.keys (TestClock._timers c)) /\
  0 < i /\
  exists h', TestClock.or_default c h = PyCallable h' /\
    TestClock._add_timer
      (timer_of l i
         (match st with Some s => s | None => TestClock.time_now c end) sp)
      h' c = Ok tt c1.
Proof.
  intros H. pose proof (set_timer_cases l i st sp h c) as Hc.
  simpl in Hc.
  destruct (timer_accepted c l i st sp h) eqn:Ea;
    [|destruct Hc as [Hc|[_ Hc]]; congruence].
  split; [eapply accepted_label_fresh_timer; exact Ea|].
  destruct Hc as (Hi & h' & Ho & E). split; [exact Hi|].
  exists h'. split; [exact Ho|].
  rewrite E in H. destruct (in_range _); [exact H | discriminate].
Qed.

(** A setter whose preconditions hold, with a first event that is a
    [datetime], returns. *)
Lemma set_time_alert_accepted (c : TestClock.t) l a h :
  alert_accepted c l a h = true -> in_range a = true ->
  exists h', TestClock.or_default c h = PyCallable h' /\
    TestClock.set_time_alert l a h c
    = TestClock._add_timer (alert_timer c l a) h' c.
Proof.
  intros Ea Er. pose proof (set_time_alert_cases l a h c) as Hc.
  rewrite Ea, Er in Hc. exact Hc.
Qed.

(** Every event of a finished [advance] bears the timer's label and an
    instant between the timer's [next_time] and [to_time]. *)
Lemma advance_fired (fuel : nat) (tm : TestTimer.t) (to_time : datetime)
    (uuid4 : nat -> GUID) (evs : list TimeEvent.t) (tm' : TestTimer.t) :
  TestTimer.advance fuel tm to_time uuid4 = Some (evs, tm') ->
  Forall (fired to_time tm) evs.
Proof.
  intros H. pose proof (advance_result _ _ _ _ _ _ H)
    as (_ & Ht & Hl & Hto & _ & _).
  assert (Hlow : Forall (fun x => TestTimer.next_time tm <= x)
                   (map TimeEvent.timestamp evs)).
  { rewrite Ht. destruct (Z_le_gt_dec 0 (TestTimer.interval tm)) as [Hi|Hi].
    - now apply ticks_lower.
    - assert (Hk : (List.length evs <= 1)%nat)
        by (eapply advance_no_progress; [|exact H]; lia).
      destruct evs as [|e [|e' evs]]; simpl in *;
        [constructor | constructor; [lia | constructor] | lia]. }
  rewrite Forall_map in Hlow.
  rewrite Forall_forall in *. intros e He. unfold fired.
  specialize (Hl e He). specialize (Hto e He). specialize (Hlow e He).
  simpl in *. split; [exact Hl | lia].
Qed.

Lemma collect_found (label : Label) (h : Handler) (c : TestClock.t) :
  PyDict.get String.eqb label (TestClock._handlers c) = Some h ->
  forall evs events, exists events',
    TestClock.collect label evs events c = Ok events' c /\
    forall e, In e (PyDict.keys events') ->
              In e (PyDict.keys events) \/ In e evs.
Proof.
  intros Hh. induction evs as [|ev evs IH]; intros events; simpl.
  - exists events. split; [reflexivity | tauto].
  - unfold TestClock.handler_of. mred. rewrite Hh. mred.
    destruct (IH (PyDict.set TimeEvent.eqb ev h events))
      as (events' & E & Hin).
    exists events'. split; [exact E|].
    intros e He. apply Hin in He. destruct He as [He|He]; [|tauto].
    apply In_keys_set_any in He. intuition.
Qed.

Lemma keys_app {K V} (d1 d2 : list (K * V)) :
  PyDict.keys (d1 ++ d2) = PyDict.keys d1 ++ PyDict.keys d2.
Proof. apply map_app. Qed.

Lemma NoDup_keys_middle {K V} (k : K) (v : V) (d1 d2 : list (K * V)) :
  NoDup (PyDict.keys (d1 ++ (k, v) :: d2)) ->
  ~ In k (PyDict.keys d1) /\ ~ In k (PyDict.keys d2) /\
  NoDup (PyDict.keys (d1 ++ d2)).
Proof.
  rewrite !keys_app. simpl. intros H.
  apply NoDup_remove in H. destruct H as [H1 H2].
  rewrite in_app_iff in H2. tauto.
Qed.

Lemma get_Some_of_key (k : Label) {V} (d : list (Label * V)) :
  In k (PyDict.keys d) -> exists v, PyDict.get String.eqb k d = Some v.
Proof.
  intros Hin. destruct (PyDict.get String.eqb k d) as [v|] eqn:E; [eauto|].
  apply (get_None String.eqb label_eqb_eq) in E. contradiction.
Qed.

Lemma iterate_timers_inv : forall rest kept fuel to_time uuid4 events c,
  TestClock._timers c = kept ++ rest ->
  NoDup (PyDict.keys (kept ++ rest)) ->
  keys_agree c ->
  Forall (fun kv => TestTimer.label (snd kv) = fst kv) (kept ++ rest) ->
  match TestClock.iterate_timers fuel to_time uuid4 rest events c with
  | Ok events' c' =>
      exists surv,
        TestClock._timers c' = kept ++ surv /\
        Forall (fun kv => settled to_time (snd kv)) surv /\
        NoDup (PyDict.keys (kept ++ surv)) /\
        keys_agree c' /\
        Forall (fun kv => TestTimer.label (snd kv) = fst kv)
          (kept ++ surv) /\
        (forall k, In k (PyDict.keys surv) -> In k (PyDict.keys rest)) /\
        (forall e, In e (PyDict.keys events') ->
           In e (PyDict.keys events) \/
           exists kv, In kv rest /\ fired to_time (snd kv) e)
  | Raise _ _ => False
  | Timeout =>
      exists kv u, In kv rest /\
        TestTimer.advance fuel (snd kv) to_time u = None
  end.
Proof.
  induction rest as [|[k tm] rest IH];
    intros kept fuel to_time uuid4 events c Ht Hnd Hk Hl.
  - simpl. unfold ret. exists []. rewrite app_nil_r in *.
    repeat split; try assumption; try constructor; tauto.
  - simpl.
    destruct (TestTimer.advance fuel tm to_time uuid4)
      as [[evs tm']|] eqn:Ea.
    2:{ exists (k, tm), uuid4. split; [now left | exact Ea]. }
    pose proof (advance_result _ _ _ _ _ _ Ea)
      as ((Fl & Fi & Fs & Fp) & _ & _ & _ & _ & Hexit).
    pose proof (advance_fired _ _ _ _ _ _ Ea) as Hfired.
    destruct (NoDup_keys_middle _ _ _ _ Hnd) as (Hk1 & Hk2 & Hnd').
    assert (Hlab : TestTimer.label tm = k).
    { rewrite Forall_forall in Hl. apply (Hl (k, tm)).
      apply in_or_app. right. now left. }
    unfold bind at 1. unfold modify at 1.
    set (c1 := TestClock.with_timers c _).
    assert (Ht1 : TestClock._timers c1 = kept ++ (k, tm') :: rest).
    { unfold c1. simpl. rewrite Ht.
      apply (mutate_middle String.eqb label_eqb_eq); exact Hk1. }
    assert (Hk1' : keys_agree c1).
    { unfold keys_agree in *. rewrite Ht1. unfold c1 at 1. simpl.
      rewrite <- Hk, Ht, !keys_app. reflexivity. }
    destruct (get_Some_of_key k (TestClock._handlers c1)) as [h Hh].
    { rewrite <- Hk1', Ht1, keys_app. apply in_or_app. right. now left. }
    unfold bind at 1.
    rewrite Fl, Hlab.
    destruct (collect_found k h c1 Hh evs events) as (events1 & Ec & Hin1).
    rewrite Ec.
    unfold bind at 1.
    destruct (TestTimer.expired tm') eqn:Ex.
    + (* the timer latched: it leaves the registry *)
      destruct (remove_timer_ok tm' c1) as (b & n & Er & _).
      rewrite Er. rewrite Fl, Hlab in *.
      set (c2 := TestClock.with_timing (unregistered c1 k) b n) in *.
      assert (Ht2 : TestClock._timers c2 = kept ++ rest).
      { change (TestClock._timers c2)
          with (PyDict.pop String.eqb k (TestClock._timers c1)).
        rewrite Ht1.
        apply (pop_middle String.eqb label_eqb_eq); exact Hk1. }
      assert (Hk2' : keys_agree c2).
      { unfold keys_agree.
        change (PyDict.keys (PyDict.pop String.eqb k (TestClock._timers c1))
                = PyDict.keys
                    (PyDict.pop String.eqb k (TestClock._handlers c1))).
        apply (keys_pop String.eqb). exact Hk1'. }
      assert (Hl2 : Forall (fun kv => TestTimer.label (snd kv) = fst kv)
                      (kept ++ rest)).
      { rewrite Forall_app in *. destruct Hl as [Hl1 Hl2].
        split; [exact Hl1 | now inversion Hl2]. }
      specialize (IH kept fuel to_time
                    (fun n => uuid4 (List.length evs + n)%nat)
                    events1 c2 Ht2 Hnd' Hk2' Hl2).
      destruct (TestClock.iterate_timers fuel to_time _ rest events1 c2)
        as [events' c'| |]; [|exact IH|].
      * destruct IH as (surv & I1 & I2 & I3 & I4 & I5 & I6 & I7).
        exists surv. repeat split; try assumption.
        -- intros k' Hk'. right. now apply I6.
        -- intros e He. apply I7 in He.
           destruct He as [He|[kv [He1 He2]]].
           ++ apply Hin1 in He. destruct He as [He|He]; [now left|].
              right. exists (k, tm). split; [now left|].
              rewrite Forall_forall in Hfired. now apply Hfired.
           ++ right. exists kv. split; [now right | exact He2].
      * destruct IH as (kv & u & I1 & I2).
        exists kv, u. split; [now right | exact I2].
    + (* the timer stays, advanced *)
      unfold ret at 1.
      assert (Ht2 : TestClock._timers c1 = (kept ++ [(k, tm')]) ++ rest)
        by (rewrite Ht1, <- app_assoc; reflexivity).
      assert (Hnd2 : NoDup (PyDict.keys ((kept ++ [(k, tm')]) ++ rest))).
      { rewrite <- app_assoc. simpl.
        rewrite keys_app in *. exact Hnd. }
      assert (Hl2 : Forall (fun kv => TestTimer.label (snd kv) = fst kv)
                      ((kept ++ [(k, tm')]) ++ rest)).
      { rewrite <- app_assoc. simpl. rewrite Forall_app in *.
        destruct Hl as [Hl1 Hl2]. split; [exact Hl1|].
        inversion Hl2; subst. constructor; [|assumption].
        simpl. congruence. }
      specialize (IH (kept ++ [(k, tm')]) fuel to_time
                    (fun n => uuid4 (List.length evs + n)%nat)
                    events1 c1 Ht2 Hnd2 Hk1' Hl2).
      destruct (TestClock.iterate_timers fuel to_time _ rest events1 c1)
        as [events' c'| |]; [|exact IH|].
      * destruct IH as (surv & I1 & I2 & I3 & I4 & I5 & I6 & I7).
        exists ((k, tm') :: surv).
        rewrite <- !app_assoc in *. simpl in *.
        repeat split; try assumption.
        -- constructor; [|exact I2]. simpl.
           destruct Hexit as [Hx|Hx]; [congruence|].
           split; [exact Ex | exact Hx].
        -- intros k' [Hk'|Hk']; [now left | right; now apply I6].
        -- intros e He. apply I7 in He.
           destruct He as [He|[kv [He1 He2]]].
           ++ apply Hin1 in He. destruct He as [He|He]; [now left|].
              right. exists (k, tm). split; [now left|].
              rewrite Forall_forall in Hfired. now apply Hfired.
           ++ right. exists kv. split; [now right | exact He2].
      * destruct IH as (kv & u & I1 & I2).
        exists kv, u. split; [now right | exact I2].
Qed.

(** ** [TestClock.advance_time] *)

Lemma advance_time_idle (fuel : nat) (to_time : datetime)
    (uuid4 : nat -> GUID) (c : TestClock.t) :
  idle c to_time ->
  TestClock.advance_time fuel to_time uuid4 c = Ok [] c.
Proof.
  unfold TestClock.advance_time, TestClock.before_next_event. mred.
  intros [H|[n [H1 H2]]].
  - rewrite H. reflexivity.
  - destruct (TestClock.has_timers c); simpl; [|reflexivity].
    rewrite H1. mred.
    apply Z.ltb_lt in H2. rewrite H2. reflexivity.
Qed.

Lemma advance_time_busy (fuel : nat) (to_time : datetime)
    (uuid4 : nat -> GUID) (c : TestClock.t) (n : datetime) :
  TestClock.has_timers c = true ->
  TestClock.next_event_time c = Some n ->
  n <= to_time ->
  TestClock.advance_time fuel to_time uuid4 c =
  match TestClock.iterate_timers fuel to_time uuid4
          (TestClock._timers c) [] c with
  | Ok events c1 =>
      match TestClock._update_timing c1 with
      | Ok _ c2 =>
          Ok (TestClock.sort_events events) (TestClock.with_time c2 to_time)
      | Raise e c2 => Raise e c2
      | Timeout => Timeout
      end
  | Raise e c1 => Raise e c1
  | Timeout => Timeout
  end.
Proof.
  intros H1 H2 H3.
  unfold TestClock.advance_time, TestClock.before_next_event.
  unfold bind at 1. unfold get_state at 1. rewrite H1. simpl.
  unfold bind at 1. rewrite H2. unfold ret at 1.
  assert (E : (to_time <? n) = false) by (apply Z.ltb_ge; lia).
  rewrite E. unfold bind at 1.
  destruct (TestClock.iterate_timers _ _ _ _ _ _); reflexivity.
Qed.

Lemma sort_events_sorted (events : list (TimeEvent.t * Handler)) :
  StronglySorted
    (fun a b => TimeEvent.timestamp (fst a) <= TimeEvent.timestamp (fst b))
    (TestClock.sort_events events).
Proof.
  unfold TestClock.sort_events. apply sorted_sorted.
  - intros a b c0 H1 H2. lia.
  - intros a b. unfold TimeEvent.ltb.
    rewrite orb_true_iff, andb_true_iff, Z.ltb_lt, Z.eqb_eq. lia.
  - intros a b. unfold TimeEvent.ltb.
    rewrite orb_false_iff, Z.ltb_ge. lia.
Qed.

Lemma sort_events_keys (events : list (TimeEvent.t * Handler))
    (e : TimeEvent.t) :
  In e (PyDict.keys (TestClock.sort_events events)) <->
  In e (PyDict.keys events).
Proof.
  unfold PyDict.keys, TestClock.sort_events. rewrite !in_map_iff.
  split; intros [x [H1 H2]]; exists x; (split; [exact H1|]);
    now apply sorted_In in H2 || apply sorted_In.
Qed.

Lemma wf_with_timing (c : TestClock.t) (b : bool) (n : option datetime) :
  NoDup (PyDict.keys (TestClock._timers c)) ->
  keys_agree c -> labelled c ->
  timing_ok (TestClock.with_timing c b n) ->
  wf (TestClock.with_timing c b n).
Proof. intros H1 H2 H3 H4. constructor; assumption. Qed.

Lemma wf_with_time (c : TestClock.t) (to_time : datetime) :
  wf c -> wf (TestClock.with_time c to_time).
Proof. intros [H1 H2 H3 H4]. constructor; assumption. Qed.

Lemma timing_ok_busy (c : TestClock.t) :
  timing_ok c -> TestClock.has_timers c = true ->
  exists m, TestClock.next_event_time c = Some m.
Proof.
  unfold timing_ok. destruct (TestClock._timers c).
  - intros [H _] H'. congruence.
  - intros (_ & m & Em & _) _. eauto.
Qed.

(** What a call of [advance_time] on a well-formed clock comes to. *)
Lemma advance_time_wf (fuel : nat) (to_time : datetime)
    (uuid4 : nat -> GUID) (c : TestClock.t) :
  wf c ->
  match TestClock.advance_time fuel to_time uuid4 c with
  | Ok events c' =>
      wf c' /\
      ((idle c to_time /\ events = [] /\ c' = c) \/
       (TestClock._time c' = to_time /\
        Forall (settled to_time) (PyDict.values (TestClock._timers c')))) /\
      (forall k, In k (PyDict.keys (TestClock._timers c')) ->
                 In k (PyDict.keys (TestClock._timers c))) /\
      (forall e, In e (PyDict.keys events) ->
         exists kv, In kv (TestClock._timers c) /\
                    fired to_time (snd kv) e)
  | Raise _ _ => False
  | Timeout =>
      exists kv u, In kv (TestClock._timers c) /\
        TestTimer.advance fuel (snd kv) to_time u = None
  end.
Proof.
  intros Hwf. pose proof Hwf as [Hnd Hk Hl Ht].
  destruct (TestClock.has_timers c) eqn:Hh.
  2:{ rewrite advance_time_idle by (now left). cbv beta iota.
      split; [exact Hwf|]. split; [left; split; [now left | tauto]|].
      split; [intros k Hin; exact Hin | intros e []]. }
  destruct (timing_ok_busy c Ht Hh) as [m Em].
  destruct (Z_lt_le_dec to_time m) as [Hlt|Hge].
  { rewrite advance_time_idle by (right; eauto). cbv beta iota.
    split; [exact Hwf|].
    split; [left; split; [right; eauto | tauto]|].
    split; [intros k Hin; exact Hin | intros e []]. }
  rewrite (advance_time_busy _ _ _ _ m Hh Em Hge).
  pose proof (iterate_timers_inv (TestClock._timers c) [] fuel to_time
                uuid4 [] c eq_refl Hnd Hk Hl) as Hinv.
  destruct (TestClock.iterate_timers fuel to_time uuid4
              (TestClock._timers c) [] c)
    as [events c1| |]; [|exact Hinv|].
  - destruct Hinv as (surv & I1 & I2 & I3 & I4 & I5 & I6 & I7).
    simpl app in *.
    destruct (update_timing_ok c1) as (b & n & Eu & Hto).
    rewrite Eu. split; [|split; [|split]].
    + apply wf_with_time. apply wf_with_timing; try assumption.
      * now rewrite I1.
      * unfold labelled. now rewrite I1.
    + right. split; [reflexivity|]. simpl. rewrite I1.
      unfold PyDict.values. now rewrite Forall_map.
    + simpl. rewrite I1. exact I6.
    + intros e He. rewrite sort_events_keys in He. apply I7 in He.
      destruct He as [[]|He]. exact He.
  - exact Hinv.
Qed.

(** ** Well-formed clocks *)

Lemma wf_init (initial_time : datetime) : wf (TestClock.init initial_time).
Proof.
  constructor; unfold keys_agree, labelled, timing_ok; simpl;
    try constructor; reflexivity.
Qed.

Lemma wf_add_timer (timer : TestTimer.t) (h : Handler) (c : TestClock.t) :
  wf c ->
  ~ In (TestTimer.label timer) (PyDict.keys (TestClock._timers c)) ->
  exists c',
    TestClock._add_timer timer h c = Ok tt c' /\ wf c' /\
    TestClock._timers c'
      = TestClock._timers c ++ [(TestTimer.label timer, timer)] /\
    TestClock._time c' = TestClock._time c.
Proof.
  intros [Hnd Hk Hl Ht] Hfresh.
  destruct (add_timer_ok timer h c) as (b & n & E & Hto).
  eexists. split; [exact E|].
  assert (Es : TestClock._timers (registered c timer h)
               = TestClock._timers c ++ [(TestTimer.label timer, timer)]).
  { simpl. apply (keys_set_fresh String.eqb label_eqb_eq). exact Hfresh. }
  split; [|split; [exact Es | reflexivity]].
  apply wf_with_timing; [| | |exact Hto].
  - rewrite Es, keys_app. simpl.
    apply NoDup_app; [exact Hnd | repeat constructor; tauto |].
    intros a Ha [<-|[]]. contradiction.
  - unfold keys_agree, registered. simpl.
    apply (keys_set String.eqb). exact Hk.
  - unfold labelled. rewrite Es. apply Forall_app. split; [exact Hl|].
    repeat constructor.
Qed.

Lemma wf_cancel_timer (label : Label) (c : TestClock.t) :
  wf c ->
  exists c',
    TestClock.cancel_timer label c = Ok tt c' /\ wf c' /\
    TestClock._timers c'
      = PyDict.pop String.eqb label (TestClock._timers c) /\
    TestClock._time c' = TestClock._time c.
Proof.
  intros [Hnd Hk Hl Ht].
  destruct (cancel_timer_ok label c) as (b & n & E & Hto).
  eexists. split; [exact E|].
  split; [|split; reflexivity].
  apply wf_with_timing; [| | |exact Hto].
  - simpl. now apply NoDup_pop.
  - unfold keys_agree, unregistered. simpl.
    apply (keys_pop String.eqb). exact Hk.
  - unfold labelled, unregistered in *. simpl.
    rewrite Forall_forall in *. intros kv Hin. apply Hl.
    eapply In_pop; exact Hin.
Qed.

Lemma wf_cancel_each (labels : list Label) : forall c,
  wf c ->
  exists c',
    for_each labels TestClock.cancel_timer c = Ok tt c' /\ wf c' /\
    (forall k, In k (PyDict.keys (TestClock._timers c')) ->
               In k (PyDict.keys (TestClock._timers c)) /\ ~ In k labels) /\
    TestClock._time c' = TestClock._time c.
Proof.
  induction labels as [|l labels IH]; intros c Hwf; simpl.
  - exists c. unfold ret. split; [reflexivity|]. split; [exact Hwf|].
    split; [|reflexivity].
    intros k Hin. split; [exact Hin | intros []].
  - destruct (wf_cancel_timer l c Hwf) as (c1 & E1 & Hwf1 & Et1 & Etm1).
    unfold bind. rewrite E1.
    destruct (IH c1 Hwf1) as (c2 & E2 & Hwf2 & Hk2 & Etm2).
    exists c2. split; [exact E2|]. split; [exact Hwf2|].
    split; [|congruence].
    intros k Hin. apply Hk2 in Hin. destruct Hin as [Hin Hn].
    rewrite Et1 in Hin. split.
    + eapply In_keys_pop; exact Hin.
    + intros [<-|Hx]; [|contradiction].
      revert Hin. apply (pop_not_In String.eqb label_eqb_eq).
      apply Hwf.
Qed.

(** One call on a well-formed clock: the clock stays well-formed, a
    label absent from the registry stays absent unless the call
    registers it, and the events bear labels of the registry. *)
Lemma exec_wf (fuel : nat) (o : op) (c : TestClock.t) :
  wf c ->
  match exec fuel o c with
  | Ok events c' =>
      wf c' /\
      (forall L, registers L o = false ->
         ~ In L (PyDict.keys (TestClock._timers c)) ->
         ~ In L (PyDict.keys (TestClock._timers c'))) /\
      (forall e, In e (PyDict.keys events) ->
         In (TimeEvent.label e) (PyDict.keys (TestClock._timers c)))
  | Raise _ c' => c' = c
  | Timeout => True
  end.
Proof.
  intros Hwf. destruct o as [l a h|l i st sp h|l| |to_time uuid4|to_time|h];
    simpl.
  - pose proof (set_time_alert_cases l a h c) as Hc.
    unfold bind. destruct (alert_accepted c l a h) eqn:Ea.
    + destruct Hc as (h' & _ & ->).
      destruct (in_range a); [|reflexivity].
      unfold alert_accepted in Ea.
      rewrite !andb_true_iff, !negb_true_iff in Ea.
      destruct Ea as (((Ea & _) & _) & _).
      apply (contains_false String.eqb label_eqb_eq) in Ea.
      destruct (wf_add_timer (alert_timer c l a) h' c Hwf Ea)
        as (c' & -> & Hwf' & Et & _).
      unfold ret. split; [exact Hwf'|]. split; [|intros e []].
      intros L HL Hn. rewrite Et, keys_app, in_app_iff. simpl.
      apply String.eqb_neq in HL. intuition.
    + rewrite Hc. reflexivity.
  - pose proof (set_timer_cases l i st sp h c) as Hc. simpl in Hc.
    unfold bind. destruct (timer_accepted c l i st sp h) eqn:Ea.
    2:{ destruct Hc as [->|[_ ->]]; reflexivity. }
    + destruct Hc as (_ & h' & _ & ->).
      destruct (in_range _); [|reflexivity].
      unfold timer_accepted in Ea.
      rewrite !andb_true_iff, !negb_true_iff in Ea.
      destruct Ea as ((((Ea & _) & _) & _) & _).
      apply (contains_false String.eqb label_eqb_eq) in Ea.
      destruct (wf_add_timer
                  (timer_of l i
                     match st with
                     | Some s => s
                     | None => TestClock.time_now c
                     end sp) h' c Hwf Ea)
        as (c' & -> & Hwf' & Et & _).
      unfold ret. split; [exact Hwf'|]. split; [|intros e []].
      intros L HL Hn. rewrite Et, keys_app, in_app_iff. simpl.
      apply String.eqb_neq in HL. intuition.
  - destruct (wf_cancel_timer l c Hwf) as (c' & E & Hwf' & Et & _).
    unfold bind. rewrite E. unfold ret.
    split; [exact Hwf'|]. split; [|intros e []].
    intros L _ Hn Hin. apply Hn. rewrite Et in Hin.
    eapply In_keys_pop; exact Hin.
  - unfold TestClock.cancel_all_timers. unfold bind at 1 2.
    unfold get_state at 1.
    destruct (wf_cancel_each (TestClock.get_timer_labels c) c Hwf)
      as (c' & E & Hwf' & Hk & _).
    rewrite E. unfold ret.
    split; [exact Hwf'|]. split; [|intros e []].
    intros L _ Hn Hin. apply Hn. now apply Hk.
  - pose proof (advance_time_wf fuel to_time uuid4 c Hwf) as Ha.
    destruct (TestClock.advance_time fuel to_time uuid4 c)
      as [events c'|e c'|]; [|contradiction|exact I].
    destruct Ha as (Hwf' & _ & Hk & He).
    split; [exact Hwf'|]. split.
    + intros L _ Hn Hin. apply Hn. now apply Hk.
    + intros e Hin. destruct (He e Hin) as (kv & Hkv & Hf & _).
      rewrite Hf.
      destruct Hwf as [_ _ Hl _]. unfold labelled in Hl.
      rewrite Forall_forall in Hl. rewrite (Hl kv Hkv).
      apply in_map. exact Hkv.
  - unfold TestClock.set_time. mred.
    split; [now apply wf_with_time|]. split; [tauto | intros e []].
  - unfold TestClock.register_default_handler, Condition.callable. mred.
    destruct h as [|h|]; simpl; try reflexivity.
    split; [|split; [tauto | intros e []]].
    destruct Hwf as [H1 H2 H3 H4]. constructor; assumption.
Qed.

Lemma clock_fuel_enough (c : TestClock.t) (to_time : datetime)
    (kv : Label * TestTimer.t) :
  In kv (TestClock._timers c) ->
  (enough_fuel (snd kv) to_time <= clock_fuel c to_time)%nat.
Proof.
  unfold clock_fuel, PyDict.values.
  induction (TestClock._timers c) as [|kv' d IH];
    cbn [map fold_right In]; [tauto|].
  intros [->|Hin]; [apply Nat.le_max_l|].
  specialize (IH Hin). etransitivity; [exact IH | apply Nat.le_max_r].
Qed.

(** On a well-formed clock whose timers all make progress within the
    datetimes, [advance_time] returns. *)
Lemma advance_time_total (fuel : nat) (to_time : datetime)
    (uuid4 : nat -> GUID) (c : TestClock.t) :
  wf c -> positive c -> all_within_range c to_time ->
  (clock_fuel c to_time <= fuel)%nat ->
  exists events c', TestClock.advance_time fuel to_time uuid4 c = Ok events c'.
Proof.
  intros Hwf Hpos Hrange Hfuel.
  pose proof (advance_time_wf fuel to_time uuid4 c Hwf) as H.
  destruct (TestClock.advance_time fuel to_time uuid4 c)
    as [events c'|e c'|]; [eauto | contradiction |].
  destruct H as (kv & u & Hin & Hnone). exfalso.
  assert (Hv : In (snd kv) (PyDict.values (TestClock._timers c)))
    by (unfold PyDict.values; now apply in_map).
  destruct (advance_total (snd kv) to_time u fuel) as (evs & tm' & E).
  - unfold positive in Hpos. rewrite Forall_forall in Hpos.
    now apply Hpos.
  - unfold all_within_range in Hrange. rewrite Forall_forall in Hrange.
    now apply Hrange.
  - pose proof (clock_fuel_enough c to_time kv Hin). lia.
  - congruence.
Qed.

(** A clock whose timers are all settled has nothing due. *)
Lemma settled_idle (c : TestClock.t) (to_time : datetime) :
  timing_ok c ->
  Forall (settled to_time) (PyDict.values (TestClock._timers c)) ->
  idle c to_time.
Proof.
  unfold timing_ok, idle, next_times.
  destruct (TestClock._timers c) as [|kv d].
  - intros [H _] _. now left.
  - intros (_ & m & Em & Hin & _) Hs. right. exists m. split; [exact Em|].
    apply in_map_iff in Hin. destruct Hin as (tm & <- & Hin).
    rewrite Forall_forall in Hs. now apply Hs.
Qed.

(** ** Sequences of calls on a fresh clock *)

Lemma run_wf (fuel : nat) (ops : list op) : forall c,
  wf c -> Forall (fun p => wf (snd p)) (run fuel ops c).
Proof.
  induction ops as [|o ops IH]; intros c Hwf; simpl; [constructor|].
  pose proof (exec_wf fuel o c Hwf) as H.
  destruct (exec fuel o c) as [events c'|e c'|]; [| |constructor].
  - destruct H as (Hwf' & _). constructor; [exact Hwf' | now apply IH].
  - subst c'. constructor; [exact Hwf | now apply IH].
Qed.

Lemma run_absent (fuel : nat) (L : Label) (ops : list op) : forall c,
  wf c ->
  ~ In L (PyDict.keys (TestClock._timers c)) ->
  forallb (fun o => negb (registers L o)) ops = true ->
  Forall (fun p => forall e, In e (PyDict.keys (fst p)) ->
                             TimeEvent.label e <> L)
    (run fuel ops c).
Proof.
  induction ops as [|o ops IH]; intros c Hwf Hn Hops; simpl; [constructor|].
  simpl in Hops. apply andb_true_iff in Hops. destruct Hops as [Ho Hops].
  apply negb_true_iff in Ho.
  pose proof (exec_wf fuel o c Hwf) as H.
  destruct (exec fuel o c) as [events c'|e c'|]; [| |constructor].
  - destruct H as (Hwf' & Hk & He). constructor.
    + simpl. intros e Hin Heq. apply Hn. rewrite <- Heq. now apply He.
    + apply IH; [exact Hwf' | now apply Hk | exact Hops].
  - subst c'. constructor; [intros e0 []|]. now apply IH.
Qed.

Lemma get_set_same (k : Label) {V} (v : V) (d : list (Label * V)) :
  ~ In k (PyDict.keys d) ->
  PyDict.get String.eqb k (PyDict.set String.eqb k v d) = Some v.
Proof.
  induction d as [|[k' v'] d IH]; simpl; intros Hn.
  - now rewrite String.eqb_refl.
  - destruct (String.eqb_spec k k') as [->|Hne]; [tauto|].
    simpl. destruct (String.eqb_spec k k'); [contradiction|].
    apply IH. tauto.
Qed.

(** ** The timer: emission, latching, termination *)

(** C1, as the claim states it, fails: a live timer of interval one day
    whose [next_time] is [datetime.max] has one due moment when it is
    advanced to [datetime.max], yet [advance] returns no event: it never
    returns.  The moment after is no [datetime], [iterate_next] leaves
    [next_time] where it is, and the loop goes on. *)
Lemma advance_at_datetime_max_never_returns :
  let day := 86400000000 in
  exists tm,
    TestTimer.new "r"%string day (datetime_max - day) None = Some tm /\
    TestTimer.expired tm = false /\
    TestTimer.next_time tm <= datetime_max /\
    TestTimer.next_time (TestTimer.iterate_next tm) = TestTimer.next_time tm /\
    forall fuel uuid4,
      TestTimer.advance fuel tm datetime_max uuid4 = None.
Proof.
  intros day. eexists. split; [reflexivity|].
  split; [reflexivity|]. split; [discriminate|]. split; [reflexivity|].
  intros fuel uuid4. apply advance_stuck.
  - right. reflexivity.
  - reflexivity.
  - discriminate.
  - discriminate.
Qed.

(** C1, amended.  A live timer ([expired = false]) advanced to [to_time]
    that returns has returned one event per due moment: the timestamps
    are [next_time], [next_time + interval], ... (the value of
    [next_time] when each event is emitted, [iterate_next] having been
    applied after every emission), in strictly ascending order, all at or
    before [to_time] and all under the timer's label.  [next_time] has
    moved on by the interval for each event (unless the single emission
    of a timer already past its [stop_time] had no next moment).  The
    loop stops at the first moment past [to_time] or when the latch is
    set; the latch is set exactly when an emission leaves [next_time]
    past a present [stop_time], never before the last emission, and a
    latched timer emits nothing in any later call.  With a positive
    interval, and as long as the moment after each emission is still a
    [datetime], the call does return. *)
Theorem advance_emits_each_due_moment (tm : TestTimer.t)
    (to_time : datetime) (uuid4 : nat -> GUID) :
  TestTimer.expired tm = false ->
  (forall fuel evs tm',
     TestTimer.advance fuel tm to_time uuid4 = Some (evs, tm') ->
     let k := List.length evs in
     map TimeEvent.timestamp evs
       = ticks (TestTimer.next_time tm) (TestTimer.interval tm) k /\
     StronglySorted Z.lt (map TimeEvent.timestamp evs) /\
     Forall (fun e => TimeEvent.label e = TestTimer.label tm /\
                      TimeEvent.timestamp e <= to_time) evs /\
     (forall j s, (0 < j < k)%nat -> TestTimer.stop_time tm = Some s ->
        TestTimer.next_time tm + Z.of_nat j * TestTimer.interval tm <= s) /\
     (TestTimer.next_time tm'
        = TestTimer.next_time tm + Z.of_nat k * TestTimer.interval tm \/
      (k = 1%nat /\ TestTimer.next_time tm' = TestTimer.next_time tm /\
       in_range (TestTimer.next_time tm + TestTimer.interval tm) = false /\
       exists s, TestTimer.stop_time tm = Some s /\
                 s < TestTimer.next_time tm)) /\
     (within_range tm to_time ->
      TestTimer.next_time tm'
      = TestTimer.next_time tm + Z.of_nat k * TestTimer.interval tm) /\
     (TestTimer.expired tm' = true <->
      (0 < k)%nat /\
      exists s, TestTimer.stop_time tm = Some s /\
                TestTimer.next_time tm' > s) /\
     (TestTimer.expired tm' = false -> to_time < TestTimer.next_time tm') /\
     (TestTimer.expired tm' = true ->
      forall fuel' to_time' uuid4',
        TestTimer.advance (S fuel') tm' to_time' uuid4' = Some ([], tm'))) /\
  (0 < TestTimer.interval tm -> within_range tm to_time ->
   exists fuel evs tm',
     TestTimer.advance fuel tm to_time uuid4 = Some (evs, tm')).
Proof.
  intros He. split.
  - intros fuel evs tm' H k.
    pose proof (advance_result _ _ _ _ _ _ H)
      as (_ & Ht & Hl & Hto & Hn & Hexit).
    pose proof (advance_latch _ _ _ _ _ _ He H) as (Hlatch & Hbefore).
    split; [exact Ht|]. split.
    { destruct (Z_lt_le_dec 0 (TestTimer.interval tm)) as [Hi|Hi].
      - rewrite Ht. now apply ticks_increasing.
      - pose proof (advance_no_progress _ _ _ _ _ _ Hi H) as Hk.
        destruct evs as [|e [|e' evs]]; simpl in *;
          [constructor | repeat constructor | lia]. }
    split.
    { rewrite Forall_forall in *. intros e Hin. split; auto. }
    split; [exact Hbefore|]. split; [exact Hn|].
    split; [intros Hr; eapply advance_next_time; eassumption|].
    split; [exact Hlatch|].
    split.
    + intros Hx. destruct Hexit as [Hy|Hy]; [congruence | exact Hy].
    + intros Hx fuel' to_time' uuid4'. apply advance_settled. now left.
  - intros Hi Hr.
    destruct (advance_total tm to_time uuid4 (enough_fuel tm to_time) Hi
                Hr (le_n _)) as (evs & tm' & E).
    eauto.
Qed.

Lemma advance_emits_each_due_moment_witness :
  let tm := timer_of "r"%string 1 0 (Some 3) in
  TestTimer.expired tm = false /\
  0 < TestTimer.interval tm /\
  within_range tm 10 /\
  (exists fuel evs tm', TestTimer.advance fuel tm 10 (fun n => n)
                        = Some (evs, tm')) /\
  map TimeEvent.timestamp
    [TimeEvent.mk "r"%string 0%nat 1; TimeEvent.mk "r"%string 1%nat 2;
     TimeEvent.mk "r"%string 2%nat 3] = ticks 1 1 3.
Proof.
  intros tm.
  pose proof (advance_emits_each_due_moment tm 10 (fun n => n) eq_refl)
    as [Hpart Htot].
  assert (Hr : within_range tm 10).
  { apply within_range_below; simpl;
      unfold datetime_min, datetime_max; lia. }
  split; [reflexivity|]. split; [reflexivity|]. split; [exact Hr|].
  split; [apply Htot; [reflexivity | exact Hr]|].
  exact (proj1 (Hpart 5%nat _ _ eq_refl)).
Defined.

(** C10, as the claim states it, fails: a timer with the strictly
    positive interval of one microsecond whose [next_time] is
    [datetime.max] never returns from [advance(datetime.max)]; the turn of
    the loop does not increase [next_time]. *)
Lemma advance_with_positive_interval_runs_for_ever :
  exists tm,
    TestTimer.new "r"%string 1 (datetime_max - 1) None = Some tm /\
    0 < TestTimer.interval tm /\
    TestTimer.next_time
      (TestTimer.check_stop (TestTimer.iterate_next tm))
    = TestTimer.next_time tm /\
    forall fuel uuid4,
      TestTimer.advance fuel tm datetime_max uuid4 = None.
Proof.
  eexists. split; [reflexivity|]. split; [reflexivity|].
  split; [reflexivity|].
  intros fuel uuid4. apply advance_no_return.
  - right. reflexivity.
  - reflexivity.
  - discriminate.
  - reflexivity.
Qed.

(** C10, amended.  With a strictly positive interval [advance] ends for
    every [to_time] up to which the moment after each emission is still a
    [datetime]: every turn of the loop then moves [next_time] up by the
    interval, and the loop is left with the timer latched or [next_time]
    past [to_time].  That move is the only progress measure: when the
    interval is not positive, or the next moment is no [datetime], a live
    timer that is due and is not latched by its first emission keeps the
    loop running for ever; in particular a new timer (whose [start_time]
    is before its [stop_time], as the constructor assumes) with an
    interval that is not positive never comes back from [advance] to its
    own first [next_time]. *)
Theorem advance_terminates_by_progress (tm : TestTimer.t)
    (to_time : datetime) (uuid4 : nat -> GUID) :
  (0 < TestTimer.interval tm -> within_range tm to_time ->
   exists fuel evs tm',
     (forall fuel', (fuel <= fuel')%nat ->
        TestTimer.advance fuel' tm to_time uuid4 = Some (evs, tm')) /\
     TestTimer.next_time tm'
       = TestTimer.next_time tm
         + Z.of_nat (List.length evs) * TestTimer.interval tm /\
     (TestTimer.expired tm' = true \/ to_time < TestTimer.next_time tm')) /\
  (TestTimer.interval tm <= 0 \/
   in_range (TestTimer.next_time tm + TestTimer.interval tm) = false ->
   TestTimer.expired tm = false ->
   TestTimer.next_time tm <= to_time ->
   TestTimer.expired (TestTimer.check_stop (TestTimer.iterate_next tm))
   = false ->
   forall fuel, TestTimer.advance fuel tm to_time uuid4 = None) /\
  (forall label interval start_time stop_time tm0,
     interval <= 0 ->
     (forall s, stop_time = Some s -> start_time < s) ->
     TestTimer.new label interval start_time stop_time = Some tm0 ->
     forall fuel,
       TestTimer.advance fuel tm0 (start_time + interval) uuid4 = None).
Proof.
  split; [|split].
  - intros Hi Hr.
    destruct (advance_total tm to_time uuid4 (enough_fuel tm to_time) Hi
                Hr (le_n _)) as (evs & tm' & E).
    exists (enough_fuel tm to_time), evs, tm'.
    pose proof (advance_result _ _ _ _ _ _ E) as (_ & _ & _ & _ & _ & Hx).
    split; [|split; [eapply advance_next_time; eassumption | exact Hx]].
    intros fuel' Hle. eapply advance_more_fuel; [exact E | exact Hle].
  - intros Hi He Hn Hx fuel. now apply advance_no_return.
  - intros label interval start_time stop_time tm0 Hi Hs Hnew fuel.
    unfold TestTimer.new in Hnew. rewrite datetime_add_spec in Hnew.
    destruct (in_range (start_time + interval)); [|discriminate].
    injection Hnew as <-.
    apply advance_stuck; simpl; try lia; try reflexivity.
    intros s Es. specialize (Hs s Es). lia.
Qed.

Lemma advance_terminates_by_progress_witness :
  (exists fuel evs tm',
     TestTimer.advance fuel (timer_of "r"%string 2 0 None) 7
       (fun n => n) = Some (evs, tm')) /\
  TestTimer.advance 1000 (timer_of "a"%string 0 5 (Some 5)) 5
    (fun n => n) = None /\
  TestTimer.advance 1000 (timer_of "z"%string 0 0 (Some 1)) (0 + 0)
    (fun n => n) = None.
Proof.
  split; [|split].
  - destruct (proj1 (advance_terminates_by_progress
                       (timer_of "r"%string 2 0 None) 7 (fun n => n)))
      as (fuel & evs & tm' & H & _); [reflexivity | |].
    + apply within_range_below; simpl;
        unfold datetime_min, datetime_max; lia.
    + exists fuel, evs, tm'. apply H. apply le_n.
  - apply (proj1 (proj2 (advance_terminates_by_progress
                    (timer_of "a"%string 0 5 (Some 5)) 5 (fun n => n)))).
    + left. simpl. lia.
    + reflexivity.
    + simpl. lia.
    + reflexivity.
  - apply (proj2 (proj2 (advance_terminates_by_progress
                    (timer_of "z"%string 0 0 None) 0 (fun n => n)))
             "z"%string 0 0 (Some 1)).
    + lia.
    + intros s E. injection E as <-. lia.
    + reflexivity.
Defined.

(** ** The clock: what [advance_time] returns and leaves *)

(** A clock with one repeating timer, as [set_timer("r", 2)] leaves a
    fresh clock. *)
Lemma wf_one_timer :
  wf (TestClock.mk
        [("r"%string, timer_of "r"%string 2 0 None)]
        [("r"%string, 7%nat)] None (Some 2) true false 0).
Proof.
  pose proof (run_wf O
                [SetTimer "r"%string 2 None None (PyCallable 7%nat)]
                (TestClock.init 0) (wf_init 0)) as H.
  apply Forall_inv in H. exact H.
Qed.

(** C4. Advancing twice to the same instant: once [advance(to_time)]
    has returned, a second [advance(to_time)] on the timer it left
    returns the empty list and leaves the timer as it is; once
    [advance_time(to_time)] has returned on a well-formed clock, a second
    [advance_time(to_time)] returns the empty mapping and leaves the whole
    clock as it is. *)
Theorem advance_twice_is_advance_once (to_time : datetime) :
  (forall fuel tm uuid4 evs tm',
     TestTimer.advance fuel tm to_time uuid4 = Some (evs, tm') ->
     forall fuel' uuid4',
       TestTimer.advance (S fuel') tm' to_time uuid4' = Some ([], tm')) /\
  (forall fuel c uuid4 events c',
     wf c ->
     TestClock.advance_time fuel to_time uuid4 c = Ok events c' ->
     forall fuel' uuid4',
       TestClock.advance_time fuel' to_time uuid4' c' = Ok [] c').
Proof.
  split.
  - intros fuel tm uuid4 evs tm' H fuel' uuid4'.
    apply advance_settled.
    now destruct (advance_result _ _ _ _ _ _ H) as (_ & _ & _ & _ & _ & Hx).
  - intros fuel c uuid4 events c' Hwf H fuel' uuid4'.
    pose proof (advance_time_wf fuel to_time uuid4 c Hwf) as Ha.
    rewrite H in Ha. destruct Ha as (Hwf' & [(Hi & _ & ->)|(_ & Hs)] & _).
    + now apply advance_time_idle.
    + apply advance_time_idle. apply settled_idle; [apply Hwf' | exact Hs].
Qed.

Lemma advance_twice_is_advance_once_witness :
  let tm := timer_of "r"%string 2 0 None in
  let c := TestClock.mk [("r"%string, tm)] [("r"%string, 7%nat)]
             None (Some 2) true false 0 in
  TestTimer.advance 1 (TestTimer.mk "r"%string 2 0 8 None false) 7
    (fun n => n)
  = Some ([], TestTimer.mk "r"%string 2 0 8 None false) /\
  wf c /\
  TestClock.advance_time 0 7 (fun n => n)
    (TestClock.mk
       [("r"%string, TestTimer.mk "r"%string 2 0 8 None false)]
       [("r"%string, 7%nat)] None (Some 8) true false 7)
  = Ok []
      (TestClock.mk
         [("r"%string, TestTimer.mk "r"%string 2 0 8 None false)]
         [("r"%string, 7%nat)] None (Some 8) true false 7).
Proof.
  intros tm c.
  assert (Hwf : wf c) by exact wf_one_timer.
  split; [|split; [exact Hwf|]].
  - exact (proj1 (advance_twice_is_advance_once 7) 5%nat tm (fun n => n)
             _ _ eq_refl O (fun n => n)).
  - exact (proj2 (advance_twice_is_advance_once 7) 5%nat c (fun n => n)
             _ _ Hwf eq_refl O (fun n => n)).
Defined.



(** The clock of [wf_one_timer] stays within the datetimes. *)
Lemma one_timer_within_range (to_time : datetime) :
  to_time + 2 <= datetime_max ->
  all_within_range
    (TestClock.mk
       [("r"%string, timer_of "r"%string 2 0 None)]
       [("r"%string, 7%nat)] None (Some 2) true false 0) to_time.
Proof.
  intros H. repeat constructor.
  apply within_range_below; simpl; [lia | | exact H].
  unfold datetime_min. lia.
Qed.


(** C2, as the claim states it, fails: on a clock at time 10,
    [set_timer("r", 1, start_time=9)] is accepted (its first event is due
    at 10, not before the clock's time), and [advance_time(11)] then
    returns an event stamped 10, which is not after the clock's time
    before the call. *)
Lemma first_event_at_previous_time :
  exists c events c' e h,
    run 20 [SetTimer "r"%string 1 (Some 9) None (PyCallable 7%nat)]
      (TestClock.init 10) = [([], c)] /\
    TestClock.advance_time 20 11 (fun n => n) c = Ok events c' /\
    In (e, h) events /\
    TestClock.time_now c = 10 /\ TimeEvent.timestamp e = 10 /\
    ~ (TestClock.time_now c < TimeEvent.timestamp e <= 11).
Proof.
  do 3 eexists. exists (TimeEvent.mk "r"%string 0%nat 10), 7%nat.
  split; [lazy; reflexivity|]. split; [lazy; reflexivity|].
  split; [now left|].
  split; [reflexivity|]. split; [reflexivity|].
  simpl. lia.
Qed.

(** C2, amended.  On a well-formed clock the events that
    [advance_time(to_time)] returns are sorted ascending by timestamp;
    each bears the label of a registered timer and a timestamp from that
    timer's [next_time] before the call up to [to_time], hence not before
    [next_event_time]; the timestamps are after the clock's previous time
    whenever every registered timer's [next_time] was.  When all
    intervals are positive and the timers stay within the datetimes up
    to [to_time], the call returns. *)
Theorem advance_time_sorted_and_bounded (c : TestClock.t)
    (to_time : datetime) (uuid4 : nat -> GUID) :
  wf c ->
  (forall fuel events c',
     TestClock.advance_time fuel to_time uuid4 c = Ok events c' ->
     StronglySorted
       (fun a b => TimeEvent.timestamp (fst a) <= TimeEvent.timestamp (fst b))
       events /\
     (forall e, In e (PyDict.keys events) ->
        TimeEvent.timestamp e <= to_time /\
        (exists tm, In tm (PyDict.values (TestClock._timers c)) /\
                    TimeEvent.label e = TestTimer.label tm /\
                    TestTimer.next_time tm <= TimeEvent.timestamp e) /\
        (forall n, TestClock.next_event_time c = Some n ->
                   n <= TimeEvent.timestamp e)) /\
     (Forall (fun tm => TestClock.time_now c < TestTimer.next_time tm)
        (PyDict.values (TestClock._timers c)) ->
      forall e, In e (PyDict.keys events) ->
        TestClock.time_now c < TimeEvent.timestamp e <= to_time)) /\
  (positive c -> all_within_range c to_time ->
   exists fuel events c',
     TestClock.advance_time fuel to_time uuid4 c = Ok events c').
Proof.
  intros Hwf. split.
  - intros fuel events c' H.
    pose proof (advance_time_wf fuel to_time uuid4 c Hwf) as Ha.
    rewrite H in Ha. destruct Ha as (_ & Hcase & _ & Hev).
    assert (Hfrom : forall e, In e (PyDict.keys events) ->
              exists tm, In tm (PyDict.values (TestClock._timers c)) /\
                         fired to_time tm e).
    { intros e Hin. destruct (Hev e Hin) as (kv & Hkv & Hf).
      exists (snd kv). split; [|exact Hf].
      unfold PyDict.values. now apply in_map. }
    split; [|split].
    + destruct Hcase as [(Hi & -> & _)|_]; [constructor|].
      destruct (TestClock.has_timers c) eqn:Hh.
      * destruct (timing_ok_busy c (wf_timing c Hwf) Hh) as [m Em].
        destruct (Z_lt_le_dec to_time m) as [Hlt|Hge].
        -- rewrite advance_time_idle in H by (right; eauto).
           injection H as <- _. constructor.
        -- rewrite (advance_time_busy _ _ _ _ m Hh Em Hge) in H.
           destruct (TestClock.iterate_timers _ _ _ _ _ _) as [ev c1| |];
             try discriminate.
           destruct (TestClock._update_timing c1) as [[] c2| |];
             try discriminate.
           injection H as <- _. apply sort_events_sorted.
      * rewrite advance_time_idle in H by (now left).
        injection H as <- _. constructor.
    + intros e Hin. destruct (Hfrom e Hin) as (tm & Htm & Hl & Hlo & Hhi).
      split; [exact Hhi|]. split; [exists tm; tauto|].
      intros n En. pose proof (wf_timing c Hwf) as Ht.
      unfold timing_ok, next_times in Ht.
      destruct (TestClock._timers c) as [|kv d]; [destruct Htm|].
      destruct Ht as (_ & m & Em & _ & Hall).
      rewrite En in Em. injection Em as <-.
      rewrite Forall_forall in Hall.
      specialize (Hall (TestTimer.next_time tm) (in_map _ _ _ Htm)). lia.
    + intros Hall e Hin.
      destruct (Hfrom e Hin) as (tm & Htm & Hl & Hlo & Hhi).
      rewrite Forall_forall in Hall. specialize (Hall tm Htm). lia.
  - intros Hpos Hrange.
    destruct (advance_time_total (clock_fuel c to_time) to_time uuid4 c
                Hwf Hpos Hrange (le_n _)) as (events & c' & E).
    eauto.
Qed.

Lemma advance_time_sorted_and_bounded_witness :
  let c := TestClock.mk
             [("r"%string, timer_of "r"%string 2 0 None)]
             [("r"%string, 7%nat)] None (Some 2) true false 0 in
  wf c /\ positive c /\ all_within_range c 7 /\
  (exists fuel events c',
     TestClock.advance_time fuel 7 (fun n => n) c = Ok events c') /\
  StronglySorted
    (fun a b => TimeEvent.timestamp (fst a) <= TimeEvent.timestamp (fst b))
    [(TimeEvent.mk "r"%string 0%nat 2, 7%nat);
     (TimeEvent.mk "r"%string 1%nat 4, 7%nat);
     (TimeEvent.mk "r"%string 2%nat 6, 7%nat)].
Proof.
  intros c.
  pose proof (advance_time_sorted_and_bounded c 7 (fun n => n) wf_one_timer)
    as [Hpart Htot].
  assert (Hpos : positive c) by (repeat constructor).
  assert (Hrange : all_within_range c 7)
    by (apply one_timer_within_range; unfold datetime_max; lia).
  split; [exact wf_one_timer|]. split; [exact Hpos|].
  split; [exact Hrange|].
  split; [exact (Htot Hpos Hrange)|].
  exact (proj1 (Hpart 5%nat _ _ eq_refl)).
Defined.

(** ** The registry across calls *)

(** C5. After any sequence of public calls on a fresh clock
    ([set_time_alert], [set_timer], [cancel_timer], [cancel_all_timers],
    [advance_time], and also [set_time] and [register_default_handler]),
    at every point where a call has come back, normally or with an
    exception, [_timers] and [_handlers] have the same keys (in the same
    order, and none twice). *)
Theorem timers_and_handlers_share_keys (fuel : nat) (ops : list op)
    (initial_time : datetime) (events : list (TimeEvent.t * Handler))
    (c : TestClock.t) :
  In (events, c) (run fuel ops (TestClock.init initial_time)) ->
  PyDict.keys (TestClock._timers c) = PyDict.keys (TestClock._handlers c) /\
  NoDup (PyDict.keys (TestClock._timers c)).
Proof.
  intros Hin.
  pose proof (run_wf fuel ops _ (wf_init initial_time)) as H.
  rewrite Forall_forall in H. specialize (H _ Hin).
  destruct H as [Hnd Hk _ _]. split; [exact Hk | exact Hnd].
Qed.

Lemma timers_and_handlers_share_keys_witness :
  let ops := [SetTimeAlert "a"%string 2 (PyCallable 1%nat);
              SetTimer "b"%string 3 (Some 0) (Some 9) (PyCallable 2%nat);
              AdvanceTime 7 (fun n => n);
              CancelTimer "b"%string] in
  exists events c,
    In (events, c) (run 10 ops (TestClock.init 0)) /\
    PyDict.keys (TestClock._timers c) = ["b"%string] /\
    PyDict.keys (TestClock._timers c) = PyDict.keys (TestClock._handlers c).
Proof.
  intros ops. do 2 eexists. split; [|split].
  - lazy. right. right. left. reflexivity.
  - reflexivity.
  - refine (proj1 (timers_and_handlers_share_keys 10 ops 0 _ _ _)).
    lazy. right. right. left. reflexivity.
Defined.

(** C6. After any sequence of public calls on a fresh clock,
    [has_timers] is true exactly when [_timers] is not empty;
    [next_event_time] is [None] when [_timers] is empty and otherwise the
    least [next_time] of the registered timers. *)
Theorem timing_cache_matches_registry (fuel : nat) (ops : list op)
    (initial_time : datetime) (events : list (TimeEvent.t * Handler))
    (c : TestClock.t) :
  In (events, c) (run fuel ops (TestClock.init initial_time)) ->
  (TestClock.has_timers c = true <-> TestClock._timers c <> []) /\
  (TestClock._timers c = [] -> TestClock.next_event_time c = None) /\
  (TestClock._timers c <> [] ->
   exists m, TestClock.next_event_time c = Some m /\
             In m (next_times c) /\
             Forall (fun x => m <= x) (next_times c)).
Proof.
  intros Hin.
  pose proof (run_wf fuel ops _ (wf_init initial_time)) as H.
  rewrite Forall_forall in H. specialize (H _ Hin).
  simpl in H. destruct H as [_ _ _ Ht].
  revert Ht. unfold timing_ok, next_times.
  destruct (TestClock._timers c) as [|kv d]; intros [H1 H2]; rewrite H1.
  - split; [split; [discriminate | congruence]|].
    split; [intros _; exact H2 | congruence].
  - split; [split; [discriminate | reflexivity]|].
    split; [discriminate | intros _; exact H2].
Qed.

Lemma timing_cache_matches_registry_witness :
  let ops := [SetTimeAlert "a"%string 2 (PyCallable 1%nat);
              SetTimer "b"%string 3 (Some 0) (Some 9) (PyCallable 2%nat);
              AdvanceTime 7 (fun n => n)] in
  exists events c,
    In (events, c) (run 10 ops (TestClock.init 0)) /\
    TestClock.next_event_time c = Some 9 /\
    (TestClock.has_timers c = true <-> TestClock._timers c <> []).
Proof.
  intros ops. do 2 eexists. split; [|split].
  - lazy. right. right. left. reflexivity.
  - reflexivity.
  - refine (proj1 (timing_cache_matches_registry 10 ops 0 _ _ _)).
    lazy. right. right. left. reflexivity.
Defined.

(** C7. The setters fail atomically.  [set_time_alert] raises
    [ConditionFailed] exactly when one of its preconditions fails (label
    already in [_timers] or [_handlers], no callable handler given or
    registered as default, alert time before the clock's time), and then
    the clock is exactly as before the call; otherwise it returns (an
    [alert_time] that is no [datetime] makes the constructor raise
    [OverflowError], the clock again as before).  The same holds of
    [set_timer] and its preconditions (label, positive interval, handler,
    and [start_time < stop_time], [start_time + interval <= stop_time]
    when a stop time is given): when [start_time + interval] is a
    [datetime] it raises [ConditionFailed] exactly when one of them
    fails, and returns otherwise; when [start_time + interval] is past
    [datetime.max] it raises [ConditionFailed] or [OverflowError]; every
    time it raises, the clock is exactly as before the call. *)
Theorem setters_fail_atomically (c : TestClock.t) :
  (forall label alert_time handler,
     if alert_accepted c label alert_time handler
     then if in_range alert_time
          then exists c', TestClock.set_time_alert label alert_time handler c
                          = Ok tt c'
          else TestClock.set_time_alert label alert_time handler c
               = Raise OverflowError c
     else TestClock.set_time_alert label alert_time handler c
          = Raise ConditionFailed c) /\
  (forall label interval start_time stop_time handler,
     let start := match start_time with
                  | Some s => s
                  | None => TestClock.time_now c
                  end in
     if timer_accepted c label interval start_time stop_time handler
     then if in_range (start + interval)
          then exists c',
                 TestClock.set_timer label interval start_time stop_time
                   handler c = Ok tt c'
          else TestClock.set_timer label interval start_time stop_time
                 handler c = Raise OverflowError c
     else TestClock.set_timer label interval start_time stop_time handler c
          = Raise ConditionFailed c \/
          (in_range (start + interval) = false /\
           TestClock.set_timer label interval start_time stop_time handler c
           = Raise OverflowError c)).
Proof.
  split.
  - intros label alert_time handler.
    pose proof (set_time_alert_cases label alert_time handler c) as H.
    destruct (alert_accepted c label alert_time handler); [|exact H].
    destruct H as (h & _ & ->).
    destruct (in_range alert_time); [|reflexivity].
    destruct (add_timer_ok (alert_timer c label alert_time) h c)
      as (b & n & E & _).
    eauto.
  - intros label interval start_time stop_time handler start.
    pose proof (set_timer_cases label interval start_time stop_time
                  handler c) as H.
    fold start in H.
    destruct (timer_accepted c label interval start_time stop_time handler);
      [|exact H].
    destruct H as (_ & h & _ & ->).
    destruct (in_range (start + interval)); [|reflexivity].
    destruct (add_timer_ok (timer_of label interval start stop_time) h c)
      as (b & n & E & _).
    eauto.
Qed.

(** C8, as the claim states it, fails: an alert at exactly the clock's
    time is accepted, and the timer it registers has interval zero. *)
Lemma alert_at_current_time_has_zero_interval :
  exists c' tm,
    TestClock.set_time_alert "a"%string 5 (PyCallable 7%nat)
      (TestClock.init 5) = Ok tt c' /\
    PyDict.get String.eqb "a"%string (TestClock._timers c') = Some tm /\
    ~ (0 < TestTimer.interval tm).
Proof.
  do 2 eexists. split; [lazy; reflexivity|].
  split; [lazy; reflexivity|]. simpl. lia.
Qed.

(** C8, amended.  The timer that a successful [set_timer] registers has
    the given interval, which is strictly positive; the timer that a
    successful [set_time_alert] registers has the interval
    [alert_time - time_now()], which is not negative and is zero exactly
    when the alert is set at the clock's current time; and such an alert
    is accepted (the precondition [alert_time >= time_now()] includes
    the boundary; were the clock's time no [datetime], the constructor
    would raise [OverflowError]). *)
Theorem registered_intervals_not_negative (c : TestClock.t) :
  (forall label interval start_time stop_time handler c',
     TestClock.set_timer label interval start_time stop_time handler c
     = Ok tt c' ->
     exists tm,
       PyDict.get String.eqb label (TestClock._timers c') = Some tm /\
       TestTimer.interval tm = interval /\ 0 < interval) /\
  (forall label alert_time handler c',
     TestClock.set_time_alert label alert_time handler c = Ok tt c' ->
     exists tm,
       PyDict.get String.eqb label (TestClock._timers c') = Some tm /\
       TestTimer.interval tm = alert_time - TestClock.time_now c /\
       TestTimer.next_time tm = alert_time /\
       0 <= TestTimer.interval tm /\
       (TestTimer.interval tm = 0 <-> alert_time = TestClock.time_now c)) /\
  (forall label handler,
     PyDict.contains String.eqb label (TestClock._timers c) = false ->
     PyDict.contains String.eqb label (TestClock._handlers c) = false ->
     is_callable (TestClock.or_default c handler) = true ->
     if in_range (TestClock.time_now c)
     then exists c',
            TestClock.set_time_alert label (TestClock.time_now c) handler c
            = Ok tt c'
     else TestClock.set_time_alert label (TestClock.time_now c) handler c
          = Raise OverflowError c).
Proof.
  split; [|split].
  - intros label interval start_time stop_time handler c' H.
    destruct (set_timer_Ok _ _ _ _ _ _ _ H) as (Ea & Hi & h & _ & E).
    match type of E with
    | TestClock._add_timer ?tm h c = _ =>
        destruct (add_timer_ok tm h c) as (b & n & E' & _);
        exists tm
    end.
    rewrite E' in E. injection E as <-.
    split; [|split; [reflexivity | exact Hi]].
    simpl. now apply get_set_same.
  - intros label alert_time handler c' H.
    destruct (set_time_alert_Ok _ _ _ _ _ H) as (Ea & Hle & h & _ & E).
    destruct (add_timer_ok (alert_timer c label alert_time) h c)
      as (b & n & E' & _).
    exists (alert_timer c label alert_time).
    rewrite E' in E. injection E as <-.
    split; [simpl; now apply get_set_same|].
    simpl. repeat split; lia.
  - intros label handler H1 H2 H3.
    pose proof (set_time_alert_cases label (TestClock.time_now c)
                  handler c) as Hc.
    unfold alert_accepted in Hc. rewrite H1, H2, H3, Z.leb_refl in Hc.
    simpl in Hc. destruct Hc as (h & _ & ->).
    destruct (in_range (TestClock.time_now c)); [|reflexivity].
    destruct (add_timer_ok
                (alert_timer c label (TestClock.time_now c)) h c)
      as (b & n & E' & _).
    eauto.
Qed.

Lemma registered_intervals_not_negative_witness :
  (exists tm,
     PyDict.get String.eqb "r"%string
       [("r"%string, timer_of "r"%string 2 0 None)] = Some tm /\
     TestTimer.interval tm = 2 /\ 0 < 2) /\
  (exists tm,
     PyDict.get String.eqb "a"%string
       [("a"%string, timer_of "a"%string 0 5 (Some 5))] = Some tm /\
     TestTimer.interval tm = 5 - 5) /\
  (exists c',
     TestClock.set_time_alert "a"%string 5 (PyCallable 7%nat)
       (TestClock.init 5) = Ok tt c').
Proof.
  split; [|split].
  - exact (proj1 (registered_intervals_not_negative (TestClock.init 0))
             "r"%string 2 None None (PyCallable 7%nat) _ eq_refl).
  - destruct (proj1 (proj2 (registered_intervals_not_negative
                              (TestClock.init 5)))
                "a"%string 5 (PyCallable 7%nat) _ eq_refl)
      as (tm & H1 & H2 & _).
    exists tm. split; [exact H1 | exact H2].
  - exact (proj2 (proj2 (registered_intervals_not_negative
                           (TestClock.init 5)))
             "a"%string (PyCallable 7%nat) eq_refl eq_refl eq_refl).
Defined.

(** C9. On a well-formed clock [cancel_timer(L)] returns, and from then
    on, through any sequence of calls none of which registers [L] again,
    no [advance_time] call returns an event with the label [L]. *)
Theorem cancelled_label_never_fires (c : TestClock.t) (L : Label) :
  wf c ->
  exists c1,
    TestClock.cancel_timer L c = Ok tt c1 /\
    forall fuel ops,
      forallb (fun o => negb (registers L o)) ops = true ->
      forall events c2,
        In (events, c2) (run fuel ops c1) ->
        forall e h, In (e, h) events -> TimeEvent.label e <> L.
Proof.
  intros Hwf.
  destruct (wf_cancel_timer L c Hwf) as (c1 & E & Hwf1 & Et & _).
  exists c1. split; [exact E|].
  intros fuel ops Hops events c2 Hin e h He.
  assert (Hn : ~ In L (PyDict.keys (TestClock._timers c1))).
  { rewrite Et. apply (pop_not_In String.eqb label_eqb_eq). apply Hwf. }
  pose proof (run_absent fuel L ops c1 Hwf1 Hn Hops) as H.
  rewrite Forall_forall in H. apply (H _ Hin).
  simpl. unfold PyDict.keys. apply (in_map fst _ _ He).
Qed.

Lemma cancelled_label_never_fires_witness :
  let c := TestClock.mk
             [("r"%string, timer_of "r"%string 2 0 None)]
             [("r"%string, 7%nat)] None (Some 2) true false 0 in
  wf c /\
  exists c1,
    TestClock.cancel_timer "r"%string c = Ok tt c1 /\
    forall events c2,
      In (events, c2)
        (run 10 [SetTimeAlert "x"%string 5 (PyCallable 1%nat);
                 AdvanceTime 10 (fun n => n)] c1) ->
      forall e h, In (e, h) events -> TimeEvent.label e <> "r"%string.
Proof.
  intros c. split; [exact wf_one_timer|].
  destruct (cancelled_label_never_fires c "r"%string wf_one_timer)
    as (c1 & E & H).
  exists c1. split; [exact E|].
  intros events c2. apply H. reflexivity.
Defined.

(** ** Further properties of the timer *)

Lemma advance_ids (fuel : nat) : forall tm to_time uuid4 evs tm',
  TestTimer.advance fuel tm to_time uuid4 = Some (evs, tm') ->
  map TimeEvent.id evs = map uuid4 (seq 0 (List.length evs)).
Proof.
  induction fuel as [|fuel IH]; intros tm to_time uuid4 evs tm' H.
  - discriminate.
  - rewrite advance_S in H.
    destruct (negb (TestTimer.expired tm)
              && (to_time >=? TestTimer.next_time tm)).
    + destruct (TestTimer.advance fuel _ to_time _) as [[evs1 tm1]|] eqn:E;
        [|discriminate].
      injection H as <- <-. apply IH in E. simpl. f_equal.
      rewrite E, <- seq_shift, map_map. reflexivity.
    + injection H as <- <-. reflexivity.
Qed.

(** X1. Advancing in two steps is advancing in one: when [advance(t1)]
    has returned and [advance(t2)], [t1 <= t2], is then called on the
    timer it left (drawing the next [uuid4] values), the two event lists
    one after the other are what a single [advance(t2)] returns from the
    timer as it was, and the timer left is the same. *)
Theorem advance_in_steps (tm : TestTimer.t) (t1 t2 : datetime)
    (uuid4 : nat -> GUID) (fuel1 fuel2 : nat)
    (evs1 evs2 : list TimeEvent.t) (tm1 tm2 : TestTimer.t) :
  t1 <= t2 ->
  TestTimer.advance fuel1 tm t1 uuid4 = Some (evs1, tm1) ->
  TestTimer.advance fuel2 tm1 t2
    (fun n => uuid4 (List.length evs1 + n)%nat) = Some (evs2, tm2) ->
  TestTimer.advance (fuel1 + fuel2) tm t2 uuid4
  = Some (evs1 ++ evs2, tm2).
Proof.
  intros Hle. revert tm uuid4 evs1.
  induction fuel1 as [|fuel1 IH]; intros tm uuid4 evs1 H1 H2.
  - discriminate.
  - rewrite advance_S in H1.
    destruct (negb (TestTimer.expired tm)
              && (t1 >=? TestTimer.next_time tm)) eqn:Hd.
    + destruct (TestTimer.advance fuel1 _ t1 _) as [[evs tm']|] eqn:E;
        [|discriminate].
      injection H1 as <- <-.
      apply due_true in Hd. destruct Hd as [He Hn].
      assert (Hd2 : negb (TestTimer.expired tm)
                    && (t2 >=? TestTimer.next_time tm) = true)
        by (apply due_true; split; [exact He | lia]).
      change (S fuel1 + fuel2)%nat with (S (fuel1 + fuel2)).
      rewrite advance_S, Hd2.
      rewrite (IH _ _ _ E H2). reflexivity.
    + injection H1 as <- <-. simpl app.
      eapply advance_more_fuel; [exact H2 | lia].
Qed.

Lemma advance_in_steps_witness :
  let tm := timer_of "r"%string 2 0 (Some 9) in
  exists evs tm2,
    TestTimer.advance 10 tm 7 (fun n => n) = Some (evs, tm2) /\
    map TimeEvent.timestamp evs = [2; 4; 6].
Proof.
  intros tm. do 2 eexists. split.
  - refine (advance_in_steps tm 3 7 (fun n => n) 5 5 _ _ _ _ _ _ _).
    + lia.
    + lazy. reflexivity.
    + lazy. reflexivity.
  - reflexivity.
Defined.

Lemma ticks_nth (d : Z) (k : nat) : forall a x,
  In x (ticks a d k) <-> exists j, (j < k)%nat /\ x = a + Z.of_nat j * d.
Proof.
  induction k as [|k IH]; intros a x; simpl.
  - split; [tauto | intros (j & Hj & _); lia].
  - rewrite IH. split.
    + intros [<-|(j & Hj & ->)].
      * exists O. split; lia.
      * exists (S j). split; lia.
    + intros (j & Hj & ->). destruct j as [|j].
      * left. lia.
      * right. exists j. split; lia.
Qed.

Lemma advance_stamps_within_stop (tm : TestTimer.t) (s : datetime)
    (to_time : datetime) (uuid4 : nat -> GUID) (fuel : nat)
    (evs : list TimeEvent.t) (tm' : TestTimer.t) :
  TestTimer.expired tm = false ->
  TestTimer.stop_time tm = Some s ->
  TestTimer.next_time tm <= s ->
  TestTimer.advance fuel tm to_time uuid4 = Some (evs, tm') ->
  Forall (fun e => TimeEvent.timestamp e <= s) evs.
Proof.
  intros He Hs Hn H.
  pose proof (advance_result _ _ _ _ _ _ H) as (_ & Ht & _).
  pose proof (advance_latch _ _ _ _ _ _ He H) as (_ & Hbefore).
  rewrite <- Forall_map with (f := TimeEvent.timestamp)
                            (P := fun x => x <= s).
  rewrite Ht. apply Forall_forall. intros x Hx.
  apply ticks_nth in Hx. destruct Hx as (j & Hj & ->).
  destruct j as [|j]; [lia|].
  apply Hbefore; [lia | exact Hs].
Qed.

Lemma advance_left_within_stop (tm : TestTimer.t) (s : datetime)
    (to_time : datetime) (uuid4 : nat -> GUID) (fuel : nat)
    (evs : list TimeEvent.t) (tm' : TestTimer.t) :
  TestTimer.expired tm = false ->
  TestTimer.stop_time tm = Some s ->
  TestTimer.next_time tm <= s ->
  TestTimer.advance fuel tm to_time uuid4 = Some (evs, tm') ->
  TestTimer.expired tm' = true \/ TestTimer.next_time tm' <= s.
Proof.
  intros He Hs Hn H.
  pose proof (advance_result _ _ _ _ _ _ H) as (_ & _ & _ & _ & Hn' & _).
  pose proof (advance_latch _ _ _ _ _ _ He H) as (Hlatch & _).
  destruct (TestTimer.expired tm') eqn:Ex; [now left | right].
  destruct (Z_le_gt_dec (TestTimer.next_time tm') s) as [Hle|Hgt];
    [exact Hle|].
  destruct (List.length evs) as [|k] eqn:Ek.
  - simpl in Hn'. lia.
  - assert (Hy : false = true).
    { apply Hlatch. split; [lia|]. exists s. split; [exact Hs | lia]. }
    discriminate.
Qed.

(** X2. A live timer whose [next_time] is not past its [stop_time] (as
    the setters build it and as [advance] leaves it while live) never
    emits an event stamped after [stop_time], and is again left expired
    or with [next_time] not past [stop_time]. *)
Theorem advance_respects_stop_time (tm : TestTimer.t) (s : datetime)
    (to_time : datetime) (uuid4 : nat -> GUID) (fuel : nat)
    (evs : list TimeEvent.t) (tm' : TestTimer.t) :
  TestTimer.expired tm = false ->
  TestTimer.stop_time tm = Some s ->
  TestTimer.next_time tm <= s ->
  TestTimer.advance fuel tm to_time uuid4 = Some (evs, tm') ->
  Forall (fun e => TimeEvent.timestamp e <= s) evs /\
  (TestTimer.expired tm' = true \/ TestTimer.next_time tm' <= s).
Proof.
  intros He Hs Hn H. split.
  - eapply advance_stamps_within_stop; eassumption.
  - eapply advance_left_within_stop; eassumption.
Qed.

Lemma advance_respects_stop_time_witness :
  Forall (fun e => TimeEvent.timestamp e <= 5)
    [TimeEvent.mk "r"%string 0%nat 2; TimeEvent.mk "r"%string 1%nat 4].
Proof.
  exact (proj1 (advance_respects_stop_time
                  (timer_of "r"%string 2 0 (Some 5)) 5 100
                  (fun n => n) 10 _ _ eq_refl eq_refl
                  ltac:(simpl; lia) eq_refl)).
Defined.

(** The number of events lies where the last due instant puts it. *)
Lemma advance_count_bounds (tm : TestTimer.t) (to_time : datetime)
    (uuid4 : nat -> GUID) (fuel : nat) (evs : list TimeEvent.t)
    (tm' : TestTimer.t) :
  TestTimer.expired tm = false ->
  (forall s, TestTimer.stop_time tm = Some s -> TestTimer.next_time tm <= s) ->
  TestTimer.advance fuel tm to_time uuid4 = Some (evs, tm') ->
  let k := List.length evs in
  let n0 := TestTimer.next_time tm in
  let i := TestTimer.interval tm in
  let last := match TestTimer.stop_time tm with
              | Some s => Z.min to_time s
              | None => to_time
              end in
  (to_time < n0 /\ k = O) \/
  (n0 <= to_time /\ (0 < k)%nat /\
   n0 + Z.of_nat (k - 1) * i <= last < n0 + Z.of_nat k * i).
Proof.
  intros He Hs H k n0 i last.
  pose proof (advance_result _ _ _ _ _ _ H)
    as (_ & Ht & _ & Hto & Hn' & Hexit).
  pose proof (advance_latch _ _ _ _ _ _ He H) as (Hlatch & Hbefore).
  fold k n0 i in Ht, Hn', Hlatch, Hbefore.
  assert (Hlast : forall j, (j < k)%nat -> n0 + Z.of_nat j * i <= to_time).
  { intros j Hj.
    rewrite <- Forall_map with (f := TimeEvent.timestamp)
                              (P := fun x => x <= to_time) in Hto.
    rewrite Ht in Hto. rewrite Forall_forall in Hto.
    apply Hto. apply ticks_nth. exists j. split; [exact Hj | reflexivity]. }
  destruct (Z_lt_le_dec to_time n0) as [Hlt|Hge].
  - left. split; [exact Hlt|].
    destruct k as [|k']; [reflexivity|].
    specialize (Hlast O ltac:(lia)). simpl in Hlast. lia.
  - right. split; [exact Hge|].
    assert (Hk : (0 < k)%nat).
    { destruct k as [|k']; [|lia]. exfalso.
      destruct Hexit as [Hx|Hx]; [|simpl in *; lia].
      apply Hlatch in Hx. lia. }
    split; [exact Hk|].
    specialize (Hlast (k - 1)%nat ltac:(lia)).
    subst last. destruct (TestTimer.stop_time tm) as [s|] eqn:Es.
    + specialize (Hs s eq_refl). split.
      * apply Z.min_glb; [exact Hlast|].
        destruct (k - 1)%nat as [|j] eqn:Ej; [simpl; lia|].
        apply Hbefore; [lia | reflexivity].
      * destruct Hexit as [Hx|Hx].
        -- apply Hlatch in Hx. destruct Hx as (_ & s' & E' & Hgt).
           injection E' as <-. lia.
        -- lia.
    + split; [exact Hlast|].
      destruct Hexit as [Hx|Hx]; [|lia].
      apply Hlatch in Hx. destruct Hx as (_ & s' & E' & _). discriminate.
Qed.

Lemma count_unique (n0 i last : Z) (k : nat) :
  0 < i -> (0 < k)%nat ->
  n0 + Z.of_nat (k - 1) * i <= last < n0 + Z.of_nat k * i ->
  k = Z.to_nat ((last - n0) / i + 1).
Proof.
  intros Hi Hk [H1 H2].
  assert (Hdiv : (last - n0) / i = Z.of_nat (k - 1)).
  { symmetry.
    apply (Z.div_unique (last - n0) i (Z.of_nat (k - 1))
             (last - n0 - i * Z.of_nat (k - 1))); [left; nia | lia]. }
  rewrite Hdiv. lia.
Qed.

(** X3. The number of events: a live timer with a positive interval whose
    [next_time] is not past its [stop_time], and whose moments stay
    within the datetimes up to [to_time], returns from [advance(to_time)]
    (with enough fuel) exactly [due_count] events, that is none when
    [to_time < next_time] and otherwise
    [(min(to_time, stop_time) - next_time) / interval + 1]. *)
Theorem advance_event_count (tm : TestTimer.t) (to_time : datetime)
    (uuid4 : nat -> GUID) (fuel : nat) :
  TestTimer.expired tm = false ->
  0 < TestTimer.interval tm ->
  (forall s, TestTimer.stop_time tm = Some s -> TestTimer.next_time tm <= s) ->
  within_range tm to_time ->
  (enough_fuel tm to_time <= fuel)%nat ->
  exists evs tm',
    TestTimer.advance fuel tm to_time uuid4 = Some (evs, tm') /\
    List.length evs = due_count tm to_time.
Proof.
  intros He Hi Hs Hr Hf.
  destruct (advance_total tm to_time uuid4 fuel Hi Hr Hf)
    as (evs & tm' & H).
  exists evs, tm'. split; [exact H|]. unfold due_count.
  destruct (advance_count_bounds _ _ _ _ _ _ He Hs H)
    as [[Hlt ->]|(Hge & Hk & Hb)].
  - apply Z.ltb_lt in Hlt. now rewrite Hlt.
  - apply Z.ltb_ge in Hge. rewrite Hge.
    apply count_unique; assumption.
Qed.

Lemma advance_event_count_witness :
  exists evs tm',
    TestTimer.advance 200 (timer_of "r"%string 2 0 (Some 5)) 100
      (fun n => n) = Some (evs, tm') /\
    List.length evs = due_count (timer_of "r"%string 2 0 (Some 5)) 100.
Proof.
  refine (advance_event_count (timer_of "r"%string 2 0 (Some 5)) 100
            (fun n => n) 200 eq_refl _ _ _ _).
  - simpl. lia.
  - simpl. intros s E. injection E as <-. lia.
  - apply within_range_below; simpl;
      unfold datetime_min, datetime_max; lia.
  - vm_compute. lia.
Defined.

(** ** Further properties of the registry *)

Lemma pop_absent {V} (k : Label) (d : list (Label * V)) :
  ~ In k (PyDict.keys d) -> PyDict.pop String.eqb k d = d.
Proof.
  induction d as [|[k1 v1] d IH]; simpl; intros H; [reflexivity|].
  destruct (String.eqb_spec k k1) as [->|Hne]; [tauto|].
  rewrite IH; [reflexivity | tauto].
Qed.

Lemma pop_last {V} (k : Label) (v : V) (d : list (Label * V)) :
  ~ In k (PyDict.keys d) -> PyDict.pop String.eqb k (d ++ [(k, v)]) = d.
Proof.
  intros H. rewrite (pop_middle String.eqb label_eqb_eq) by exact H.
  apply app_nil_r.
Qed.

(** The cache is determined by the registry. *)
Lemma timing_unique (c1 c2 : TestClock.t) :
  timing_ok c1 -> timing_ok c2 ->
  TestClock._timers c1 = TestClock._timers c2 ->
  TestClock.has_timers c1 = TestClock.has_timers c2 /\
  TestClock.next_event_time c1 = TestClock.next_event_time c2.
Proof.
  unfold timing_ok, next_times. intros H1 H2 E. rewrite E in H1.
  destruct (TestClock._timers c2) as [|kv d].
  - destruct H1 as [-> ->], H2 as [-> ->]. tauto.
  - destruct H1 as (-> & m1 & -> & I1 & A1), H2 as (-> & m2 & -> & I2 & A2).
    split; [reflexivity|]. f_equal.
    rewrite Forall_forall in A1, A2.
    specialize (A1 _ I2). specialize (A2 _ I1). lia.
Qed.

Lemma clock_ext (c c' : TestClock.t) :
  TestClock._timers c = TestClock._timers c' ->
  TestClock._handlers c = TestClock._handlers c' ->
  TestClock._default_handler c = TestClock._default_handler c' ->
  TestClock.next_event_time c = TestClock.next_event_time c' ->
  TestClock.has_timers c = TestClock.has_timers c' ->
  TestClock.is_default_handler_registered c
    = TestClock.is_default_handler_registered c' ->
  TestClock._time c = TestClock._time c' ->
  c = c'.
Proof.
  destruct c, c'; simpl; intros; subst; reflexivity.
Qed.

(** X4. Cancelling a label that is not registered returns normally and
    leaves a well-formed clock exactly as it is. *)
Theorem cancel_unknown_label_changes_nothing (c : TestClock.t)
    (label : Label) :
  wf c ->
  ~ In label (TestClock.get_timer_labels c) ->
  TestClock.cancel_timer label c = Ok tt c.
Proof.
  intros Hwf Hn. unfold TestClock.get_timer_labels in Hn.
  destruct (cancel_timer_ok label c) as (b & n & E & Hto).
  rewrite E. f_equal.
  assert (Hn' : ~ In label (PyDict.keys (TestClock._handlers c)))
    by (rewrite <- (wf_keys c Hwf); exact Hn).
  destruct (timing_unique _ c Hto (wf_timing c Hwf)) as [Hb Hnx].
  { simpl. now apply pop_absent. }
  apply clock_ext; simpl; try reflexivity.
  - now apply pop_absent.
  - now apply pop_absent.
  - exact Hnx.
  - exact Hb.
Qed.

Lemma cancel_unknown_label_changes_nothing_witness :
  let c := TestClock.mk
             [("r"%string, timer_of "r"%string 2 0 None)]
             [("r"%string, 7%nat)] None (Some 2) true false 0 in
  TestClock.cancel_timer "x"%string c = Ok tt c.
Proof.
  intros c. apply cancel_unknown_label_changes_nothing.
  - exact wf_one_timer.
  - simpl. intros [H|[]]. discriminate.
Defined.

Lemma add_then_cancel (timer : TestTimer.t) (h : Handler)
    (c c1 : TestClock.t) :
  wf c ->
  ~ In (TestTimer.label timer) (PyDict.keys (TestClock._timers c)) ->
  TestClock._add_timer timer h c = Ok tt c1 ->
  TestClock.cancel_timer (TestTimer.label timer) c1 = Ok tt c.
Proof.
  intros Hwf Hn H.
  destruct (add_timer_ok timer h c) as (b & n & E & _).
  rewrite E in H. injection H as <-.
  match goal with
  | |- TestClock.cancel_timer ?l ?c1 = _ =>
      destruct (cancel_timer_ok l c1) as (b' & n' & E' & Hto)
  end.
  rewrite E'. f_equal.
  assert (Hn' : ~ In (TestTimer.label timer)
                  (PyDict.keys (TestClock._handlers c)))
    by (rewrite <- (wf_keys c Hwf); exact Hn).
  assert (Et : PyDict.pop String.eqb (TestTimer.label timer)
                 (PyDict.set String.eqb (TestTimer.label timer) timer
                    (TestClock._timers c)) = TestClock._timers c).
  { rewrite (keys_set_fresh String.eqb label_eqb_eq) by exact Hn.
    now apply pop_last. }
  assert (Eh : PyDict.pop String.eqb (TestTimer.label timer)
                 (PyDict.set String.eqb (TestTimer.label timer) h
                    (TestClock._handlers c)) = TestClock._handlers c).
  { rewrite (keys_set_fresh String.eqb label_eqb_eq) by exact Hn'.
    now apply pop_last. }
  destruct (timing_unique _ c Hto (wf_timing c Hwf)) as [Hb Hnx];
    [exact Et|].
  apply clock_ext; simpl; try reflexivity; assumption.
Qed.

(** X5. Setting a timer and then cancelling it restores the clock: after
    a successful [set_time_alert] or [set_timer] on a well-formed clock,
    [cancel_timer] of the same label leaves the clock exactly as it was
    before the setter. *)
Theorem set_then_cancel_restores (c : TestClock.t) :
  wf c ->
  (forall l a h c1,
     TestClock.set_time_alert l a h c = Ok tt c1 ->
     TestClock.cancel_timer l c1 = Ok tt c) /\
  (forall l i st sp h c1,
     TestClock.set_timer l i st sp h c = Ok tt c1 ->
     TestClock.cancel_timer l c1 = Ok tt c).
Proof.
  intros Hwf. split.
  - intros l a h c1 H.
    destruct (set_time_alert_Ok _ _ _ _ _ H) as (Hn & _ & h' & _ & E).
    exact (add_then_cancel (alert_timer c l a) h' c c1 Hwf Hn E).
  - intros l i st sp h c1 H.
    destruct (set_timer_Ok _ _ _ _ _ _ _ H) as (Hn & _ & h' & _ & E).
    exact (add_then_cancel
             (timer_of l i
                match st with
                | Some s => s
                | None => TestClock.time_now c
                end sp) h' c c1 Hwf Hn E).
Qed.

Lemma set_then_cancel_restores_witness :
  let c := TestClock.mk
             [("r"%string, timer_of "r"%string 2 0 None)]
             [("r"%string, 7%nat)] None (Some 2) true false 0 in
  exists c1,
    TestClock.set_time_alert "a"%string 1 (PyCallable 3%nat) c = Ok tt c1 /\
    TestClock.next_event_time c1 = Some 1 /\
    TestClock.cancel_timer "a"%string c1 = Ok tt c.
Proof.
  intros c. eexists. split; [lazy; reflexivity|].
  split; [reflexivity|].
  apply (proj1 (set_then_cancel_restores c wf_one_timer)
           "a"%string 1 (PyCallable 3%nat)).
  lazy. reflexivity.
Defined.

Lemma cancel_each_frame (labels : list Label) : forall c c',
  for_each labels TestClock.cancel_timer c = Ok tt c' ->
  TestClock._default_handler c' = TestClock._default_handler c /\
  TestClock.is_default_handler_registered c'
    = TestClock.is_default_handler_registered c /\
  TestClock._time c' = TestClock._time c.
Proof.
  induction labels as [|l labels IH]; intros c c' H; simpl in H.
  - unfold ret in H. injection H as <-. tauto.
  - unfold bind in H.
    destruct (cancel_timer_ok l c) as (b & n & E & _). rewrite E in H.
    apply IH in H. simpl in H. exact H.
Qed.

Lemma keys_nil {K V} (d : list (K * V)) : PyDict.keys d = [] -> d = [].
Proof. destruct d; [reflexivity | discriminate]. Qed.

(** X6. [cancel_all_timers] on a well-formed clock returns and leaves
    the registry empty: no timers, no handlers, [has_timers] false and
    [next_event_time] [None]; the clock's time and default handler are
    as before. *)
Theorem cancel_all_timers_empties_registry (c : TestClock.t) :
  wf c ->
  TestClock.cancel_all_timers c
  = Ok tt (TestClock.mk [] [] (TestClock._default_handler c) None false
             (TestClock.is_default_handler_registered c)
             (TestClock._time c)).
Proof.
  intros Hwf. unfold TestClock.cancel_all_timers.
  unfold bind, get_state.
  destruct (wf_cancel_each (TestClock.get_timer_labels c) c Hwf)
    as (c' & E & Hwf' & Hk & _).
  rewrite E. f_equal.
  destruct (cancel_each_frame _ _ _ E) as (Hd & Hf & Htm).
  assert (Et : TestClock._timers c' = []).
  { apply keys_nil.
    destruct (PyDict.keys (TestClock._timers c')) as [|k ks] eqn:Ek;
      [reflexivity|].
    destruct (Hk k) as [Hin Hn]; [rewrite ?Ek; now left|].
    contradiction. }
  assert (Eh : TestClock._handlers c' = []).
  { apply keys_nil. rewrite <- (wf_keys c' Hwf'), Et. reflexivity. }
  pose proof (wf_timing c' Hwf') as Ht. unfold timing_ok in Ht.
  rewrite Et in Ht. destruct Ht as [Hb Hn].
  apply clock_ext; simpl; assumption.
Qed.

Lemma cancel_all_timers_empties_registry_witness :
  TestClock.cancel_all_timers
    (TestClock.mk
       [("r"%string, timer_of "r"%string 2 0 None)]
       [("r"%string, 7%nat)] None (Some 2) true false 0)
  = Ok tt (TestClock.init 0).
Proof.
  exact (cancel_all_timers_empties_registry _ wf_one_timer).
Defined.

Lemma get_set_last (k : Label) {V} (v : V) (d : list (Label * V)) :
  ~ In k (PyDict.keys d) ->
  PyDict.get String.eqb k (d ++ [(k, v)]) = Some v.
Proof.
  intros H. etransitivity; [|apply (get_set_same k v d H)].
  f_equal. symmetry.
  apply (keys_set_fresh String.eqb label_eqb_eq). exact H.
Qed.

(** What [_add_timer] leaves when the label is new. *)
Lemma add_timer_post (timer : TestTimer.t) (h : Handler)
    (c c1 : TestClock.t) :
  wf c ->
  ~ In (TestTimer.label timer) (PyDict.keys (TestClock._timers c)) ->
  TestClock._add_timer timer h c = Ok tt c1 ->
  TestClock.get_timer_labels c1
    = TestClock.get_timer_labels c ++ [TestTimer.label timer] /\
  PyDict.get String.eqb (TestTimer.label timer) (TestClock._timers c1)
    = Some timer /\
  PyDict.get String.eqb (TestTimer.label timer) (TestClock._handlers c1)
    = Some h /\
  TestClock.has_timers c1 = true /\
  TestClock.next_event_time c1
    = Some (match TestClock.next_event_time c with
            | Some m => Z.min m (TestTimer.next_time timer)
            | None => TestTimer.next_time timer
            end) /\
  TestClock._time c1 = TestClock._time c.
Proof.
  intros Hwf Hn H.
  destruct (wf_add_timer timer h c Hwf Hn) as (c1' & E & Hwf1 & Et & Etm).
  rewrite E in H. injection H as <-.
  assert (Hn' : ~ In (TestTimer.label timer)
                  (PyDict.keys (TestClock._handlers c)))
    by (rewrite <- (wf_keys c Hwf); exact Hn).
  assert (Eh : TestClock._handlers c1'
               = TestClock._handlers c ++ [(TestTimer.label timer, h)]).
  { destruct (add_timer_ok timer h c) as (b & n & E' & _).
    rewrite E' in E. injection E as <-. simpl.
    now apply (keys_set_fresh String.eqb label_eqb_eq). }
  split.
  { unfold TestClock.get_timer_labels. rewrite Et, keys_app. reflexivity. }
  split; [rewrite Et; now apply get_set_last|].
  split; [rewrite Eh; now apply get_set_last|].
  pose proof (wf_timing c1' Hwf1) as Ht1.
  pose proof (wf_timing c Hwf) as Ht0.
  unfold timing_ok, next_times in Ht1, Ht0. rewrite Et in Ht1.
  unfold PyDict.values in Ht1. rewrite !map_app in Ht1. simpl in Ht1.
  destruct (TestClock._timers c) as [|kv d].
  - destruct Ht0 as [_ ->]. simpl in Ht1.
    destruct Ht1 as (Hb & m & Em & [Hm|[]] & _).
    split; [exact Hb|]. split; [|exact Etm]. now rewrite Em, Hm.
  - destruct Ht0 as (_ & m0 & -> & I0 & A0).
    destruct ((kv :: d) ++ [(TestTimer.label timer, timer)]) eqn:Ex;
      [destruct d; discriminate|].
    destruct Ht1 as (Hb & m & Em & Im & Am).
    split; [exact Hb|]. split; [|exact Etm]. rewrite Em. f_equal.
    rewrite Forall_forall in A0, Am.
    assert (H1 : m <= m0).
    { apply Am. apply in_or_app. left. exact I0. }
    assert (H2 : m <= TestTimer.next_time timer).
    { apply Am. apply in_or_app. right. now left. }
    apply in_app_or in Im. destruct Im as [Im|[Im|[]]].
    + specialize (A0 _ Im). lia.
    + lia.
Qed.

(** X7. After a successful setter call on a well-formed clock the new
    label is the last of [get_timer_labels], its handler is the one
    given or else the default handler, [has_timers] holds, and
    [next_event_time] is the earlier of its previous value and the new
    timer's first event ([alert_time], or [start_time + interval] with
    [start_time] defaulting to the clock's time). *)
Theorem setters_register_and_refresh (c : TestClock.t) :
  wf c ->
  (forall l a h c1,
     TestClock.set_time_alert l a h c = Ok tt c1 ->
     TestClock.get_timer_labels c1 = TestClock.get_timer_labels c ++ [l] /\
     (exists h', TestClock.or_default c h = PyCallable h' /\
        PyDict.get String.eqb l (TestClock._handlers c1) = Some h') /\
     TestClock.has_timers c1 = true /\
     TestClock.next_event_time c1
       = Some (match TestClock.next_event_time c with
               | Some m => Z.min m a
               | None => a
               end)) /\
  (forall l i st sp h c1,
     TestClock.set_timer l i st sp h c = Ok tt c1 ->
     let start := match st with
                  | Some s => s
                  | None => TestClock.time_now c
                  end in
     TestClock.get_timer_labels c1 = TestClock.get_timer_labels c ++ [l] /\
     (exists h', TestClock.or_default c h = PyCallable h' /\
        PyDict.get String.eqb l (TestClock._handlers c1) = Some h') /\
     TestClock.has_timers c1 = true /\
     TestClock.next_event_time c1
       = Some (match TestClock.next_event_time c with
               | Some m => Z.min m (start + i)
               | None => start + i
               end)).
Proof.
  intros Hwf. split.
  - intros l a h c1 H.
    destruct (set_time_alert_Ok _ _ _ _ _ H) as (Hn & _ & h' & Ho & E).
    destruct (add_timer_post (alert_timer c l a) h' c c1 Hwf Hn E)
      as (P1 & _ & P3 & P4 & P5 & _).
    simpl in *.
    replace (TestClock.time_now c + (a - TestClock.time_now c)) with a
      in P5 by lia.
    split; [exact P1|]. split; [eauto|]. split; [exact P4 | exact P5].
  - intros l i st sp h c1 H start.
    destruct (set_timer_Ok _ _ _ _ _ _ _ H) as (Hn & _ & h' & Ho & E).
    destruct (add_timer_post
                (timer_of l i start sp) h' c c1
                Hwf Hn E)
      as (P1 & _ & P3 & P4 & P5 & _).
    simpl in *.
    split; [exact P1|]. split; [eauto|]. split; [exact P4 | exact P5].
Qed.

Lemma setters_register_and_refresh_witness :
  let c := TestClock.mk
             [("r"%string, timer_of "r"%string 2 0 None)]
             [("r"%string, 7%nat)] None (Some 2) true false 0 in
  exists c1,
    TestClock.set_time_alert "a"%string 1 (PyCallable 3%nat) c = Ok tt c1 /\
    TestClock.get_timer_labels c1 = ["r"%string; "a"%string] /\
    TestClock.next_event_time c1 = Some (Z.min 2 1).
Proof.
  intros c. eexists. split; [lazy; reflexivity|].
  destruct (proj1 (setters_register_and_refresh c wf_one_timer)
              "a"%string 1 (PyCallable 3%nat) _ eq_refl)
    as (H1 & _ & _ & H4).
  split; [exact H1 | exact H4].
Defined.

(** X8. The default handler.  [register_default_handler] of something
    that is not callable raises and leaves the clock as it is.  While no
    default handler is registered, a setter called without a handler
    raises and leaves the clock as it is; a handler that is given but not
    callable is rejected even when a default is registered.  After
    [register_default_handler(h)], a setter called without a handler
    files [h] under the new label, and a callable handler that is given
    takes precedence over the default. *)
Theorem default_handler_is_the_fallback (c : TestClock.t) :
  (forall o, is_callable o = false ->
     TestClock.register_default_handler o c = Raise ConditionFailed c) /\
  (TestClock._default_handler c = None ->
   forall l a i st sp,
     TestClock.set_time_alert l a PyNone c = Raise ConditionFailed c /\
     TestClock.set_timer l i st sp PyNone c = Raise ConditionFailed c) /\
  (forall l a i st sp,
     TestClock.set_time_alert l a PyOther c = Raise ConditionFailed c /\
     TestClock.set_timer l i st sp PyOther c = Raise ConditionFailed c) /\
  (forall h, exists c0,
     TestClock.register_default_handler (PyCallable h) c = Ok tt c0 /\
     TestClock._timers c0 = TestClock._timers c /\
     TestClock._handlers c0 = TestClock._handlers c /\
     forall l a i st sp c1,
       (TestClock.set_time_alert l a PyNone c0 = Ok tt c1 \/
        TestClock.set_timer l i st sp PyNone c0 = Ok tt c1 ->
        PyDict.get String.eqb l (TestClock._handlers c1) = Some h) /\
       (forall h2,
          TestClock.set_time_alert l a (PyCallable h2) c0 = Ok tt c1 \/
          TestClock.set_timer l i st sp (PyCallable h2) c0 = Ok tt c1 ->
          PyDict.get String.eqb l (TestClock._handlers c1) = Some h2)).
Proof.
  assert (Hrej : forall c' o,
            is_callable (TestClock.or_default c' o) = false ->
            forall l a i st sp,
              TestClock.set_time_alert l a o c' = Raise ConditionFailed c' /\
              TestClock.set_timer l i st sp o c' = Raise ConditionFailed c').
  { intros c' o Ho l a i st sp. split.
    - pose proof (set_time_alert_cases l a o c') as Hc.
      unfold alert_accepted in Hc. rewrite Ho in Hc.
      rewrite andb_false_r in Hc. simpl in Hc. exact Hc.
    - apply set_timer_rejected_early. right. right. exact Ho. }
  assert (Hfile : forall c' o h' l (timer : TestTimer.t) c1,
            TestTimer.label timer = l ->
            ~ In l (PyDict.keys (TestClock._handlers c')) ->
            TestClock._add_timer timer h' c' = Ok tt c1 ->
            TestClock.or_default c' o = PyCallable h' ->
            PyDict.get String.eqb l (TestClock._handlers c1) = Some h').
  { intros c' o h' l timer c1 El Hn E _.
    destruct (add_timer_ok timer h' c') as (b & n & E' & _).
    rewrite E' in E. injection E as <-. simpl. rewrite El.
    now apply get_set_same. }
  assert (Hfresh_a : forall c' l a o,
            alert_accepted c' l a o = true ->
            ~ In l (PyDict.keys (TestClock._handlers c'))).
  { intros c' l a o. unfold alert_accepted.
    rewrite !andb_true_iff, !negb_true_iff. intros (((_ & H) & _) & _).
    now apply (contains_false String.eqb label_eqb_eq). }
  assert (Hfresh_t : forall c' l i st sp o,
            timer_accepted c' l i st sp o = true ->
            ~ In l (PyDict.keys (TestClock._handlers c'))).
  { intros c' l i st sp o. unfold timer_accepted.
    rewrite !andb_true_iff, !negb_true_iff.
    intros ((((_ & H) & _) & _) & _).
    now apply (contains_false String.eqb label_eqb_eq). }
  assert (Hget : forall c' o h',
            TestClock.or_default c' o = PyCallable h' ->
            forall l a i st sp c1,
              TestClock.set_time_alert l a o c' = Ok tt c1 \/
              TestClock.set_timer l i st sp o c' = Ok tt c1 ->
              PyDict.get String.eqb l (TestClock._handlers c1) = Some h').
  { intros c' o h' Ho l a i st sp c1 [H|H].
    - pose proof (set_time_alert_cases l a o c') as Hc.
      destruct (alert_accepted c' l a o) eqn:Ea; [|congruence].
      destruct Hc as (h2 & Ho2 & E). rewrite E in H.
      destruct (in_range a); [|discriminate].
      rewrite Ho in Ho2. injection Ho2 as <-.
      eapply Hfile; [| |exact H|exact Ho]; [reflexivity|].
      eapply Hfresh_a; exact Ea.
    - pose proof (set_timer_cases l i st sp o c') as Hc. simpl in Hc.
      destruct (timer_accepted c' l i st sp o) eqn:Ea;
        [|destruct Hc as [Hc|[_ Hc]]; congruence].
      destruct Hc as (_ & h2 & Ho2 & E). rewrite E in H.
      destruct (in_range _); [|discriminate].
      rewrite Ho in Ho2. injection Ho2 as <-.
      eapply Hfile; [| |exact H|exact Ho]; [reflexivity|].
      eapply Hfresh_t; exact Ea. }
  split; [|split; [|split]].
  - intros o Ho. unfold TestClock.register_default_handler,
      Condition.callable. mred.
    destruct o; [reflexivity | discriminate | reflexivity].
  - intros Hd l a i st sp. apply Hrej. simpl. now rewrite Hd.
  - intros l a i st sp. apply Hrej. reflexivity.
  - intros h. eexists. split; [reflexivity|].
    split; [reflexivity|]. split; [reflexivity|].
    intros l a i st sp c1. split.
    + apply Hget. reflexivity.
    + intros h2. apply Hget. reflexivity.
Qed.

Lemma default_handler_is_the_fallback_witness :
  TestClock.set_time_alert "a"%string 1 PyNone (TestClock.init 0)
  = Raise ConditionFailed (TestClock.init 0) /\
  TestClock.register_default_handler PyOther (TestClock.init 0)
  = Raise ConditionFailed (TestClock.init 0) /\
  PyDict.get String.eqb "a"%string
    [("a"%string, 9%nat)] = Some 9%nat.
Proof.
  pose proof (default_handler_is_the_fallback (TestClock.init 0))
    as (H1 & H2 & _ & H4).
  split; [exact (proj1 (H2 eq_refl "a"%string 1 0 None None))|].
  split; [exact (H1 PyOther eq_refl)|].
  destruct (H4 9%nat) as (c0 & E0 & _ & _ & H).
  injection E0 as <-.
  exact (proj1 (H "a"%string 1 0 None None _) (or_introl eq_refl)).
Defined.

(** ** One turn of the loop of [advance_time] *)

Lemma get_pop_other {V} (k k' : Label) (d : list (Label * V)) :
  k' <> k ->
  PyDict.get String.eqb k' (PyDict.pop String.eqb k d)
  = PyDict.get String.eqb k' d.
Proof.
  intros Hne. induction d as [|[k1 v1] d IH]; simpl; [reflexivity|].
  destruct (String.eqb_spec k k1) as [->|Hk].
  - destruct (String.eqb_spec k' k1); [contradiction | reflexivity].
  - simpl. now rewrite IH.
Qed.

Lemma get_of_In {V} (k : Label) (v : V) (d : list (Label * V)) :
  NoDup (PyDict.keys d) -> In (k, v) d ->
  PyDict.get String.eqb k d = Some v.
Proof.
  induction d as [|[k1 v1] d IH]; simpl; intros Hnd Hin; [contradiction|].
  destruct Hin as [H|H].
  - injection H as -> ->. now rewrite String.eqb_refl.
  - inversion Hnd as [|? ? Hn Hd]; subst.
    destruct (String.eqb_spec k k1) as [->|Hne].
    + exfalso. apply Hn. apply (in_map fst _ _ H).
    + now apply IH.
Qed.

Lemma iterate_step (kept rest : list (Label * TestTimer.t)) (k : Label)
    (tm tm' : TestTimer.t) (evs : list TimeEvent.t) (fuel : nat)
    (to_time : datetime) (uuid4 : nat -> GUID) (c : TestClock.t) :
  registry_split kept ((k, tm) :: rest) c ->
  TestTimer.advance fuel tm to_time uuid4 = Some (evs, tm') ->
  exists h c1 c2,
    TestClock._handlers c1 = TestClock._handlers c /\
    PyDict.get String.eqb k (TestClock._handlers c) = Some h /\
    registry_split
      (if TestTimer.expired tm' then kept else kept ++ [(k, tm')]) rest c2 /\
    TestClock._handlers c2
      = (if TestTimer.expired tm'
         then PyDict.pop String.eqb k (TestClock._handlers c)
         else TestClock._handlers c) /\
    forall events events1,
      TestClock.collect k evs events c1 = Ok events1 c1 ->
      TestClock.iterate_timers fuel to_time uuid4 ((k, tm) :: rest) events c
      = TestClock.iterate_timers fuel to_time
          (fun n => uuid4 (List.length evs + n)%nat) rest events1 c2.
Proof.
  intros (Ht & Hnd & Hk & Hl) Ea.
  pose proof (advance_result _ _ _ _ _ _ Ea) as ((Fl & _) & _).
  destruct (NoDup_keys_middle _ _ _ _ Hnd) as (Hk1 & Hk2 & Hnd').
  assert (Hlab : TestTimer.label tm = k).
  { rewrite Forall_forall in Hl. apply (Hl (k, tm)).
    apply in_or_app. right. now left. }
  set (c1 := TestClock.with_timers c
               (PyDict.mutate String.eqb k tm' (TestClock._timers c))).
  assert (Ht1 : TestClock._timers c1 = kept ++ (k, tm') :: rest).
  { unfold c1. simpl. rewrite Ht.
    apply (mutate_middle String.eqb label_eqb_eq); exact Hk1. }
  assert (Hk1' : keys_agree c1).
  { unfold keys_agree in *. rewrite Ht1. unfold c1 at 1. simpl.
    rewrite <- Hk, Ht, !keys_app. reflexivity. }
  destruct (get_Some_of_key k (TestClock._handlers c)) as [h Hh].
  { rewrite <- Hk, Ht, keys_app. apply in_or_app. right. now left. }
  assert (Hl1 : Forall (fun kv => TestTimer.label (snd kv) = fst kv)
                  (kept ++ (k, tm') :: rest)).
  { rewrite Forall_app in *. destruct Hl as [Hl1 Hl2].
    split; [exact Hl1|]. inversion Hl2; subst.
    constructor; [simpl; congruence | assumption]. }
  destruct (TestTimer.expired tm') eqn:Ex.
  - destruct (remove_timer_ok tm' c1) as (b & n & Er & _).
    rewrite Fl, Hlab in Er.
    set (c2 := TestClock.with_timing (unregistered c1 k) b n) in *.
    exists h, c1, c2. split; [reflexivity|]. split; [exact Hh|].
    split; [|split; [reflexivity|]].
    + split; [|split; [exact Hnd'|split]].
      * change (TestClock._timers c2)
          with (PyDict.pop String.eqb k (TestClock._timers c1)).
        rewrite Ht1.
        apply (pop_middle String.eqb label_eqb_eq); exact Hk1.
      * unfold keys_agree.
        change (PyDict.keys (PyDict.pop String.eqb k (TestClock._timers c1))
                = PyDict.keys
                    (PyDict.pop String.eqb k (TestClock._handlers c1))).
        apply (keys_pop String.eqb). exact Hk1'.
      * rewrite Forall_app in *. destruct Hl1 as [Hl1 Hl2].
        split; [exact Hl1 | now inversion Hl2].
    + intros events events1 Ec.
      cbn [TestClock.iterate_timers]. rewrite Ea.
      unfold bind at 1. unfold modify at 1. fold c1.
      unfold bind at 1. rewrite Fl, Hlab. rewrite Ec.
      unfold bind at 1. rewrite Ex. rewrite Er. reflexivity.
  - exists h, c1, c1. split; [reflexivity|]. split; [exact Hh|].
    split; [|split; [reflexivity|]].
    + split; [|split; [|split]].
      * rewrite Ht1, <- app_assoc. reflexivity.
      * rewrite <- app_assoc. simpl. rewrite keys_app in *. exact Hnd.
      * exact Hk1'.
      * rewrite <- app_assoc. exact Hl1.
    + intros events events1 Ec.
      cbn [TestClock.iterate_timers]. rewrite Ea.
      unfold bind at 1. unfold modify at 1. fold c1.
      unfold bind at 1. rewrite Fl, Hlab. rewrite Ec.
      unfold bind at 1. rewrite Ex. reflexivity.
Qed.

(** What becomes of the timer just visited, once the loop is over. *)
Lemma head_fate (kept rest : list (Label * TestTimer.t)) (k : Label)
    (tm' : TestTimer.t) (fuel : nat) (to_time : datetime)
    (uuid4 : nat -> GUID) (events events' : list (TimeEvent.t * Handler))
    (c2 c' : TestClock.t) :
  ~ In k (PyDict.keys kept) -> ~ In k (PyDict.keys rest) ->
  registry_split
    (if TestTimer.expired tm' then kept else kept ++ [(k, tm')]) rest c2 ->
  TestClock.iterate_timers fuel to_time uuid4 rest events c2
  = Ok events' c' ->
  if TestTimer.expired tm'
  then ~ In k (PyDict.keys (TestClock._timers c'))
  else In (k, tm') (TestClock._timers c').
Proof.
  intros Hk1 Hk2 (Ht & Hnd & Hk & Hl) H.
  pose proof (iterate_timers_inv rest _ fuel to_time uuid4 events c2
                Ht Hnd Hk Hl) as Hinv.
  rewrite H in Hinv. destruct Hinv as (surv & I1 & _ & _ & _ & _ & I6 & _).
  rewrite I1. destruct (TestTimer.expired tm').
  - rewrite keys_app, in_app_iff. intros [Hin|Hin]; [tauto|].
    apply Hk2. now apply I6.
  - apply in_or_app. left. apply in_or_app. right. now left.
Qed.

(** Every timer of the snapshot is advanced once, and every event
    returned comes from one of these advances. *)
Lemma iterate_timers_fate (rest : list (Label * TestTimer.t)) :
  forall kept fuel to_time uuid4 events c events' c',
    registry_split kept rest c ->
    TestClock.iterate_timers fuel to_time uuid4 rest events c
    = Ok events' c' ->
    (forall kv, In kv rest ->
       exists evs tm', advanced_once fuel to_time c' kv evs tm') /\
    (forall e, In e (PyDict.keys events') ->
       In e (PyDict.keys events) \/
       exists kv evs tm',
         In kv rest /\ advanced_once fuel to_time c' kv evs tm' /\
         In e evs).
Proof.
  induction rest as [|[k tm] rest IH];
    intros kept fuel to_time uuid4 events c events' c' Hsplit H.
  - simpl in H. unfold ret in H. injection H as <- <-.
    split; [intros kv [] | tauto].
  - destruct (TestTimer.advance fuel tm to_time uuid4)
      as [[evs tm']|] eqn:Ea;
      [|simpl in H; rewrite Ea in H; discriminate].
    destruct (iterate_step _ _ _ _ _ _ _ _ _ _ Hsplit Ea)
      as (h & c1 & c2 & Eh1 & Hh & Hsplit2 & _ & Hstep).
    destruct (collect_found k h c1) with (evs := evs) (events := events)
      as (events1 & Ec & Hin1); [rewrite Eh1; exact Hh|].
    rewrite (Hstep _ _ Ec) in H.
    destruct Hsplit as (_ & Hnd & _ & _).
    destruct (NoDup_keys_middle _ _ _ _ Hnd) as (Hk1 & Hk2 & _).
    assert (Hhead : advanced_once fuel to_time c' (k, tm) evs tm').
    { split; [exists uuid4; exact Ea|].
      eapply head_fate; [exact Hk1 | exact Hk2 | exact Hsplit2 | exact H]. }
    destruct (IH _ _ _ _ _ _ _ _ Hsplit2 H) as (IH1 & IH2).
    split.
    + intros kv [<-|Hin]; [eauto | now apply IH1].
    + intros e He. apply IH2 in He.
      destruct He as [He|(kv & evs0 & tm0 & Hkv & Ha & He)].
      * apply Hin1 in He. destruct He as [He|He]; [now left|].
        right. exists (k, tm), evs, tm'. split; [now left | tauto].
      * right. exists kv, evs0, tm0. split; [now right | tauto].
Qed.

(** ** Events with distinct identifiers *)

Lemma set_new {K V} (keq : K -> K -> bool) (k : K) (v : V)
    (d : list (K * V)) :
  (forall p, In p d -> keq k (fst p) = false) ->
  PyDict.set keq k v d = d ++ [(k, v)].
Proof.
  induction d as [|[k1 v1] d IH]; simpl; intros H; [reflexivity|].
  pose proof (H (k1, v1) (or_introl eq_refl)) as E. simpl in E.
  rewrite E.
  rewrite IH; [reflexivity|]. intros p Hp. apply H. now right.
Qed.

Lemma collect_fresh (label : Label) (h : Handler) (c : TestClock.t) :
  PyDict.get String.eqb label (TestClock._handlers c) = Some h ->
  forall evs events,
    NoDup (map TimeEvent.id evs) ->
    (forall e p, In e evs -> In p events ->
       TimeEvent.id (fst p) <> TimeEvent.id e) ->
    TestClock.collect label evs events c
    = Ok (events ++ map (fun e => (e, h)) evs) c.
Proof.
  intros Hh. induction evs as [|ev evs IH]; intros events Hnd Hfresh; simpl.
  - unfold ret. now rewrite app_nil_r.
  - unfold TestClock.handler_of. mred. rewrite Hh. mred.
    inversion Hnd as [|? ? Hn Hnd']; subst.
    rewrite set_new.
    + rewrite IH; [now rewrite <- app_assoc | exact Hnd' |].
      intros e p He Hp. apply in_app_or in Hp. destruct Hp as [Hp|[<-|[]]].
      * apply Hfresh; [now right | exact Hp].
      * simpl. intros Heq. apply Hn. rewrite Heq.
        now apply in_map.
    + intros p Hp. unfold TimeEvent.eqb. apply Nat.eqb_neq.
      intros Heq. eapply Hfresh; [now left | exact Hp | now symmetry].
Qed.

Lemma advance_ids_range (fuel : nat) (tm tm' : TestTimer.t)
    (to_time : datetime) (uuid4 : nat -> GUID) (evs : list TimeEvent.t) :
  TestTimer.advance fuel tm to_time uuid4 = Some (evs, tm') ->
  forall e, In e evs ->
    exists j, (j < List.length evs)%nat /\ TimeEvent.id e = uuid4 j.
Proof.
  intros H e He. apply advance_ids in H.
  apply (in_map TimeEvent.id) in He. rewrite H in He.
  apply in_map_iff in He. destruct He as (j & Hj & Hin).
  apply in_seq in Hin. exists j. split; [lia | now symmetry].
Qed.

Lemma advance_ids_NoDup (fuel : nat) (tm tm' : TestTimer.t)
    (to_time : datetime) (uuid4 : nat -> GUID) (evs : list TimeEvent.t) :
  distinct_draws uuid4 ->
  TestTimer.advance fuel tm to_time uuid4 = Some (evs, tm') ->
  NoDup (map TimeEvent.id evs).
Proof.
  intros Hd H. rewrite (advance_ids _ _ _ _ _ _ H).
  generalize (seq_NoDup (List.length evs) 0).
  induction (seq 0 (List.length evs)) as [|x l IH]; simpl; intros Hn;
    [constructor|].
  inversion Hn as [|? ? Hx Hl]; subst. constructor; [|now apply IH].
  intros Hin. apply in_map_iff in Hin. destruct Hin as (y & Hy & Hin).
  apply Hd in Hy. subst. contradiction.
Qed.

Lemma Forall2_impl_In {A B} (P Q : A -> B -> Prop) (l : list A)
    (l' : list B) :
  (forall x y, In x l -> P x y -> Q x y) ->
  Forall2 P l l' -> Forall2 Q l l'.
Proof.
  intros H F. induction F as [|x y l l' Hxy F IH]; constructor.
  - apply H; [now left | exact Hxy].
  - apply IH. intros a b Ha. apply H. now right.
Qed.

(** With distinct identifiers the mapping built by the loop is, in the
    order of the snapshot, each timer's events paired with the timer's
    handler. *)
Lemma iterate_timers_exact (rest : list (Label * TestTimer.t)) :
  forall kept fuel to_time uuid4 events c events' c',
    registry_split kept rest c ->
    distinct_draws uuid4 ->
    (forall p n, In p events -> TimeEvent.id (fst p) <> uuid4 n) ->
    TestClock.iterate_timers fuel to_time uuid4 rest events c
    = Ok events' c' ->
    exists contribs,
      events' = events ++ List.concat contribs /\
      Forall2 (served fuel to_time c c') rest contribs.
Proof.
  induction rest as [|[k tm] rest IH];
    intros kept fuel to_time uuid4 events c events' c' Hsplit Hd Hfresh H.
  - simpl in H. unfold ret in H. injection H as <- <-.
    exists []. simpl. rewrite app_nil_r. split; [reflexivity | constructor].
  - destruct (TestTimer.advance fuel tm to_time uuid4)
      as [[evs tm']|] eqn:Ea;
      [|simpl in H; rewrite Ea in H; discriminate].
    destruct (iterate_step _ _ _ _ _ _ _ _ _ _ Hsplit Ea)
      as (h & c1 & c2 & Eh1 & Hh & Hsplit2 & Eh2 & Hstep).
    assert (Ec : TestClock.collect k evs events c1
                 = Ok (events ++ map (fun e => (e, h)) evs) c1).
    { apply collect_fresh; [rewrite Eh1; exact Hh | |].
      - eapply advance_ids_NoDup; [exact Hd | exact Ea].
      - intros e p He Hp.
        destruct (advance_ids_range _ _ _ _ _ _ Ea e He) as (j & _ & ->).
        now apply Hfresh. }
    rewrite (Hstep _ _ Ec) in H.
    destruct Hsplit as (_ & Hnd & _ & _).
    destruct (NoDup_keys_middle _ _ _ _ Hnd) as (Hk1 & Hk2 & _).
    assert (Hhead : advanced_once fuel to_time c' (k, tm) evs tm').
    { split; [exists uuid4; exact Ea|].
      eapply head_fate; [exact Hk1 | exact Hk2 | exact Hsplit2 | exact H]. }
    assert (Hd2 : distinct_draws
                    (fun n => uuid4 (List.length evs + n)%nat)).
    { intros a b Hab. apply Hd in Hab. lia. }
    assert (Hfresh2 : forall p n,
              In p (events ++ map (fun e => (e, h)) evs) ->
              TimeEvent.id (fst p) <> uuid4 (List.length evs + n)%nat).
    { intros p n Hp. apply in_app_or in Hp. destruct Hp as [Hp|Hp].
      - apply Hfresh. exact Hp.
      - apply in_map_iff in Hp. destruct Hp as (e & <- & He). simpl.
        destruct (advance_ids_range _ _ _ _ _ _ Ea e He) as (j & Hj & ->).
        intros Heq. apply Hd in Heq. lia. }
    destruct (IH _ _ _ _ _ _ _ _ Hsplit2 Hd2 Hfresh2 H)
      as (contribs & Eev & F).
    exists (map (fun e => (e, h)) evs :: contribs). split.
    + rewrite Eev. simpl. now rewrite <- app_assoc.
    + constructor.
      * exists evs, tm', h. tauto.
      * eapply Forall2_impl_In; [|exact F].
        intros kv contrib Hkv (evs0 & tm0 & h0 & Ha & Hg & Ecn).
        exists evs0, tm0, h0. split; [exact Ha|]. split; [|exact Ecn].
        rewrite Eh2 in Hg. destruct (TestTimer.expired tm');
          [|exact Hg].
        rewrite get_pop_other in Hg; [exact Hg|].
        intros Heq. apply Hk2. rewrite <- Heq.
        apply (in_map fst _ _ Hkv).
Qed.

(** ** What [advance_time] does for each timer *)

(** Past its guard, [advance_time] is the loop over the registry, the
    refresh of the cache, the new time and the sort. *)
Lemma advance_time_busy_Ok (fuel : nat) (to_time : datetime)
    (uuid4 : nat -> GUID) (c c' : TestClock.t) (n : datetime)
    (events : list (TimeEvent.t * Handler)) :
  TestClock.has_timers c = true ->
  TestClock.next_event_time c = Some n ->
  n <= to_time ->
  TestClock.advance_time fuel to_time uuid4 c = Ok events c' ->
  exists pre c1,
    TestClock.iterate_timers fuel to_time uuid4 (TestClock._timers c) [] c
    = Ok pre c1 /\
    events = TestClock.sort_events pre /\
    TestClock._timers c' = TestClock._timers c1 /\
    TestClock._handlers c' = TestClock._handlers c1 /\
    TestClock._time c' = to_time.
Proof.
  intros Hh Hn Hle H.
  rewrite (advance_time_busy _ _ _ _ n Hh Hn Hle) in H.
  destruct (TestClock.iterate_timers _ _ _ _ _ _) as [pre c1| |];
    try discriminate.
  destruct (update_timing_ok c1) as (b & m & Eu & _). rewrite Eu in H.
  injection H as <- <-. exists pre, c1. repeat split; reflexivity.
Qed.

Lemma wf_split (c : TestClock.t) :
  wf c -> registry_split [] (TestClock._timers c) c.
Proof. intros [H1 H2 H3 H4]. repeat split; assumption. Qed.

Lemma advanced_once_timers (fuel : nat) (to_time : datetime)
    (c' c'' : TestClock.t) kv evs tm' :
  TestClock._timers c' = TestClock._timers c'' ->
  advanced_once fuel to_time c'' kv evs tm' ->
  advanced_once fuel to_time c' kv evs tm'.
Proof. unfold advanced_once. intros ->. tauto. Qed.

(** Every registered timer is advanced once by a call that passes the
    guard, and every event returned comes from one of these advances. *)
Lemma advance_time_fate (fuel : nat) (to_time : datetime)
    (uuid4 : nat -> GUID) (c c' : TestClock.t) (n : datetime)
    (events : list (TimeEvent.t * Handler)) :
  wf c ->
  TestClock.has_timers c = true ->
  TestClock.next_event_time c = Some n ->
  n <= to_time ->
  TestClock.advance_time fuel to_time uuid4 c = Ok events c' ->
  (forall kv, In kv (TestClock._timers c) ->
     exists evs tm', advanced_once fuel to_time c' kv evs tm') /\
  (forall e, In e (PyDict.keys events) ->
     exists kv evs tm',
       In kv (TestClock._timers c) /\
       advanced_once fuel to_time c' kv evs tm' /\ In e evs).
Proof.
  intros Hwf Hh Hn Hle H.
  destruct (advance_time_busy_Ok _ _ _ _ _ _ _ Hh Hn Hle H)
    as (pre & c1 & Hit & -> & Et & _ & _).
  destruct (iterate_timers_fate _ _ _ _ _ _ _ _ _ (wf_split c Hwf) Hit)
    as (F1 & F2).
  split.
  - intros kv Hkv. destruct (F1 kv Hkv) as (evs & tm' & Ha).
    exists evs, tm'. eapply advanced_once_timers; [exact Et | exact Ha].
  - intros e He. rewrite sort_events_keys in He. apply F2 in He.
    destruct He as [[]|(kv & evs & tm' & Hkv & Ha & He)].
    exists kv, evs, tm'. split; [exact Hkv|]. split; [|exact He].
    eapply advanced_once_timers; [exact Et | exact Ha].
Qed.

Lemma filter_insert_length {A} (f : A -> bool) (lt : A -> A -> bool)
    (x : A) (l : list A) :
  List.length (filter f (insert_sorted lt x l))
  = List.length (filter f (x :: l)).
Proof.
  induction l as [|y l IH]; [reflexivity|].
  cbn [insert_sorted]. destruct (lt x y); [reflexivity|].
  cbn [filter] in *. destruct (f y), (f x); simpl in *; lia.
Qed.

Lemma filter_sorted_length {A} (f : A -> bool) (lt : A -> A -> bool)
    (l : list A) :
  List.length (filter f (sorted lt l)) = List.length (filter f l).
Proof.
  unfold sorted.
  assert (H : forall acc,
            List.length
              (filter f (fold_left (fun acc x => insert_sorted lt x acc)
                           l acc))
            = (List.length (filter f l) + List.length (filter f acc))%nat).
  { induction l as [|x l IH]; intros acc; simpl; [reflexivity|].
    rewrite IH, filter_insert_length. simpl.
    destruct (f x); simpl; lia. }
  rewrite H. simpl. lia.
Qed.

(** The events under one label among the contributions of the timers. *)
Lemma events_of_contribs (fuel : nat) (to_time : datetime)
    (c c' : TestClock.t) (k : Label) :
  forall rest contribs,
    Forall2 (served fuel to_time c c') rest contribs ->
    NoDup (PyDict.keys rest) ->
    Forall (fun kv => TestTimer.label (snd kv) = fst kv) rest ->
    (~ In k (PyDict.keys rest) ->
     events_of k (List.concat contribs) = []) /\
    (forall tm, In (k, tm) rest ->
       exists evs tm' h,
         advanced_once fuel to_time c' (k, tm) evs tm' /\
         PyDict.get String.eqb k (TestClock._handlers c) = Some h /\
         events_of k (List.concat contribs) = map (fun e => (e, h)) evs).
Proof.
  intros rest contribs F.
  induction F as [|[k1 tm1] contrib rest contribs Hs F IH];
    intros Hnd Hl.
  - split; [reflexivity | intros tm []].
  - simpl in Hnd. inversion Hnd as [|? ? Hn1 Hnd']; subst.
    inversion Hl as [|? ? Hl1 Hl']; subst. simpl in Hl1.
    destruct (IH Hnd' Hl') as (IHa & IHb).
    pose proof Hs as (evs & tm' & h & Ha & Hg & ->).
    assert (Hlab : Forall (fun e => TimeEvent.label e = k1) evs).
    { destruct Ha as [[u Eu] _]. simpl in Eu.
      pose proof (advance_result _ _ _ _ _ _ Eu) as (_ & _ & Hla & _).
      eapply Forall_impl; [|exact Hla]. simpl. congruence. }
    assert (Hown : events_of k1 (map (fun e => (e, h)) evs)
                   = map (fun e => (e, h)) evs).
    { unfold events_of. clear -Hlab.
      induction Hlab as [|e evs He _ IH]; [reflexivity|].
      simpl. rewrite He, String.eqb_refl. now rewrite IH. }
    assert (Hother : k <> k1 ->
              events_of k (map (fun e => (e, h)) evs) = []).
    { intros Hne. unfold events_of. clear -Hlab Hne.
      induction Hlab as [|e evs He _ IH]; [reflexivity|].
      simpl. rewrite He.
      destruct (String.eqb_spec k1 k); [congruence | exact IH]. }
    unfold events_of in *. simpl List.concat. rewrite filter_app.
    split.
    + intros Hnk. simpl in Hnk.
      rewrite Hother by (intros ->; tauto).
      rewrite IHa by tauto. reflexivity.
    + intros tm [Heq|Hin].
      * injection Heq as -> ->.
        exists evs, tm', h. split; [exact Ha|]. split; [exact Hg|].
        rewrite Hown, IHa by exact Hn1. apply app_nil_r.
      * assert (Hne : k <> k1).
        { intros ->. apply Hn1. apply (in_map fst _ _ Hin). }
        rewrite Hother by exact Hne. simpl. now apply IHb.
Qed.

Lemma advance_time_served (fuel : nat) (to_time : datetime)
    (uuid4 : nat -> GUID) (c c' : TestClock.t) (n : datetime)
    (events : list (TimeEvent.t * Handler)) :
  wf c -> distinct_draws uuid4 ->
  TestClock.has_timers c = true ->
  TestClock.next_event_time c = Some n ->
  n <= to_time ->
  TestClock.advance_time fuel to_time uuid4 c = Ok events c' ->
  forall k tm, In (k, tm) (TestClock._timers c) ->
    exists evs tm' h,
      advanced_once fuel to_time c' (k, tm) evs tm' /\
      PyDict.get String.eqb k (TestClock._handlers c) = Some h /\
      (forall p, In p (events_of k events) <->
                 exists e, In e evs /\ p = (e, h)) /\
      List.length (events_of k events) = List.length evs.
Proof.
  intros Hwf Hd Hh Hn Hle H k tm Hin.
  destruct (advance_time_busy_Ok _ _ _ _ _ _ _ Hh Hn Hle H)
    as (pre & c1 & Hit & -> & Et & _ & _).
  destruct (iterate_timers_exact _ _ _ _ _ _ _ _ _
              (wf_split c Hwf) Hd (fun p n0 (F : In p []) => match F with end)
              Hit)
    as (contribs & Epre & F).
  simpl in Epre. subst pre.
  destruct (events_of_contribs fuel to_time c c1 k _ _ F
              (wf_nodup c Hwf) (wf_labelled c Hwf)) as (_ & Hb).
  destruct (Hb tm Hin) as (evs & tm' & h & Ha & Hg & Eev).
  exists evs, tm', h.
  split; [eapply advanced_once_timers; [exact Et | exact Ha]|].
  split; [exact Hg|]. split.
  - intros p. unfold events_of in *. unfold TestClock.sort_events. split.
    + intros Hp. apply filter_In in Hp. destruct Hp as [Hp Hf].
      apply sorted_In in Hp.
      assert (Hq : In p (map (fun e => (e, h)) evs))
        by (rewrite <- Eev; apply filter_In; split; assumption).
      apply in_map_iff in Hq. destruct Hq as (e & E & He).
      exists e. split; [exact He | now symmetry].
    + intros (e & He & ->).
      assert (Hq : In (e, h) (map (fun e => (e, h)) evs))
        by (apply in_map_iff; exists e; split; [reflexivity | exact He]).
      rewrite <- Eev in Hq. apply filter_In in Hq. destruct Hq as [Hq Hf].
      apply filter_In. split; [apply sorted_In; exact Hq | exact Hf].
  - unfold events_of in *. unfold TestClock.sort_events.
    rewrite filter_sorted_length, Eev. apply length_map.
Qed.

(** The first event of a live timer that is due. *)
Lemma advance_first_event (fuel : nat) (tm tm' : TestTimer.t)
    (to_time : datetime) (uuid4 : nat -> GUID) (evs : list TimeEvent.t) :
  TestTimer.expired tm = false ->
  TestTimer.next_time tm <= to_time ->
  TestTimer.advance fuel tm to_time uuid4 = Some (evs, tm') ->
  exists e evs', evs = e :: evs' /\
    TimeEvent.label e = TestTimer.label tm /\
    TimeEvent.timestamp e = TestTimer.next_time tm.
Proof.
  intros He Hn H. destruct fuel as [|fuel]; [discriminate|].
  rewrite advance_S in H.
  assert (Hd : negb (TestTimer.expired tm)
               && (to_time >=? TestTimer.next_time tm) = true)
    by (apply due_true; tauto).
  rewrite Hd in H.
  destruct (TestTimer.advance fuel _ _ _) as [[evs1 tm1]|];
    [|discriminate].
  injection H as <- <-. eauto.
Qed.

(** X9. On a well-formed clock whose timers have positive intervals and
    stay within the datetimes up to [to_time], [advance_time(to_time)]
    past its guard returns (with enough fuel, and distinct identifiers)
    and serves every registered timer: the timer is advanced once, the
    events under its label in the returned mapping are exactly the
    events of that advance, each paired with the handler registered
    under the label, and a live timer that is due has an event stamped
    with its [next_time] among them. *)
Theorem advance_time_serves_every_timer (fuel : nat) (to_time : datetime)
    (uuid4 : nat -> GUID) (c : TestClock.t) (n : datetime) :
  wf c -> distinct_draws uuid4 ->
  positive c -> all_within_range c to_time ->
  (clock_fuel c to_time <= fuel)%nat ->
  TestClock.has_timers c = true ->
  TestClock.next_event_time c = Some n ->
  n <= to_time ->
  exists events c',
    TestClock.advance_time fuel to_time uuid4 c = Ok events c' /\
    forall k tm, In (k, tm) (TestClock._timers c) ->
      exists evs tm' h,
        advanced_once fuel to_time c' (k, tm) evs tm' /\
        PyDict.get String.eqb k (TestClock._handlers c) = Some h /\
        (forall p, In p (events_of k events) <->
                   exists e, In e evs /\ p = (e, h)) /\
        List.length (events_of k events) = List.length evs /\
        (TestTimer.expired tm = false ->
         TestTimer.next_time tm <= to_time ->
         exists e, In (e, h) events /\ TimeEvent.label e = k /\
                   TimeEvent.timestamp e = TestTimer.next_time tm).
Proof.
  intros Hwf Hd Hpos Hrange Hfuel Hh Hn Hle.
  destruct (advance_time_total fuel to_time uuid4 c Hwf Hpos Hrange Hfuel)
    as (events & c' & H).
  exists events, c'. split; [exact H|].
  intros k tm Hin.
  destruct (advance_time_served _ _ _ _ _ _ _ Hwf Hd Hh Hn Hle H k tm Hin)
    as (evs & tm' & h & Ha & Hg & Hiff & Hlen).
  exists evs, tm', h.
  split; [exact Ha|]. split; [exact Hg|]. split; [exact Hiff|].
  split; [exact Hlen|].
  intros He Hdue. destruct Ha as [[u Eu] _]. simpl in Eu.
  destruct (advance_first_event _ _ _ _ _ _ He Hdue Eu)
    as (e & evs' & -> & El & Ets).
  exists e. split; [|split; [|exact Ets]].
  - assert (Hp : In (e, h) (events_of k events))
      by (apply Hiff; exists e; split; [now left | reflexivity]).
    unfold events_of in Hp. apply filter_In in Hp. tauto.
  - rewrite El. pose proof (wf_labelled c Hwf) as Hl.
    unfold labelled in Hl. rewrite Forall_forall in Hl.
    exact (Hl (k, tm) Hin).
Qed.

Lemma distinct_draws_id : distinct_draws (fun n => n).
Proof. intros a b H. exact H. Qed.

Lemma advance_time_serves_every_timer_witness :
  let c := TestClock.mk
             [("r"%string, timer_of "r"%string 2 0 None)]
             [("r"%string, 7%nat)] None (Some 2) true false 0 in
  exists events c' e,
    TestClock.advance_time 10 5 (fun n => n) c = Ok events c' /\
    In (e, 7%nat) events /\ TimeEvent.timestamp e = 2.
Proof.
  intros c.
  assert (Hrange : all_within_range c 5)
    by (apply one_timer_within_range; unfold datetime_max; lia).
  assert (Hfuel : (clock_fuel c 5%Z <= 10)%nat) by (vm_compute; lia).
  destruct (advance_time_serves_every_timer 10 5 (fun n => n) c 2
              wf_one_timer distinct_draws_id ltac:(repeat constructor)
              Hrange Hfuel eq_refl eq_refl ltac:(lia))
    as (events & c' & H & Hall).
  destruct (Hall "r"%string _ (or_introl eq_refl))
    as (evs & tm' & h & _ & Hg & _ & _ & Hfirst).
  injection Hg as <-.
  destruct (Hfirst eq_refl ltac:(simpl; lia)) as (e & He & _ & Hts).
  exists events, c', e. split; [exact H|]. split; [exact He | exact Hts].
Defined.

(** X10. The number of events per timer: on a well-formed clock whose
    timers have positive intervals and stay within the datetimes up to
    [to_time], [advance_time(to_time)] past its guard returns (with
    enough fuel, and distinct identifiers), and the mapping holds for
    every registered live timer whose [next_time] is not past its
    [stop_time] exactly [due_count] events under the timer's label. *)
Theorem advance_time_event_count (fuel : nat) (to_time : datetime)
    (uuid4 : nat -> GUID) (c : TestClock.t) (n : datetime) :
  wf c -> distinct_draws uuid4 ->
  positive c -> all_within_range c to_time ->
  (clock_fuel c to_time <= fuel)%nat ->
  TestClock.has_timers c = true ->
  TestClock.next_event_time c = Some n ->
  n <= to_time ->
  exists events c',
    TestClock.advance_time fuel to_time uuid4 c = Ok events c' /\
    forall k tm, In (k, tm) (TestClock._timers c) ->
      TestTimer.expired tm = false ->
      (forall s, TestTimer.stop_time tm = Some s ->
                 TestTimer.next_time tm <= s) ->
      List.length (events_of k events) = due_count tm to_time.
Proof.
  intros Hwf Hd Hpos Hrange Hfuel Hh Hn Hle.
  destruct (advance_time_total fuel to_time uuid4 c Hwf Hpos Hrange Hfuel)
    as (events & c' & H).
  exists events, c'. split; [exact H|].
  intros k tm Hin He Hs.
  assert (Hi : 0 < TestTimer.interval tm).
  { unfold positive in Hpos. rewrite Forall_forall in Hpos.
    apply Hpos. unfold PyDict.values. apply (in_map snd _ _ Hin). }
  destruct (advance_time_served _ _ _ _ _ _ _ Hwf Hd Hh Hn Hle H k tm Hin)
    as (evs & tm' & h & [[u Eu] _] & _ & _ & ->).
  simpl in Eu. unfold due_count.
  destruct (advance_count_bounds _ _ _ _ _ _ He Hs Eu)
    as [[Hlt ->]|(Hge & Hk & Hb)].
  - apply Z.ltb_lt in Hlt. now rewrite Hlt.
  - apply Z.ltb_ge in Hge. rewrite Hge.
    apply count_unique; assumption.
Qed.

Lemma advance_time_event_count_witness :
  let c := TestClock.mk
             [("r"%string, timer_of "r"%string 2 0 None)]
             [("r"%string, 7%nat)] None (Some 2) true false 0 in
  exists events c',
    TestClock.advance_time 10 5 (fun n => n) c = Ok events c' /\
    List.length (events_of "r"%string events)
    = due_count (timer_of "r"%string 2 0 None) 5.
Proof.
  intros c.
  assert (Hrange : all_within_range c 5)
    by (apply one_timer_within_range; unfold datetime_max; lia).
  assert (Hfuel : (clock_fuel c 5%Z <= 10)%nat) by (vm_compute; lia).
  destruct (advance_time_event_count 10 5 (fun n => n) c 2
              wf_one_timer distinct_draws_id ltac:(repeat constructor)
              Hrange Hfuel eq_refl eq_refl ltac:(lia))
    as (events & c' & H & Hall).
  exists events, c'. split; [exact H|].
  apply (Hall "r"%string _ (or_introl eq_refl) eq_refl).
  intros s E. discriminate.
Defined.

(** X11. The first event returned is the one [next_event_time]
    announces: on a well-formed clock whose timers are live, have
    positive intervals and stay within the datetimes up to [to_time], a
    call of [advance_time(to_time)] that passes the guard returns (with
    enough fuel, and distinct identifiers) a mapping that is not empty
    and whose first event is stamped with the clock's [next_event_time]
    before the call. *)
Theorem first_event_is_at_next_event_time (fuel : nat)
    (to_time : datetime) (uuid4 : nat -> GUID) (c : TestClock.t)
    (n : datetime) :
  wf c -> distinct_draws uuid4 ->
  positive c -> all_within_range c to_time ->
  (clock_fuel c to_time <= fuel)%nat ->
  Forall (fun tm => TestTimer.expired tm = false)
    (PyDict.values (TestClock._timers c)) ->
  TestClock.has_timers c = true ->
  TestClock.next_event_time c = Some n ->
  n <= to_time ->
  exists events c' e h rest,
    TestClock.advance_time fuel to_time uuid4 c = Ok events c' /\
    events = (e, h) :: rest /\ TimeEvent.timestamp e = n.
Proof.
  intros Hwf Hd Hpos Hrange Hfuel Hlive Hh Hn Hle.
  destruct (advance_time_total fuel to_time uuid4 c Hwf Hpos Hrange Hfuel)
    as (events & c' & H).
  exists events, c'.
  cut (exists e h rest,
         events = (e, h) :: rest /\ TimeEvent.timestamp e = n).
  { intros (e & h & rest & E & Hts). exists e, h, rest. tauto. }
  (* the timer that [next_event_time] comes from *)
  pose proof (wf_timing c Hwf) as Ht. unfold timing_ok, next_times in Ht.
  assert (Hmin : (exists k tm, In (k, tm) (TestClock._timers c) /\
                               TestTimer.next_time tm = n) /\
                 Forall (fun x => n <= x)
                   (map TestTimer.next_time
                      (PyDict.values (TestClock._timers c)))).
  { destruct (TestClock._timers c) as [|kv d]; [destruct Ht; congruence|].
    destruct Ht as (_ & m & Em & Im & Am).
    rewrite Hn in Em. injection Em as <-. split; [|exact Am].
    apply in_map_iff in Im. destruct Im as (tm & Etm & Im).
    unfold PyDict.values in Im. apply in_map_iff in Im.
    destruct Im as ([k tm0] & E0 & Im). simpl in E0. subst tm0.
    exists k, tm. tauto. }
  destruct Hmin as ((k & tm & Hin & Etm) & Hall).
  destruct (advance_time_served _ _ _ _ _ _ _ Hwf Hd Hh Hn Hle H k tm Hin)
    as (evs & tm' & h & [[u Eu] _] & _ & Hiff & _).
  simpl in Eu.
  assert (He : TestTimer.expired tm = false).
  { rewrite Forall_forall in Hlive. apply Hlive.
    unfold PyDict.values. apply (in_map snd _ _ Hin). }
  assert (Hdue : TestTimer.next_time tm <= to_time) by lia.
  destruct (advance_first_event _ _ _ _ _ _ He Hdue Eu)
    as (e & evs' & -> & _ & Ets).
  assert (Hp : In (e, h) events).
  { assert (Hq : In (e, h) (events_of k events))
      by (apply Hiff; exists e; split; [now left | reflexivity]).
    unfold events_of in Hq. apply filter_In in Hq. tauto. }
  (* every event is at or after [n], and the mapping is sorted *)
  assert (Hlow : forall p, In p events -> n <= TimeEvent.timestamp (fst p)).
  { intros p Hpin.
    pose proof (advance_time_wf fuel to_time uuid4 c Hwf) as Hw.
    rewrite H in Hw. destruct Hw as (_ & _ & _ & Hev).
    destruct (Hev (fst p) (in_map fst _ _ Hpin)) as (kv & Hkv & _ & Hlo & _).
    rewrite Forall_forall in Hall.
    specialize (Hall (TestTimer.next_time (snd kv))).
    assert (n <= TestTimer.next_time (snd kv)).
    { apply Hall. apply in_map. unfold PyDict.values. now apply in_map. }
    lia. }
  assert (Hsorted : StronglySorted
            (fun a b => TimeEvent.timestamp (fst a)
                        <= TimeEvent.timestamp (fst b)) events).
  { destruct (advance_time_busy_Ok _ _ _ _ _ _ _ Hh Hn Hle H)
      as (pre & c1 & _ & -> & _).
    apply sort_events_sorted. }
  destruct events as [|[e0 h0] rest]; [destruct Hp|].
  exists e0, h0, rest. split; [reflexivity|].
  specialize (Hlow (e0, h0) (or_introl eq_refl)). simpl in Hlow.
  destruct Hp as [Hp|Hp].
  - injection Hp as -> _. lia.
  - apply StronglySorted_inv in Hsorted. destruct Hsorted as [_ Hhd].
    rewrite Forall_forall in Hhd. specialize (Hhd _ Hp). simpl in Hhd. lia.
Qed.

Lemma first_event_is_at_next_event_time_witness :
  let c := TestClock.mk
             [("r"%string, timer_of "r"%string 2 0 None)]
             [("r"%string, 7%nat)] None (Some 2) true false 0 in
  exists events c' e h rest,
    TestClock.advance_time 10 5 (fun n => n) c = Ok events c' /\
    events = (e, h) :: rest /\ TimeEvent.timestamp e = 2.
Proof.
  intros c.
  assert (Hrange : all_within_range c 5)
    by (apply one_timer_within_range; unfold datetime_max; lia).
  assert (Hfuel : (clock_fuel c 5%Z <= 10)%nat) by (vm_compute; lia).
  exact (first_event_is_at_next_event_time 10 5 (fun n => n) c 2
           wf_one_timer distinct_draws_id ltac:(repeat constructor)
           Hrange Hfuel ltac:(repeat constructor) eq_refl eq_refl
           ltac:(lia)).
Defined.

(** ** Which timers stay *)

Lemma alert_accepted_free (c : TestClock.t) (l : Label)
    (a : datetime) (h : pyobj) :
  wf c ->
  ~ In l (PyDict.keys (TestClock._timers c)) ->
  is_callable (TestClock.or_default c h) = true ->
  TestClock.time_now c <= a ->
  alert_accepted c l a h = true.
Proof.
  intros Hwf Hn Hc Hle. unfold alert_accepted.
  rewrite !andb_true_iff, !negb_true_iff, Z.leb_le.
  repeat split; try assumption.
  - now apply (contains_false String.eqb label_eqb_eq).
  - apply (contains_false String.eqb label_eqb_eq).
    intros Hx. apply Hn.
    exact (eq_ind_r (fun ks => In l ks) Hx (wf_keys c Hwf)).
Qed.

Lemma alert_accepted_when_free (c : TestClock.t) (l : Label)
    (a : datetime) (h : pyobj) :
  wf c ->
  ~ In l (PyDict.keys (TestClock._timers c)) ->
  is_callable (TestClock.or_default c h) = true ->
  TestClock.time_now c <= a ->
  in_range a = true ->
  exists c', TestClock.set_time_alert l a h c = Ok tt c'.
Proof.
  intros Hwf Hn Hc Hle Hr.
  destruct (set_time_alert_accepted c l a h) as (h' & _ & ->);
    [now apply alert_accepted_free | exact Hr |].
  destruct (add_timer_ok (alert_timer c l a) h' c)
    as (b & n & E & _).
  eauto.
Qed.

(** X12. Which timers [advance_time(to_time)] leaves in the registry.
    On a well-formed clock whose timers have positive intervals and stay
    within the datetimes up to [to_time], a call that passes the guard
    returns (with enough fuel).  A live timer without [stop_time] stays,
    filed under its label with [next_time] after [to_time].  A live
    one-shot timer that is due ([stop_time] equal to [next_time], as
    [set_time_alert] builds it) is removed together with its handler,
    and its label can be set again. *)
Theorem repeating_timer_stays_alert_leaves (fuel : nat)
    (to_time : datetime) (uuid4 : nat -> GUID) (c : TestClock.t)
    (n : datetime) :
  wf c ->
  positive c -> all_within_range c to_time ->
  (clock_fuel c to_time <= fuel)%nat ->
  TestClock.has_timers c = true ->
  TestClock.next_event_time c = Some n ->
  n <= to_time ->
  exists events c',
    TestClock.advance_time fuel to_time uuid4 c = Ok events c' /\
    forall k tm, In (k, tm) (TestClock._timers c) ->
      TestTimer.expired tm = false ->
      (TestTimer.stop_time tm = None ->
       exists tm',
         PyDict.get String.eqb k (TestClock._timers c') = Some tm' /\
         TestTimer.expired tm' = false /\
         to_time < TestTimer.next_time tm' /\
         TestTimer.interval tm' = TestTimer.interval tm) /\
      (TestTimer.stop_time tm = Some (TestTimer.next_time tm) ->
       TestTimer.next_time tm <= to_time ->
       ~ In k (TestClock.get_timer_labels c') /\
       PyDict.get String.eqb k (TestClock._handlers c') = None /\
       forall a h,
         is_callable (TestClock.or_default c' h) = true ->
         to_time <= a ->
         in_range a = true ->
         exists c'', TestClock.set_time_alert k a h c' = Ok tt c'').
Proof.
  intros Hwf Hpos Hrange Hfuel Hh Hn Hle.
  destruct (advance_time_total fuel to_time uuid4 c Hwf Hpos Hrange Hfuel)
    as (events & c' & H).
  exists events, c'. split; [exact H|].
  intros k tm Hin He.
  assert (Hv : In tm (PyDict.values (TestClock._timers c)))
    by (unfold PyDict.values; apply (in_map snd _ _ Hin)).
  assert (Hi : 0 < TestTimer.interval tm).
  { unfold positive in Hpos. rewrite Forall_forall in Hpos.
    now apply Hpos. }
  assert (Hr : within_range tm to_time).
  { unfold all_within_range in Hrange. rewrite Forall_forall in Hrange.
    now apply Hrange. }
  destruct (advance_time_fate _ _ _ _ _ _ _ Hwf Hh Hn Hle H) as (F1 & _).
  destruct (F1 (k, tm) Hin) as (evs & tm' & [u Eu] & Hfate).
  simpl in Eu, Hfate.
  pose proof (advance_time_wf fuel to_time uuid4 c Hwf) as Hw.
  rewrite H in Hw. destruct Hw as (Hwf' & _).
  pose proof (advance_result _ _ _ _ _ _ Eu)
    as ((_ & Fi & _ & _) & _ & _ & _ & _ & Hexit).
  pose proof (advance_next_time _ _ _ _ _ _ Hr Eu) as Hn'.
  pose proof (advance_latch _ _ _ _ _ _ He Eu) as (Hlatch & _).
  split.
  - intros Hstop.
    assert (Ex : TestTimer.expired tm' = false).
    { destruct (TestTimer.expired tm'); [|reflexivity].
      destruct Hlatch as [Hl _].
      destruct (Hl eq_refl) as (_ & s & Es & _). congruence. }
    rewrite Ex in Hfate. exists tm'.
    split; [apply get_of_In; [apply Hwf' | exact Hfate]|].
    split; [exact Ex|]. split; [|exact Fi].
    destruct Hexit as [Hx|Hx]; [congruence | exact Hx].
  - intros Hstop Hdue.
    assert (Ex : TestTimer.expired tm' = true).
    { apply Hlatch.
      assert (Hk : (0 < List.length evs)%nat).
      { destruct (advance_first_event _ _ _ _ _ _ He Hdue Eu)
          as (e & evs' & -> & _). simpl. lia. }
      split; [exact Hk|]. eexists. split; [exact Hstop|]. nia. }
    rewrite Ex in Hfate.
    assert (Hk' : ~ In k (PyDict.keys (TestClock._handlers c')))
      by (rewrite <- (wf_keys c' Hwf'); exact Hfate).
    split; [exact Hfate|].
    split; [now apply (get_None String.eqb label_eqb_eq)|].
    intros a h Hc Ha Hra.
    apply alert_accepted_when_free; try assumption.
    destruct (advance_time_busy_Ok _ _ _ _ _ _ _ Hh Hn Hle H)
      as (_ & _ & _ & _ & _ & _ & Etime).
    unfold TestClock.time_now. lia.
Qed.

(** A clock with one alert, as [set_time_alert("a", 5)] leaves a fresh
    clock. *)
Lemma wf_one_alert :
  wf (TestClock.mk
        [("a"%string, timer_of "a"%string 5 0 (Some 5))]
        [("a"%string, 1%nat)] None (Some 5) true false 0).
Proof.
  pose proof (run_wf O [SetTimeAlert "a"%string 5 (PyCallable 1%nat)]
                (TestClock.init 0) (wf_init 0)) as H.
  apply Forall_inv in H. exact H.
Qed.

Lemma repeating_timer_stays_alert_leaves_witness :
  (let c := TestClock.mk
              [("r"%string, timer_of "r"%string 2 0 None)]
              [("r"%string, 7%nat)] None (Some 2) true false 0 in
   exists events c' tm',
     TestClock.advance_time 10 5 (fun n => n) c = Ok events c' /\
     PyDict.get String.eqb "r"%string (TestClock._timers c') = Some tm' /\
     5 < TestTimer.next_time tm') /\
  (let c := TestClock.mk
              [("a"%string, timer_of "a"%string 5 0 (Some 5))]
              [("a"%string, 1%nat)] None (Some 5) true false 0 in
   exists events c',
     TestClock.advance_time 10 10 (fun n => n) c = Ok events c' /\
     ~ In "a"%string (TestClock.get_timer_labels c')).
Proof.
  split.
  - intros c.
    assert (Hrange : all_within_range c 5)
      by (apply one_timer_within_range; unfold datetime_max; lia).
    assert (Hfuel : (clock_fuel c 5%Z <= 10)%nat) by (vm_compute; lia).
    destruct (repeating_timer_stays_alert_leaves 10 5 (fun n => n) c 2
                wf_one_timer ltac:(repeat constructor) Hrange Hfuel
                eq_refl eq_refl ltac:(lia))
      as (events & c' & H & Hall).
    destruct (proj1 (Hall "r"%string _ (or_introl eq_refl) eq_refl) eq_refl)
      as (tm' & Hg & _ & Hn & _).
    exists events, c', tm'. split; [exact H|]. split; [exact Hg | exact Hn].
  - intros c.
    assert (Hrange : all_within_range c 10).
    { repeat constructor. apply within_range_below; simpl;
        unfold datetime_min, datetime_max; lia. }
    assert (Hfuel : (clock_fuel c 10%Z <= 10)%nat) by (vm_compute; lia).
    assert (Hpos : positive c) by (repeat constructor).
    destruct (repeating_timer_stays_alert_leaves 10 10 (fun n => n) c 5
                wf_one_alert Hpos Hrange Hfuel eq_refl eq_refl ltac:(lia))
      as (events & c' & H & Hall).
    exists events, c'. split; [exact H|].
    refine (proj1 (proj2 (Hall "a"%string _ (or_introl eq_refl) eq_refl)
                     eq_refl _)).
    simpl. lia.
Defined.

(** X13. A label is taken while its timer is registered: after a
    successful setter call every further [set_time_alert] or [set_timer]
    with the same label raises and leaves the clock as it is; after
    [cancel_timer] of the label on a well-formed clock, [set_time_alert]
    with it is accepted again (an alert time that is no [datetime] makes
    the constructor raise [OverflowError], the clock as it is). *)
Theorem label_is_taken_until_cancelled (c : TestClock.t) (l : Label) :
  wf c ->
  (forall c1,
     (exists a h, TestClock.set_time_alert l a h c = Ok tt c1) \/
     (exists i st sp h, TestClock.set_timer l i st sp h c = Ok tt c1) ->
     forall a' i' st' sp' h',
       TestClock.set_time_alert l a' h' c1 = Raise ConditionFailed c1 /\
       TestClock.set_timer l i' st' sp' h' c1 = Raise ConditionFailed c1) /\
  (forall c2,
     TestClock.cancel_timer l c = Ok tt c2 ->
     forall a h,
       is_callable (TestClock.or_default c2 h) = true ->
       TestClock.time_now c2 <= a ->
       if in_range a
       then exists c3, TestClock.set_time_alert l a h c2 = Ok tt c3
       else TestClock.set_time_alert l a h c2 = Raise OverflowError c2).
Proof.
  intros Hwf. split.
  - intros c1 Hset a' i' st' sp' h'.
    assert (Htaken : PyDict.contains String.eqb l (TestClock._timers c1)
                     = true).
    { unfold PyDict.contains.
      destruct Hset as [(a & h & H)|(i & st & sp & h & H)].
      - destruct (set_time_alert_Ok _ _ _ _ _ H) as (Hn & _ & h0 & _ & E).
        destruct (add_timer_post (alert_timer c l a) _ _ _
                    Hwf Hn E) as (_ & Hg & _).
        simpl in Hg. now rewrite Hg.
      - destruct (set_timer_Ok _ _ _ _ _ _ _ H) as (Hn & _ & h0 & _ & E).
        destruct (add_timer_post
                    (timer_of l i
                       match st with
                       | Some s => s
                       | None => TestClock.time_now c
                       end sp) _ _ _ Hwf Hn E) as (_ & Hg & _).
        simpl in Hg. now rewrite Hg. }
    split.
    + pose proof (set_time_alert_cases l a' h' c1) as Hc.
      unfold alert_accepted in Hc. rewrite Htaken in Hc. exact Hc.
    + apply set_timer_rejected_early. now left.
  - intros c2 H a h Hc Ha.
    destruct (wf_cancel_timer l c Hwf) as (c2' & E & Hwf2 & Et & _).
    rewrite E in H. injection H as <-.
    assert (Hfree : ~ In l (PyDict.keys (TestClock._timers c2'))).
    { rewrite Et. apply (pop_not_In String.eqb label_eqb_eq). apply Hwf. }
    pose proof (set_time_alert_cases l a h c2') as Hcase.
    rewrite (alert_accepted_free c2' l a h Hwf2 Hfree Hc Ha) in Hcase.
    destruct Hcase as (h' & _ & ->).
    destruct (in_range a); [|reflexivity].
    destruct (add_timer_ok (alert_timer c2' l a) h' c2')
      as (b & n & E' & _).
    eauto.
Qed.

Lemma label_is_taken_until_cancelled_witness :
  exists c1,
    TestClock.set_time_alert "a"%string 5 (PyCallable 1%nat)
      (TestClock.init 0) = Ok tt c1 /\
    TestClock.set_timer "a"%string 1 None None (PyCallable 2%nat) c1
    = Raise ConditionFailed c1 /\
    exists c3,
      TestClock.set_time_alert "a"%string 9 (PyCallable 2%nat)
        (TestClock.init 0) = Ok tt c3.
Proof.
  pose proof (label_is_taken_until_cancelled (TestClock.init 0)
                "a"%string (wf_init 0)) as [H1 H2].
  eexists. split; [lazy; reflexivity|]. split.
  - refine (proj2 (H1 _ (or_introl (ex_intro _ 5
                     (ex_intro _ (PyCallable 1%nat) eq_refl)))
                     0 1 None None (PyCallable 2%nat))).
  - apply (H2 (TestClock.init 0) eq_refl 9 (PyCallable 2%nat));
      [reflexivity | simpl; lia].
Defined.

(** ** Timers stay live and within their stop time *)

Lemma cancel_each_subset (labels : list Label) : forall c c',
  for_each labels TestClock.cancel_timer c = Ok tt c' ->
  forall kv, In kv (TestClock._timers c') -> In kv (TestClock._timers c).
Proof.
  induction labels as [|l labels IH]; intros c c' H kv Hin; simpl in H.
  - unfold ret in H. injection H as <-. exact Hin.
  - unfold bind in H.
    destruct (cancel_timer_ok l c) as (b & n & E & _). rewrite E in H.
    specialize (IH _ _ H kv Hin). simpl in IH.
    eapply In_pop; exact IH.
Qed.

Lemma timer_accepted_stop (c : TestClock.t) l i st sp h :
  timer_accepted c l i st sp h = true ->
  forall s, sp = Some s ->
    match st with Some x => x | None => TestClock.time_now c end + i <= s.
Proof.
  unfold timer_accepted. rewrite !andb_true_iff.
  intros (_ & H) s ->. rewrite andb_true_iff, Z.leb_le in H. tauto.
Qed.

Lemma live_within_stop_add (c c1 : TestClock.t) (timer : TestTimer.t)
    (h : Handler) :
  wf c -> live_within_stop c ->
  ~ In (TestTimer.label timer) (PyDict.keys (TestClock._timers c)) ->
  TestTimer.expired timer = false ->
  (forall s, TestTimer.stop_time timer = Some s ->
             TestTimer.next_time timer <= s) ->
  TestClock._add_timer timer h c = Ok tt c1 ->
  live_within_stop c1.
Proof.
  intros Hwf Hlive Hn He Hs E.
  destruct (wf_add_timer timer h c Hwf Hn) as (c1' & E' & _ & Et & _).
  rewrite E' in E. injection E as <-.
  unfold live_within_stop, PyDict.values in *. rewrite Et, map_app.
  apply Forall_app. split; [exact Hlive|].
  constructor; [|constructor]. simpl. tauto.
Qed.

Lemma live_within_stop_subset (c c' : TestClock.t) :
  (forall kv, In kv (TestClock._timers c') -> In kv (TestClock._timers c)) ->
  live_within_stop c -> live_within_stop c'.
Proof.
  unfold live_within_stop, PyDict.values. intros Hsub Hlive.
  rewrite Forall_forall in *. intros tm Hin.
  apply in_map_iff in Hin. destruct Hin as (kv & <- & Hin).
  apply Hlive. apply in_map. now apply Hsub.
Qed.

(** Every timer that [advance_time] leaves in the registry is a timer
    of before the call, advanced. *)
Lemma advance_time_origin (fuel : nat) (to_time : datetime)
    (uuid4 : nat -> GUID) (c c' : TestClock.t) (n : datetime)
    (events : list (TimeEvent.t * Handler)) :
  wf c ->
  TestClock.has_timers c = true ->
  TestClock.next_event_time c = Some n ->
  n <= to_time ->
  TestClock.advance_time fuel to_time uuid4 c = Ok events c' ->
  forall k tm', In (k, tm') (TestClock._timers c') ->
    exists tm evs u,
      In (k, tm) (TestClock._timers c) /\
      TestTimer.advance fuel tm to_time u = Some (evs, tm') /\
      TestTimer.expired tm' = false.
Proof.
  intros Hwf Hh Hn Hle H k tm' Hin.
  pose proof (advance_time_wf fuel to_time uuid4 c Hwf) as Hw.
  rewrite H in Hw. destruct Hw as (Hwf' & _ & Hkeys & _).
  assert (Hk : In k (PyDict.keys (TestClock._timers c)))
    by (apply Hkeys; apply (in_map fst _ _ Hin)).
  unfold PyDict.keys in Hk. apply in_map_iff in Hk.
  destruct Hk as ([k0 tm] & Ek & Hkv). simpl in Ek. subst k0.
  destruct (advance_time_fate _ _ _ _ _ _ _ Hwf Hh Hn Hle H) as (F1 & _).
  destruct (F1 (k, tm) Hkv) as (evs & tm1 & [u Eu] & Hfate).
  simpl in Eu, Hfate.
  destruct (TestTimer.expired tm1) eqn:Ex.
  - exfalso. apply Hfate. apply (in_map fst _ _ Hin).
  - pose proof (get_of_In k tm' _ (wf_nodup c' Hwf') Hin) as G1.
    pose proof (get_of_In k tm1 _ (wf_nodup c' Hwf') Hfate) as G2.
    rewrite G1 in G2. injection G2 as ->.
    exists tm, evs, u. tauto.
Qed.

Lemma advance_time_cases (fuel : nat) (to_time : datetime)
    (uuid4 : nat -> GUID) (c c' : TestClock.t)
    (events : list (TimeEvent.t * Handler)) :
  wf c ->
  TestClock.advance_time fuel to_time uuid4 c = Ok events c' ->
  (events = [] /\ c' = c) \/
  exists n, TestClock.has_timers c = true /\
            TestClock.next_event_time c = Some n /\ n <= to_time.
Proof.
  intros Hwf H.
  destruct (TestClock.has_timers c) eqn:Hh.
  - destruct (timing_ok_busy c (wf_timing c Hwf) Hh) as [m Em].
    destruct (Z_lt_le_dec to_time m) as [Hlt|Hge].
    + rewrite advance_time_idle in H by (right; eauto).
      injection H as <- <-. now left.
    + right. exists m. tauto.
  - rewrite advance_time_idle in H by (now left).
    injection H as <- <-. now left.
Qed.

Lemma live_within_stop_exec (fuel : nat) (o : op) (c c' : TestClock.t)
    (events : list (TimeEvent.t * Handler)) :
  wf c -> live_within_stop c ->
  exec fuel o c = Ok events c' ->
  live_within_stop c'.
Proof.
  intros Hwf Hlive H.
  destruct o as [l a h|l i st sp h|l| |to_time uuid4|to_time|h];
    simpl in H.
  - unfold bind in H.
    destruct (TestClock.set_time_alert l a h c) as [[] c1| |] eqn:E;
      try discriminate.
    unfold ret in H. injection H as _ <-.
    destruct (set_time_alert_Ok _ _ _ _ _ E) as (Hn & Hle & h' & _ & Ea).
    eapply (live_within_stop_add c c1 (alert_timer c l a));
      try eassumption; [reflexivity|].
    simpl. intros s Es. injection Es as <-. lia.
  - unfold bind in H.
    destruct (TestClock.set_timer l i st sp h c) as [[] c1| |] eqn:E;
      try discriminate.
    unfold ret in H. injection H as _ <-.
    destruct (set_timer_Ok _ _ _ _ _ _ _ E) as (Hn & Hi & h' & _ & Ea).
    pose proof (set_timer_cases l i st sp h c) as Hc. simpl in Hc.
    destruct (timer_accepted c l i st sp h) eqn:Eacc;
      [|destruct Hc as [Hc|[_ Hc]]; congruence].
    eapply (live_within_stop_add c c1
              (timer_of l i
                 match st with
                 | Some s => s
                 | None => TestClock.time_now c
                 end sp));
      try eassumption; [reflexivity|].
    simpl. intros s Es. eapply timer_accepted_stop; eassumption.
  - unfold bind in H.
    destruct (cancel_timer_ok l c) as (b & n & E & _). rewrite E in H.
    unfold ret in H. injection H as _ <-.
    eapply live_within_stop_subset; [|exact Hlive].
    simpl. intros kv Hin. eapply In_pop; exact Hin.
  - unfold TestClock.cancel_all_timers in H. unfold bind, get_state in H.
    destruct (for_each _ _ c) as [[] c1| |] eqn:E; try discriminate.
    unfold ret in H. injection H as _ <-.
    eapply live_within_stop_subset; [|exact Hlive].
    eapply cancel_each_subset; exact E.
  - destruct (advance_time_cases _ _ _ _ _ _ Hwf H)
      as [[_ ->]|(n & Hh & Hn & Hle)]; [exact Hlive|].
    unfold live_within_stop, PyDict.values in *.
    rewrite Forall_forall in *. intros tm' Hin.
    apply in_map_iff in Hin. destruct Hin as ([k tm0] & E0 & Hin).
    simpl in E0. subst tm0.
    destruct (advance_time_origin _ _ _ _ _ _ _ Hwf Hh Hn Hle H k tm' Hin)
      as (tm & evs & u & Hkv & Eu & Ex).
    split; [exact Ex|]. intros s Es.
    destruct (Hlive tm (in_map snd _ _ Hkv)) as [He Hs].
    pose proof (advance_result _ _ _ _ _ _ Eu) as ((_ & _ & _ & Fp) & _).
    rewrite Fp in Es.
    destruct (advance_left_within_stop _ _ _ _ _ _ _ He Es (Hs s Es) Eu)
      as [Hx|Hx]; [congruence | exact Hx].
  - unfold TestClock.set_time in H. unfold bind, modify, ret in H.
    injection H as _ <-. exact Hlive.
  - unfold TestClock.register_default_handler, Condition.callable in H.
    unfold bind, modify, ret, raise in H.
    destruct h; try discriminate. injection H as _ <-. exact Hlive.
Qed.

Lemma run_live_within_stop (fuel : nat) (ops : list op) : forall c,
  wf c -> live_within_stop c ->
  Forall (fun p => live_within_stop (snd p)) (run fuel ops c).
Proof.
  induction ops as [|o ops IH]; intros c Hwf Hlive; simpl; [constructor|].
  pose proof (exec_wf fuel o c Hwf) as Hw.
  pose proof (live_within_stop_exec fuel o c) as Hl.
  destruct (exec fuel o c) as [events c'|e c'|]; [| |constructor].
  - destruct Hw as (Hwf' & _).
    specialize (Hl c' events Hwf Hlive eq_refl).
    constructor; [exact Hl | now apply IH].
  - subst c'. constructor; [exact Hlive | now apply IH].
Qed.

(** X14. Through any sequence of public calls on a fresh clock, every
    registered timer is live ([expired = false]) and has its [next_time]
    at or before its [stop_time], at every point where a call has come
    back. *)
Theorem registered_timers_live_within_stop (fuel : nat) (ops : list op)
    (initial_time : datetime) (events : list (TimeEvent.t * Handler))
    (c : TestClock.t) :
  In (events, c) (run fuel ops (TestClock.init initial_time)) ->
  forall k tm, In (k, tm) (TestClock._timers c) ->
    TestTimer.expired tm = false /\
    forall s, TestTimer.stop_time tm = Some s -> TestTimer.next_time tm <= s.
Proof.
  intros Hin k tm Hkv.
  pose proof (run_live_within_stop fuel ops _ (wf_init initial_time)) as H.
  rewrite Forall_forall in H.
  specialize (H ltac:(constructor) _ Hin). simpl in H.
  unfold live_within_stop in H. rewrite Forall_forall in H.
  apply H. unfold PyDict.values. apply (in_map snd _ _ Hkv).
Qed.

Lemma registered_timers_live_within_stop_witness :
  let ops := [SetTimeAlert "a"%string 2 (PyCallable 1%nat);
              SetTimer "b"%string 3 (Some 0) (Some 9) (PyCallable 2%nat);
              AdvanceTime 7 (fun n => n)] in
  exists events c tm,
    In (events, c) (run 10 ops (TestClock.init 0)) /\
    In ("b"%string, tm) (TestClock._timers c) /\
    TestTimer.next_time tm = 9 /\
    TestTimer.expired tm = false.
Proof.
  intros ops. do 3 eexists.
  assert (Hin : In ([(TimeEvent.mk "a"%string 0%nat 2, 1%nat);
                     (TimeEvent.mk "b"%string 1%nat 3, 2%nat);
                     (TimeEvent.mk "b"%string 2%nat 6, 2%nat)],
                    TestClock.mk
                      [("b"%string,
                        TestTimer.mk "b"%string 3 0 9 (Some 9) false)]
                      [("b"%string, 2%nat)] None (Some 9) true false 7)
                  (run 10 ops (TestClock.init 0)))
    by (right; right; left; reflexivity).
  split; [exact Hin|]. split; [now left|]. split; [reflexivity|].
  exact (proj1 (registered_timers_live_within_stop 10 ops 0 _ _ Hin
                  "b"%string _ (or_introl eq_refl))).
Defined.

(** X15. No event is stamped after its timer's stop time: on a
    well-formed clock whose timers are live with [next_time] not past
    [stop_time], every event that [advance_time] returns bears the label
    of a registered timer whose [stop_time], when it has one, is at or
    after the event's timestamp. *)
Theorem advance_time_respects_stop_times (fuel : nat)
    (to_time : datetime) (uuid4 : nat -> GUID) (c c' : TestClock.t)
    (events : list (TimeEvent.t * Handler)) :
  wf c -> live_within_stop c ->
  TestClock.advance_time fuel to_time uuid4 c = Ok events c' ->
  forall e h, In (e, h) events ->
    exists tm,
      In (TimeEvent.label e, tm) (TestClock._timers c) /\
      forall s, TestTimer.stop_time tm = Some s ->
                TimeEvent.timestamp e <= s.
Proof.
  intros Hwf Hlive H e h Hin.
  destruct (advance_time_cases _ _ _ _ _ _ Hwf H)
    as [[-> _]|(n & Hh & Hn & Hle)]; [destruct Hin|].
  destruct (advance_time_fate _ _ _ _ _ _ _ Hwf Hh Hn Hle H) as (_ & F2).
  destruct (F2 e (in_map fst _ _ Hin))
    as ([k tm] & evs & tm' & Hkv & [[u Eu] _] & He).
  simpl in Eu.
  pose proof (advance_result _ _ _ _ _ _ Eu) as (_ & _ & Hla & _).
  rewrite Forall_forall in Hla. specialize (Hla e He).
  pose proof (wf_labelled c Hwf) as Hl. unfold labelled in Hl.
  rewrite Forall_forall in Hl. specialize (Hl (k, tm) Hkv). simpl in Hl.
  exists tm. split; [rewrite Hla, Hl; exact Hkv|].
  intros s Es.
  unfold live_within_stop in Hlive. rewrite Forall_forall in Hlive.
  destruct (Hlive tm) as [Hex Hs];
    [unfold PyDict.values; apply (in_map snd _ _ Hkv)|].
  pose proof (advance_stamps_within_stop _ _ _ _ _ _ _ Hex Es (Hs s Es) Eu)
    as Hall.
  rewrite Forall_forall in Hall. now apply Hall.
Qed.

Lemma advance_time_respects_stop_times_witness :
  let c := TestClock.mk
             [("a"%string, timer_of "a"%string 5 0 (Some 5))]
             [("a"%string, 1%nat)] None (Some 5) true false 0 in
  exists tm,
    In ("a"%string, tm) (TestClock._timers c) /\
    forall s, TestTimer.stop_time tm = Some s -> 5 <= s.
Proof.
  intros c.
  assert (H : TestClock.advance_time 10 10 (fun n => n) c
              = Ok [(TimeEvent.mk "a"%string 0%nat 5, 1%nat)]
                  (TestClock.mk [] [] None None false false 10))
    by reflexivity.
  refine (advance_time_respects_stop_times 10 10 (fun n => n) c _ _
            wf_one_alert _ H (TimeEvent.mk "a"%string 0%nat 5) 1%nat
            (or_introl eq_refl)).
  repeat constructor. simpl. intros s E. injection E as <-. lia.
Defined.

(** ** Advancing the clock in steps *)

(** The identifiers drawn do not matter to the timer nor to the
    timestamps. *)
Lemma advance_tape_indep (fuel : nat) : forall tm to_time u u' evs tm',
  TestTimer.advance fuel tm to_time u = Some (evs, tm') ->
  exists evs',
    TestTimer.advance fuel tm to_time u' = Some (evs', tm') /\
    map TimeEvent.timestamp evs' = map TimeEvent.timestamp evs.
Proof.
  induction fuel as [|fuel IH]; intros tm to_time u u' evs tm' H.
  - discriminate.
  - rewrite advance_S in *.
    destruct (negb (TestTimer.expired tm)
              && (to_time >=? TestTimer.next_time tm)).
    + destruct (TestTimer.advance fuel _ to_time (fun n => u (S n)))
        as [[evs1 tm1]|] eqn:E; [|discriminate].
      injection H as <- <-.
      destruct (IH _ _ _ (fun n => u' (S n)) _ _ E) as (evs' & E' & Hts).
      rewrite E'. eexists. split; [reflexivity|]. simpl. now rewrite Hts.
    + injection H as <- <-. eauto.
Qed.

Lemma advance_fuel_unique (f f' : nat) (tm : TestTimer.t)
    (to_time : datetime) (u : nat -> GUID) r r' :
  TestTimer.advance f tm to_time u = Some r ->
  TestTimer.advance f' tm to_time u = Some r' ->
  r = r'.
Proof.
  intros H H'.
  pose proof (advance_more_fuel _ _ _ _ _ H (Nat.max f f')
                (Nat.le_max_l _ _)) as E.
  pose proof (advance_more_fuel _ _ _ _ _ H' (Nat.max f f')
                (Nat.le_max_r _ _)) as E'.
  congruence.
Qed.

(** Two advances in a row, whatever identifiers they draw. *)
Lemma advance_steps_any (f1 : nat) : forall f2 tm t1 t2 u u2
    evs1 evs2 tm1 tm2,
  t1 <= t2 ->
  TestTimer.advance f1 tm t1 u = Some (evs1, tm1) ->
  TestTimer.advance f2 tm1 t2 u2 = Some (evs2, tm2) ->
  exists evs,
    TestTimer.advance (f1 + f2) tm t2 u = Some (evs, tm2) /\
    map TimeEvent.timestamp evs
    = map TimeEvent.timestamp evs1 ++ map TimeEvent.timestamp evs2.
Proof.
  induction f1 as [|f1 IH];
    intros f2 tm t1 t2 u u2 evs1 evs2 tm1 tm2 Hle H1 H2.
  - discriminate.
  - rewrite advance_S in H1.
    destruct (negb (TestTimer.expired tm)
              && (t1 >=? TestTimer.next_time tm)) eqn:Hd.
    + destruct (TestTimer.advance f1 _ t1 _) as [[evs tm']|] eqn:E;
        [|discriminate].
      injection H1 as <- <-.
      apply due_true in Hd. destruct Hd as [He Hn].
      assert (Hd2 : negb (TestTimer.expired tm)
                    && (t2 >=? TestTimer.next_time tm) = true)
        by (apply due_true; split; [exact He | lia]).
      change (S f1 + f2)%nat with (S (f1 + f2)).
      rewrite advance_S, Hd2.
      destruct (IH _ _ _ _ _ _ _ _ _ _ Hle E H2) as (evs0 & E0 & Hts).
      rewrite E0. eexists. split; [reflexivity|].
      simpl. now rewrite Hts.
    + injection H1 as <- <-.
      destruct (advance_tape_indep _ _ _ _ u _ _ H2) as (evs' & E' & Hts).
      exists evs'. split; [|exact Hts].
      eapply advance_more_fuel; [exact E' | lia].
Qed.

Lemma survivors_cons (fuel : nat) (to_time : datetime) (k : Label)
    (tm tm' : TestTimer.t) (evs : list TimeEvent.t) (u : nat -> GUID)
    (d : list (Label * TestTimer.t)) :
  TestTimer.advance fuel tm to_time u = Some (evs, tm') ->
  survivors fuel to_time ((k, tm) :: d)
  = (if TestTimer.expired tm' then [] else [(k, tm')])
      ++ survivors fuel to_time d.
Proof.
  intros H. unfold survivors. simpl.
  destruct (advance_tape_indep _ _ _ _ (fun _ => O) _ _ H)
    as (evs' & -> & _).
  reflexivity.
Qed.

Lemma survivors_keys (fuel : nat) (to_time : datetime)
    (d : list (Label * TestTimer.t)) (k : Label) :
  In k (PyDict.keys (survivors fuel to_time d)) -> In k (PyDict.keys d).
Proof.
  unfold survivors, PyDict.keys. rewrite !in_map_iff.
  intros ([k0 tm0] & <- & Hin). apply in_flat_map in Hin.
  destruct Hin as ([k1 tm1] & Hin & Hx). simpl in Hx.
  destruct (TestTimer.advance fuel tm1 to_time _) as [[evs tm']|];
    [|destruct Hx].
  destruct (TestTimer.expired tm'); [destruct Hx|].
  destruct Hx as [Hx|[]]. injection Hx as <- <-.
  exists (k1, tm1). split; [reflexivity | exact Hin].
Qed.

(** The registry and the handlers that the loop leaves. *)
Lemma iterate_timers_registry (rest : list (Label * TestTimer.t)) :
  forall kept fuel to_time uuid4 events c events' c',
    registry_split kept rest c ->
    TestClock.iterate_timers fuel to_time uuid4 rest events c
    = Ok events' c' ->
    TestClock._timers c' = kept ++ survivors fuel to_time rest /\
    forall k, In k (PyDict.keys (TestClock._timers c')) ->
      PyDict.get String.eqb k (TestClock._handlers c')
      = PyDict.get String.eqb k (TestClock._handlers c).
Proof.
  induction rest as [|[k tm] rest IH];
    intros kept fuel to_time uuid4 events c events' c' Hsplit H.
  - simpl in H. unfold ret in H. injection H as <- <-.
    destruct Hsplit as (Ht & _). rewrite Ht. tauto.
  - destruct (TestTimer.advance fuel tm to_time uuid4)
      as [[evs tm']|] eqn:Ea;
      [|simpl in H; rewrite Ea in H; discriminate].
    destruct (iterate_step _ _ _ _ _ _ _ _ _ _ Hsplit Ea)
      as (h & c1 & c2 & Eh1 & Hh & Hsplit2 & Eh2 & Hstep).
    destruct (collect_found k h c1) with (evs := evs) (events := events)
      as (events1 & Ec & _); [rewrite Eh1; exact Hh|].
    rewrite (Hstep _ _ Ec) in H.
    destruct Hsplit as (_ & Hnd & _ & _).
    destruct (NoDup_keys_middle _ _ _ _ Hnd) as (Hk1 & Hk2 & _).
    destruct (IH _ _ _ _ _ _ _ _ Hsplit2 H) as (Et & Hget).
    rewrite (survivors_cons _ _ _ _ _ _ _ _ Ea).
    split.
    + rewrite Et. destruct (TestTimer.expired tm'); simpl;
        [reflexivity | now rewrite <- app_assoc].
    + intros k0 Hk0. rewrite (Hget k0 Hk0), Eh2.
      destruct (TestTimer.expired tm'); [|reflexivity].
      apply get_pop_other. intros ->.
      rewrite Et, keys_app, in_app_iff in Hk0.
      destruct Hk0 as [Hk0|Hk0]; [tauto|].
      apply Hk2. eapply survivors_keys; exact Hk0.
Qed.

Lemma advance_time_registry (fuel : nat) (to_time : datetime)
    (uuid4 : nat -> GUID) (c c' : TestClock.t) (n : datetime)
    (events : list (TimeEvent.t * Handler)) :
  wf c ->
  TestClock.has_timers c = true ->
  TestClock.next_event_time c = Some n ->
  n <= to_time ->
  TestClock.advance_time fuel to_time uuid4 c = Ok events c' ->
  TestClock._timers c' = survivors fuel to_time (TestClock._timers c) /\
  forall k, In k (PyDict.keys (TestClock._timers c')) ->
    PyDict.get String.eqb k (TestClock._handlers c')
    = PyDict.get String.eqb k (TestClock._handlers c).
Proof.
  intros Hwf Hh Hn Hle H.
  destruct (advance_time_busy_Ok _ _ _ _ _ _ _ Hh Hn Hle H)
    as (pre & c1 & Hit & _ & Et & Eh & _).
  destruct (iterate_timers_registry _ _ _ _ _ _ _ _ _ (wf_split c Hwf) Hit)
    as (R1 & R2).
  rewrite Et, Eh. split; [exact R1 | exact R2].
Qed.

(** The timers that make it through two calls are those that make it
    through one. *)
Lemma survivors_compose (f1 f2 f3 : nat) (t1 t2 : datetime) :
  t1 <= t2 ->
  forall d,
    (forall kv, In kv d ->
       exists r, TestTimer.advance f1 (snd kv) t1 (fun _ => O) = Some r) ->
    (forall kv, In kv (survivors f1 t1 d) ->
       exists r, TestTimer.advance f2 (snd kv) t2 (fun _ => O) = Some r) ->
    (forall kv, In kv d ->
       exists r, TestTimer.advance f3 (snd kv) t2 (fun _ => O) = Some r) ->
    survivors f2 t2 (survivors f1 t1 d) = survivors f3 t2 d.
Proof.
  intros Hle. induction d as [|[k tm] d IH]; intros H1 H2 H3;
    [reflexivity|].
  destruct (H1 (k, tm) (or_introl eq_refl)) as ([evs1 tm1] & E1).
  destruct (H3 (k, tm) (or_introl eq_refl)) as ([evs3 tm3] & E3).
  simpl in E1, E3.
  rewrite (survivors_cons _ _ _ _ _ _ _ _ E1) in *.
  rewrite (survivors_cons _ _ _ _ _ _ _ _ E3).
  assert (IH' : survivors f2 t2 (survivors f1 t1 d) = survivors f3 t2 d).
  { apply IH.
    - intros kv Hkv. apply H1. now right.
    - intros kv Hkv. apply H2. apply in_or_app. now right.
    - intros kv Hkv. apply H3. now right. }
  destruct (TestTimer.expired tm1) eqn:Ex1.
  - (* expired at [t1]: gone in both *)
    simpl app. rewrite IH'.
    pose proof (advance_settled O tm1 t2 (fun _ => O) (or_introl Ex1))
      as E2.
    destruct (advance_steps_any _ _ _ _ _ _ _ _ _ _ _ Hle E1 E2)
      as (evs & E & _).
    pose proof (advance_fuel_unique _ _ _ _ _ _ _ E E3) as Heq.
    injection Heq as _ <-. now rewrite Ex1.
  - destruct (H2 (k, tm1) (or_introl eq_refl)) as ([evs2 tm2] & E2).
    simpl in E2. simpl app.
    rewrite (survivors_cons _ _ _ _ _ _ _ _ E2), IH'.
    destruct (advance_steps_any _ _ _ _ _ _ _ _ _ _ _ Hle E1 E2)
      as (evs & E & _).
    pose proof (advance_fuel_unique _ _ _ _ _ _ _ E E3) as Heq.
    injection Heq as _ <-. reflexivity.
Qed.

Lemma survivors_settled (fuel : nat) (to_time : datetime)
    (d : list (Label * TestTimer.t)) :
  Forall (settled to_time) (PyDict.values d) ->
  survivors (S fuel) to_time d = d.
Proof.
  induction d as [|[k tm] d IH]; intros H; [reflexivity|].
  simpl in H. inversion H as [|? ? [He Hn] Hd]; subst.
  rewrite (survivors_cons _ _ k tm tm [] (fun _ => O))
    by (apply advance_settled; now right).
  rewrite He, IH by exact Hd. reflexivity.
Qed.

Lemma dict_ext {V} (d1 d2 : list (Label * V)) :
  PyDict.keys d1 = PyDict.keys d2 ->
  NoDup (PyDict.keys d1) ->
  (forall k, In k (PyDict.keys d1) ->
     PyDict.get String.eqb k d1 = PyDict.get String.eqb k d2) ->
  d1 = d2.
Proof.
  revert d2. induction d1 as [|[k1 v1] d1 IH]; intros [|[k2 v2] d2] Hk Hnd Hg;
    simpl in Hk; try discriminate; [reflexivity|].
  injection Hk as -> Hk. inversion Hnd as [|? ? Hn Hnd']; subst.
  pose proof (Hg k2 (or_introl eq_refl)) as Hhead. simpl in Hhead.
  rewrite String.eqb_refl in Hhead. injection Hhead as ->.
  f_equal. apply IH; [exact Hk | exact Hnd'|].
  intros k Hin. specialize (Hg k (or_intror Hin)). simpl in Hg.
  destruct (String.eqb k k2) eqn:E; [|exact Hg].
  apply String.eqb_eq in E. subst k. contradiction.
Qed.

Lemma idle_settled (c : TestClock.t) (t1 t2 : datetime) :
  timing_ok c -> idle c t2 ->
  Forall (settled t1) (PyDict.values (TestClock._timers c)) ->
  Forall (settled t2) (PyDict.values (TestClock._timers c)).
Proof.
  unfold timing_ok, idle, next_times. intros Ht Hi Hs.
  destruct (TestClock._timers c) as [|kv d]; [constructor|].
  destruct Ht as (Hb & m & Em & _ & Am).
  destruct Hi as [Hi|(n & En & Hlt)]; [congruence|].
  rewrite En in Em. injection Em as <-.
  rewrite Forall_forall in *. intros tm Hin.
  destruct (Hs tm Hin) as [He _]. split; [exact He|].
  specialize (Am (TestTimer.next_time tm) (in_map _ _ _ Hin)). lia.
Qed.

(** The dummy-tape advance of every registered timer succeeds whenever
    the call did. *)
Lemma advance_time_each_advanced (fuel : nat) (to_time : datetime)
    (uuid4 : nat -> GUID) (c c' : TestClock.t) (n : datetime)
    (events : list (TimeEvent.t * Handler)) :
  wf c ->
  TestClock.has_timers c = true ->
  TestClock.next_event_time c = Some n ->
  n <= to_time ->
  TestClock.advance_time fuel to_time uuid4 c = Ok events c' ->
  forall kv, In kv (TestClock._timers c) ->
    exists r, TestTimer.advance fuel (snd kv) to_time (fun _ => O) = Some r.
Proof.
  intros Hwf Hh Hn Hle H kv Hkv.
  destruct (advance_time_fate _ _ _ _ _ _ _ Hwf Hh Hn Hle H) as (F1 & _).
  destruct (F1 kv Hkv) as (evs & tm' & [u Eu] & _).
  destruct (advance_tape_indep _ _ _ _ (fun _ => O) _ _ Eu) as (evs' & E & _).
  eauto.
Qed.

Lemma registry_determines_clock (c2 c3 : TestClock.t) :
  wf c2 -> wf c3 ->
  TestClock._timers c2 = TestClock._timers c3 ->
  (forall k, In k (PyDict.keys (TestClock._timers c2)) ->
     PyDict.get String.eqb k (TestClock._handlers c2)
     = PyDict.get String.eqb k (TestClock._handlers c3)) ->
  TestClock._handlers c2 = TestClock._handlers c3 /\
  TestClock.has_timers c2 = TestClock.has_timers c3 /\
  TestClock.next_event_time c2 = TestClock.next_event_time c3.
Proof.
  intros W2 W3 Et Hg. split.
  - apply dict_ext.
    + rewrite <- (wf_keys c2 W2), <- (wf_keys c3 W3). now rewrite Et.
    + rewrite <- (wf_keys c2 W2). apply W2.
    + intros k Hk. apply Hg. now rewrite (wf_keys c2 W2).
  - apply timing_unique; [apply W2 | apply W3 | exact Et].
Qed.

Lemma survivors_fuel (f f' : nat) (to_time : datetime) :
  forall d,
    (forall kv, In kv d ->
       exists r, TestTimer.advance f (snd kv) to_time (fun _ => O) = Some r) ->
    (forall kv, In kv d ->
       exists r, TestTimer.advance f' (snd kv) to_time (fun _ => O) = Some r) ->
    survivors f to_time d = survivors f' to_time d.
Proof.
  induction d as [|[k tm] d IH]; intros H H'; [reflexivity|].
  destruct (H (k, tm) (or_introl eq_refl)) as ([evs tm1] & E).
  destruct (H' (k, tm) (or_introl eq_refl)) as ([evs' tm1'] & E').
  simpl in E, E'.
  rewrite (survivors_cons _ _ _ _ _ _ _ _ E).
  rewrite (survivors_cons _ _ _ _ _ _ _ _ E').
  pose proof (advance_fuel_unique _ _ _ _ _ _ _ E E') as Heq.
  injection Heq as _ <-. f_equal.
  apply IH; intros kv Hkv; [apply H | apply H']; now right.
Qed.

(** The guard of [advance_time] either holds or does not. *)
Lemma advance_time_guard (c : TestClock.t) (to_time : datetime) :
  wf c ->
  idle c to_time \/
  exists n, TestClock.has_timers c = true /\
            TestClock.next_event_time c = Some n /\ n <= to_time.
Proof.
  intros Hwf. destruct (TestClock.has_timers c) eqn:Hh; [|left; now left].
  destruct (timing_ok_busy c (wf_timing c Hwf) Hh) as [m Em].
  destruct (Z_lt_le_dec to_time m) as [Hlt|Hge].
  - left. right. eauto.
  - right. eauto.
Qed.

Lemma advance_time_busy_settled (fuel : nat) (to_time : datetime)
    (uuid4 : nat -> GUID) (c c' : TestClock.t) (n : datetime)
    (events : list (TimeEvent.t * Handler)) :
  wf c ->
  TestClock.has_timers c = true ->
  TestClock.next_event_time c = Some n ->
  n <= to_time ->
  TestClock.advance_time fuel to_time uuid4 c = Ok events c' ->
  wf c' /\
  Forall (settled to_time) (PyDict.values (TestClock._timers c')) /\
  forall k, In k (PyDict.keys (TestClock._timers c')) ->
            In k (PyDict.keys (TestClock._timers c)).
Proof.
  intros Hwf Hh Hn Hle H.
  pose proof (advance_time_wf fuel to_time uuid4 c Hwf) as Hw.
  rewrite H in Hw.
  destruct Hw as (W & [(Hi & _ & _)|(_ & Hs)] & Hsub & _).
  - destruct Hi as [Hi|(m & Em & Hlt)]; [congruence|].
    rewrite Hn in Em. injection Em as <-. lia.
  - tauto.
Qed.

(** X16. Advancing the clock in two steps leaves the registry that
    advancing it in one step leaves: on a well-formed clock, after
    [advance_time(t1)] and then [advance_time(t2)], [t1 <= t2], the
    timers, the handlers, [has_timers] and [next_event_time] are those
    that a single [advance_time(t2)] leaves. *)
Theorem advance_time_in_steps (c c1 c2 c3 : TestClock.t) (t1 t2 : datetime)
    (f1 f2 f3 : nat) (u1 u2 u3 : nat -> GUID)
    (ev1 ev2 ev3 : list (TimeEvent.t * Handler)) :
  wf c -> t1 <= t2 ->
  TestClock.advance_time f1 t1 u1 c = Ok ev1 c1 ->
  TestClock.advance_time f2 t2 u2 c1 = Ok ev2 c2 ->
  TestClock.advance_time f3 t2 u3 c = Ok ev3 c3 ->
  TestClock._timers c2 = TestClock._timers c3 /\
  TestClock._handlers c2 = TestClock._handlers c3 /\
  TestClock.has_timers c2 = TestClock.has_timers c3 /\
  TestClock.next_event_time c2 = TestClock.next_event_time c3.
Proof.
  intros Hwf Hle H1 H2 H3.
  assert (Hfin : wf c2 /\ wf c3 /\
                 TestClock._timers c2 = TestClock._timers c3 /\
                 forall k, In k (PyDict.keys (TestClock._timers c2)) ->
                   PyDict.get String.eqb k (TestClock._handlers c2)
                   = PyDict.get String.eqb k (TestClock._handlers c3)).
  { destruct (advance_time_guard c t1 Hwf) as [Hi1|(n & Hh & Hn & Hn1)].
    - (* the first call does nothing *)
      rewrite (advance_time_idle _ _ _ _ Hi1) in H1.
      injection H1 as <- <-.
      destruct (advance_time_guard c t2 Hwf) as [Hi2|(n & Hh & Hn & Hn2)].
      + rewrite (advance_time_idle _ _ _ _ Hi2) in H2.
        rewrite (advance_time_idle _ _ _ _ Hi2) in H3.
        injection H2 as <- <-. injection H3 as <- <-. tauto.
      + destruct (advance_time_busy_settled _ _ _ _ _ _ _ Hwf Hh Hn Hn2 H2)
          as (W2 & _ & _).
        destruct (advance_time_busy_settled _ _ _ _ _ _ _ Hwf Hh Hn Hn2 H3)
          as (W3 & _ & _).
        destruct (advance_time_registry _ _ _ _ _ _ _ Hwf Hh Hn Hn2 H2)
          as (R2 & G2).
        destruct (advance_time_registry _ _ _ _ _ _ _ Hwf Hh Hn Hn2 H3)
          as (R3 & G3).
        assert (Et : TestClock._timers c2 = TestClock._timers c3).
        { rewrite R2, R3.
          apply survivors_fuel;
            eapply advance_time_each_advanced; eassumption. }
        split; [exact W2|]. split; [exact W3|]. split; [exact Et|].
        intros k Hk. rewrite (G2 k Hk). symmetry. apply G3.
        now rewrite <- Et.
    - (* the first call advances the timers to [t1] *)
      assert (Hn3 : n <= t2) by lia.
      destruct (advance_time_busy_settled _ _ _ _ _ _ _ Hwf Hh Hn Hn1 H1)
        as (W1 & Hs1 & _).
      destruct (advance_time_busy_settled _ _ _ _ _ _ _ Hwf Hh Hn Hn3 H3)
        as (W3 & _ & _).
      destruct (advance_time_registry _ _ _ _ _ _ _ Hwf Hh Hn Hn1 H1)
        as (R1 & G1).
      destruct (advance_time_registry _ _ _ _ _ _ _ Hwf Hh Hn Hn3 H3)
        as (R3 & G3).
      destruct (advance_time_guard c1 t2 W1) as [Hi2|(m & Hh2 & Hm & Hm2)].
      + (* the second call does nothing *)
        rewrite (advance_time_idle _ _ _ _ Hi2) in H2.
        injection H2 as <- <-.
        pose proof (idle_settled c1 t1 t2 (wf_timing c1 W1) Hi2 Hs1) as Hs2.
        assert (Et : TestClock._timers c1 = TestClock._timers c3).
        { rewrite R3.
          rewrite <- (survivors_compose f1 1 f3 t1 t2 Hle
                        (TestClock._timers c)).
          - rewrite <- R1. symmetry. now apply survivors_settled.
          - eapply advance_time_each_advanced; eassumption.
          - rewrite <- R1. intros kv Hkv. rewrite Forall_forall in Hs2.
            eexists. apply advance_settled. right.
            apply (Hs2 (snd kv)). unfold PyDict.values. now apply in_map.
          - eapply advance_time_each_advanced; eassumption. }
        split; [exact W1|]. split; [exact W3|]. split; [exact Et|].
        intros k Hk. rewrite (G1 k Hk). symmetry. apply G3.
        now rewrite <- Et.
      + destruct (advance_time_busy_settled _ _ _ _ _ _ _ W1 Hh2 Hm Hm2 H2)
          as (W2 & _ & Hsub2).
        destruct (advance_time_registry _ _ _ _ _ _ _ W1 Hh2 Hm Hm2 H2)
          as (R2 & G2).
        assert (Et : TestClock._timers c2 = TestClock._timers c3).
        { rewrite R2, R3, R1.
          apply (survivors_compose f1 f2 f3 t1 t2 Hle).
          - eapply advance_time_each_advanced; eassumption.
          - rewrite <- R1.
            eapply advance_time_each_advanced; eassumption.
          - eapply advance_time_each_advanced; eassumption. }
        split; [exact W2|]. split; [exact W3|]. split; [exact Et|].
        intros k Hk. rewrite (G2 k Hk), (G1 k (Hsub2 k Hk)).
        symmetry. apply G3. now rewrite <- Et. }
  destruct Hfin as (W2 & W3 & Et & Hg).
  split; [exact Et|].
  now apply registry_determines_clock.
Qed.

Lemma advance_time_in_steps_witness :
  let c := TestClock.mk
             [("r"%string, timer_of "r"%string 2 0 None)]
             [("r"%string, 7%nat)] None (Some 2) true false 0 in
  exists ev1 c1 ev2 c2 ev3 c3,
    TestClock.advance_time 10 3 (fun n => n) c = Ok ev1 c1 /\
    TestClock.advance_time 10 7 (fun n => (n + 5)%nat) c1 = Ok ev2 c2 /\
    TestClock.advance_time 10 7 (fun n => n) c = Ok ev3 c3 /\
    TestClock._timers c2 = TestClock._timers c3 /\
    TestClock._handlers c2 = TestClock._handlers c3 /\
    TestClock.has_timers c2 = TestClock.has_timers c3 /\
    TestClock.next_event_time c2 = TestClock.next_event_time c3.
Proof.
  intros c.
  assert (H1 : TestClock.advance_time 10 3 (fun n => n) c
               = Ok [(TimeEvent.mk "r"%string 0%nat 2, 7%nat)]
                   (TestClock.mk
                      [("r"%string,
                        TestTimer.mk "r"%string 2 0 4 None false)]
                      [("r"%string, 7%nat)] None (Some 4) true false 3))
    by reflexivity.
  assert (H2 : TestClock.advance_time 10 7 (fun n => (n + 5)%nat)
                 (TestClock.mk
                    [("r"%string,
                      TestTimer.mk "r"%string 2 0 4 None false)]
                    [("r"%string, 7%nat)] None (Some 4) true false 3)
               = Ok [(TimeEvent.mk "r"%string 5%nat 4, 7%nat);
                     (TimeEvent.mk "r"%string 6%nat 6, 7%nat)]
                   (TestClock.mk
                      [("r"%string,
                        TestTimer.mk "r"%string 2 0 8 None false)]
                      [("r"%string, 7%nat)] None (Some 8) true false 7))
    by reflexivity.
  assert (H3 : TestClock.advance_time 10 7 (fun n => n) c
               = Ok [(TimeEvent.mk "r"%string 0%nat 2, 7%nat);
                     (TimeEvent.mk "r"%string 1%nat 4, 7%nat);
                     (TimeEvent.mk "r"%string 2%nat 6, 7%nat)]
                   (TestClock.mk
                      [("r"%string,
                        TestTimer.mk "r"%string 2 0 8 None false)]
                      [("r"%string, 7%nat)] None (Some 8) true false 7))
    by reflexivity.
  do 6 eexists.
  split; [exact H1|]. split; [exact H2|]. split; [exact H3|].
  apply (advance_time_in_steps c _ _ _ 3 7 _ _ _ _ _ _ _ _ _
           wf_one_timer ltac:(lia) H1 H2 H3).
Defined.

(** ** What a setter or a cancel leaves alone *)

Lemma get_set_other {V} (k k' : Label) (v : V) (d : list (Label * V)) :
  k' <> k ->
  PyDict.get String.eqb k' (PyDict.set String.eqb k v d)
  = PyDict.get String.eqb k' d.
Proof.
  intros Hne. induction d as [|[k0 v0] d IH]; simpl.
  - destruct (String.eqb k' k) eqn:E; [|reflexivity].
    apply String.eqb_eq in E. contradiction.
  - destruct (String.eqb k k0) eqn:E0; simpl.
    + apply String.eqb_eq in E0. subst k0.
      destruct (String.eqb k' k) eqn:E; [|reflexivity].
      apply String.eqb_eq in E. contradiction.
    + now rewrite IH.
Qed.

Lemma add_timer_frame (timer : TestTimer.t) (h : Handler)
    (c c1 : TestClock.t) (k : Label) :
  k <> TestTimer.label timer ->
  TestClock._add_timer timer h c = Ok tt c1 ->
  PyDict.get String.eqb k (TestClock._timers c1)
  = PyDict.get String.eqb k (TestClock._timers c) /\
  PyDict.get String.eqb k (TestClock._handlers c1)
  = PyDict.get String.eqb k (TestClock._handlers c) /\
  TestClock.time_now c1 = TestClock.time_now c /\
  TestClock._default_handler c1 = TestClock._default_handler c.
Proof.
  intros Hne H.
  destruct (add_timer_ok timer h c) as (b & n & E & _).
  rewrite E in H. injection H as <-. simpl.
  rewrite !get_set_other by exact Hne. tauto.
Qed.

(** X17. One label at a time: a successful [set_time_alert] or
    [set_timer] of a label [l], and any [cancel_timer(l)], leave the
    timer and the handler of every other label, the clock's time and its
    default handler as they were. *)
Theorem other_labels_are_left_alone (c c1 : TestClock.t) (l k : Label)
    (a : datetime) (i : timedelta) (st sp : option datetime) (h : pyobj) :
  k <> l ->
  TestClock.set_time_alert l a h c = Ok tt c1 \/
  TestClock.set_timer l i st sp h c = Ok tt c1 \/
  TestClock.cancel_timer l c = Ok tt c1 ->
  PyDict.get String.eqb k (TestClock._timers c1)
  = PyDict.get String.eqb k (TestClock._timers c) /\
  PyDict.get String.eqb k (TestClock._handlers c1)
  = PyDict.get String.eqb k (TestClock._handlers c) /\
  TestClock.time_now c1 = TestClock.time_now c /\
  TestClock._default_handler c1 = TestClock._default_handler c.
Proof.
  intros Hne [H|[H|H]].
  - apply set_time_alert_Ok in H. destruct H as (_ & _ & h' & _ & H).
    apply (add_timer_frame _ _ _ _ k) in H; [exact H | exact Hne].
  - apply set_timer_Ok in H. destruct H as (_ & _ & h' & _ & H).
    apply (add_timer_frame _ _ _ _ k) in H; [exact H | exact Hne].
  - destruct (cancel_timer_ok l c) as (b & n & E & _).
    rewrite E in H. injection H as <-. simpl.
    rewrite !get_pop_other by exact Hne. tauto.
Qed.

Lemma other_labels_are_left_alone_witness :
  let c := TestClock.mk
             [("r"%string, timer_of "r"%string 2 0 None)]
             [("r"%string, 7%nat)] None (Some 2) true false 0 in
  exists c1,
    TestClock.set_time_alert "a"%string 5 (PyCallable 9%nat) c = Ok tt c1 /\
    PyDict.get String.eqb "r"%string (TestClock._timers c1)
    = Some (timer_of "r"%string 2 0 None) /\
    PyDict.get String.eqb "r"%string (TestClock._handlers c1)
    = Some 7%nat.
Proof.
  intros c. eexists.
  assert (H : TestClock.set_time_alert "a"%string 5 (PyCallable 9%nat) c
              = Ok tt (TestClock.mk
                         [("r"%string, timer_of "r"%string 2 0 None);
                          ("a"%string,
                           timer_of "a"%string 5 0 (Some 5))]
                         [("r"%string, 7%nat); ("a"%string, 9%nat)]
                         None (Some 2) true false 0))
    by reflexivity.
  split; [exact H|].
  destruct (other_labels_are_left_alone c _ "a"%string "r"%string 5 0
              None None (PyCallable 9%nat)
              ltac:(discriminate) (or_introl H)) as (Ht & Hh & _).
  split; [exact Ht | exact Hh].
Defined.

(** ** When [advance_time] does not return *)

(** A clock holding an alert for a time so far ahead that the moment
    after it is past [datetime.max], as [set_time_alert("a", ...)] leaves
    a fresh clock at the epoch. *)
Lemma wf_far_alert :
  wf (TestClock.mk
        [("a"%string,
          timer_of "a"%string 200000000000000000 0
            (Some 200000000000000000))]
        [("a"%string, 1%nat)] None (Some 200000000000000000) true false 0).
Proof.
  pose proof (run_wf O
                [SetTimeAlert "a"%string 200000000000000000
                   (PyCallable 1%nat)]
                (TestClock.init 0) (wf_init 0)) as H.
  apply Forall_inv in H. exact H.
Qed.

(** X18. [advance_time] needs every due timer to make progress: on a
    well-formed clock that holds a live timer which is due at [to_time]
    and not past its [stop_time], and whose interval is not positive
    (an alert set at the clock's current time) or whose next moment is
    no [datetime] (past [datetime.max]: [iterate_next] drops the
    [OverflowError] and leaves [next_time] as it is), the call
    [advance_time(to_time)] never returns, whatever the other timers. *)
Theorem advance_time_needs_progress (to_time : datetime)
    (c : TestClock.t) (k : Label) (tm : TestTimer.t) :
  wf c ->
  In (k, tm) (TestClock._timers c) ->
  TestTimer.expired tm = false ->
  TestTimer.next_time tm <= to_time ->
  (forall s, TestTimer.stop_time tm = Some s -> TestTimer.next_time tm <= s) ->
  TestTimer.interval tm <= 0 \/
  in_range (TestTimer.next_time tm + TestTimer.interval tm) = false ->
  forall fuel uuid4, TestClock.advance_time fuel to_time uuid4 c = Timeout.
Proof.
  intros Hwf Hin He Hdue Hs Hi fuel uuid4.
  assert (Hguard : exists n, TestClock.has_timers c = true /\
                             TestClock.next_event_time c = Some n /\
                             n <= to_time).
  { pose proof (wf_timing c Hwf) as Ht.
    unfold timing_ok, next_times in Ht.
    destruct (TestClock._timers c) as [|kv d] eqn:Ec; [destruct Hin|].
    destruct Ht as (Hh & m & Em & _ & Am). exists m.
    split; [exact Hh|]. split; [exact Em|].
    rewrite Forall_forall in Am.
    assert (m <= TestTimer.next_time tm).
    { apply Am. apply in_map. unfold PyDict.values.
      apply (in_map snd _ _ Hin). }
    lia. }
  destruct Hguard as (n & Hh & Hn & Hle).
  pose proof (advance_time_wf fuel to_time uuid4 c Hwf) as Hw.
  destruct (TestClock.advance_time fuel to_time uuid4 c)
    as [events c'|e c'|] eqn:E; [|contradiction | reflexivity].
  exfalso.
  destruct (advance_time_fate _ _ _ _ _ _ _ Hwf Hh Hn Hle E) as (F1 & _).
  destruct (F1 (k, tm) Hin) as (evs & tm' & [u Eu] & _). simpl in Eu.
  rewrite advance_stuck in Eu; [discriminate | | | |]; assumption.
Qed.

Lemma advance_time_needs_progress_witness :
  let a := 200000000000000000 in
  let c := TestClock.mk
             [("a"%string, timer_of "a"%string a 0 (Some a))]
             [("a"%string, 1%nat)] None (Some a) true false 0 in
  in_range a = true /\
  forall fuel uuid4, TestClock.advance_time fuel a uuid4 c = Timeout.
Proof.
  intros a c. split; [reflexivity|].
  apply (advance_time_needs_progress a c "a"%string
           (timer_of "a"%string a 0 (Some a)) wf_far_alert).
  - now left.
  - reflexivity.
  - simpl. lia.
  - simpl. intros s E. injection E as <-. lia.
  - right. reflexivity.
Defined.
